(** * vm_shutdown: bulk shutdown of the running virtual machines

    A shallow embedding of [tools/labs/vm_shutdown.py].  The script talks to
    the hypervisor through [virsh], reads the wall clock, sleeps and prints;
    all of these are made explicit here: the answers of the outside world are
    a [World], the calls the script makes are recorded as a list of [event]s,
    and Python exceptions (including the [SystemExit] raised by [exit]) are
    the [Raise] results of a small state-and-error monad. *)

From Stdlib Require Import ZArith List String Ascii Bool Arith Lia Floats.
Import ListNotations.

Set Implicit Arguments.

(** ** Python values used by the script *)

(** Exceptions that can leave the script.  [exit(n)] raises [SystemExit n];
    [subprocess.check_output] raises [CalledProcessError] on a non-zero
    return code; [int] raises on a float that is not finite and float
    division raises on a zero divisor; [time.sleep] raises [ValueError],
    [OverflowError] or [OSError] on a length it refuses. *)
Inductive exn : Type :=
| SystemExit (code : Z)
| CalledProcessError (returncode : Z)
| ValueError
| OverflowError
| ZeroDivisionError
| OSError.

(** The exceptions of [time.sleep] on a float. *)
Inductive sleep_exn : Type := Sleep_ValueError | Sleep_OverflowError | Sleep_OSError.

Definition exn_of_sleep (e : sleep_exn) : exn :=
  match e with
  | Sleep_ValueError => ValueError
  | Sleep_OverflowError => OverflowError
  | Sleep_OSError => OSError
  end.

Inductive result (A : Type) : Type :=
| Ok (a : A)
| Raise (e : exn)
| OutOfFuel.
Arguments Raise {A} e.
Arguments OutOfFuel {A}.

Module Py.

(** A [str]: the code points of its characters, in order. *)
Definition str : Type := list N.

(** The [str] of a literal of this file. *)
Definition text (s : string) : str := map N_of_ascii (list_ascii_of_string s).

(** [int(x)] on a float: truncation towards zero, [OverflowError] on an
    infinity and [ValueError] on a NaN. *)
Definition int (x : float) : result Z :=
  match Prim2SF x with
  | S754_zero _ => Ok 0%Z
  | S754_infinity _ => Raise OverflowError
  | S754_nan => Raise ValueError
  | S754_finite s m e =>
      let v := Z.shiftl (Zpos m) e in
      Ok (if s then (- v)%Z else v)
  end.

(** [a / b] on floats: [ZeroDivisionError] when [b == 0.0]. *)
Definition div (a b : float) : result float :=
  if PrimFloat.eqb b 0%float then Raise ZeroDivisionError
  else Ok (PrimFloat.div a b).

(** The characters [str.strip()] removes, those with [c.isspace()]: the
    white space of Unicode, U+0009-U+000D, U+001C-U+0020, U+0085, U+00A0,
    U+1680, U+2000-U+200A, U+2028, U+2029, U+202F, U+205F and U+3000. *)
Definition isspace (c : N) : bool :=
  (((9 <=? c) && (c <=? 13)) || ((28 <=? c) && (c <=? 32))
   || (c =? 133) || (c =? 160) || (c =? 5760)
   || ((8192 <=? c) && (c <=? 8202))
   || (c =? 8232) || (c =? 8233) || (c =? 8239) || (c =? 8287) || (c =? 12288))%N.

Fixpoint lstrip (s : str) : str :=
  match s with
  | [] => []
  | c :: s' => if isspace c then lstrip s' else s
  end.

Fixpoint rstrip (s : str) : str :=
  match s with
  | [] => []
  | c :: s' =>
      match rstrip s' with
      | [] => if isspace c then [] else [c]
      | r => c :: r
      end
  end.

(** [s.strip()] *)
Definition strip (s : str) : str := rstrip (lstrip s).

Definition newline : N := 10%N.

(** [s.split("\n")] *)
Fixpoint split_lines (s : str) : list str :=
  match s with
  | [] => [[]]
  | c :: s' =>
      if (c =? newline)%N then [] :: split_lines s'
      else match split_lines s' with
           | [] => [[c]]
           | h :: t => (c :: h) :: t
           end
  end.

(** [sep.join(l)] *)
Fixpoint join (sep : str) (l : list str) : str :=
  match l with
  | [] => []
  | x :: rest =>
      match rest with
      | [] => x
      | _ :: _ => x ++ sep ++ join sep rest
      end
  end.

(** What [time.sleep(secs)] of CPython makes of its argument before it
    sleeps: a NaN is a [ValueError]; the length is converted to a count of
    nanoseconds, [secs * 1e9], and a count outside of the 64-bit range is an
    [OverflowError] (an infinity included); a negative count is a
    [ValueError] (the count [2^63] wraps to a negative one); [None] is a
    length it accepts. *)
Definition sleep_check (secs : float) : option sleep_exn :=
  let d := PrimFloat.mul secs 1e9 in
  if negb (PrimFloat.eqb secs secs) then Some Sleep_ValueError
  else if PrimFloat.ltb d (-0x1p63) || PrimFloat.ltb 0x1p63 d
       then Some Sleep_OverflowError
  else if PrimFloat.ltb d 0 || PrimFloat.eqb d 0x1p63 then Some Sleep_ValueError
  else None.

End Py.

(** ** Command line options (the [options] object of [OptionParser]) *)

Record Options : Type := {
  interval : float;   (* -i, default 1 *)
  timeout : float;    (* -t, default 30 *)
  kill : bool;        (* -k *)
  verbose : bool;     (* -v *)
  zenity : bool       (* -z *)
}.

Definition default_options : Options :=
  {| interval := 1; timeout := 30; kill := false; verbose := false; zenity := false |}.

(** ** The outside world *)

(** A finished [virsh] process: its return code and what it wrote to
    standard output (already decoded, as [universal_newlines=True] does). *)
Record Completed : Type := { returncode : Z; stdout : Py.str }.

(** The answers of the environment, by call number: the [k]-th
    [virsh list], the [k]-th [virsh shutdown] and [virsh destroy] (which also
    see the machine they are called on) and the [k]-th reading of
    [time.time()]; and what [time.sleep] does with a length: [None] when it
    sleeps and returns, the exception when it refuses the length. *)
Record World : Type := {
  virsh_list : nat -> Completed;
  virsh_shutdown : nat -> Py.str -> Z;
  virsh_destroy : nat -> Py.str -> Z;
  clock : nat -> float;
  sleep : float -> option sleep_exn
}.

(** How many calls of each kind the script has made so far. *)
Record Calls : Type := {
  lists : nat;
  shutdowns : nat;
  destroys : nat;
  clocks : nat
}.

Definition no_calls : Calls :=
  {| lists := 0; shutdowns := 0; destroys := 0; clocks := 0 |}.

(** Everything the script prints, one constructor per [print] of the
    source (the wording of the lines is left to the source). *)
Inductive message : Type :=
| Summary (n : nat) (timeout : float) (kill : bool)        (* line 46 *)
| Zenity_sending                                           (* line 52 *)
| Shutdown_error (vm : Py.str) (code : Z)                  (* line 59 *)
| Shutdown_failed                                          (* line 64 *)
| Zenity_waiting (n : nat) (seconds_left : Z)              (* line 73 *)
| Zenity_percent (p : Z)                                   (* line 75 *)
| Still_waiting (t : float) (n : nat)                      (* line 77 *)
| Vm_names (vms : list Py.str)                             (* line 78 *)
| Timeout_kill (timeout : float)                           (* line 81 *)
| Zenity_kill (n : nat)                                    (* line 83 *)
| Destroy_error (vm : Py.str) (code : Z)                   (* line 92 *)
| Destroy_failed                                           (* line 95 *)
| Timeout_error (timeout : float)                          (* line 98 *)
| Zenity_hash                                              (* line 104, -z *)
| All_shut_down                                            (* line 104 *)
| Zenity_done.                                             (* line 106 *)

(** The effects of the script, in the order they happen.  [quiet] says that
    the output of the [virsh] call was sent to [DEVNULL]. *)
Inductive event : Type :=
| Virsh_list (out : Completed)
| Virsh_shutdown (vm : Py.str) (quiet : bool) (code : Z)
| Virsh_destroy (vm : Py.str) (quiet : bool) (code : Z)
| Time_time (now : float)
| Time_sleep (seconds : float)
| Print (m : message).

(** ** The monad: call counters in, events and a result out *)

Definition M (A : Type) : Type := Calls -> list event * Calls * result A.

Definition ret {A} (a : A) : M A := fun s => ([], s, Ok a).

Definition bind {A B} (m : M A) (f : A -> M B) : M B :=
  fun s =>
    match m s with
    | (tr, s1, Ok a) =>
        match f a s1 with
        | (tr', s2, r) => (tr ++ tr', s2, r)
        end
    | (tr, s1, Raise e) => (tr, s1, Raise e)
    | (tr, s1, OutOfFuel) => (tr, s1, OutOfFuel)
    end.

Definition raise {A} (e : exn) : M A := fun s => ([], s, Raise e).
Definition out_of_fuel {A} : M A := fun s => ([], s, OutOfFuel).
Definition lift {A} (r : result A) : M A := fun s => ([], s, r).

Declare Scope vm_scope.
Delimit Scope vm_scope with vm.
Notation "x <- m ;; k" := (bind m (fun x => k))
  (at level 61, m at next level, right associativity) : vm_scope.
Notation "m ;; k" := (bind m (fun _ => k))
  (at level 61, right associativity) : vm_scope.
Local Open Scope vm_scope.

(** [when b m]: an [if b:] block with no [else]. *)
Definition when (b : bool) (m : M unit) : M unit := if b then m else ret tt.

Definition print (m : message) : M unit := fun s => ([Print m], s, Ok tt).

(** [exit(code)] *)
Definition exit {A} (code : Z) : M A := raise (SystemExit code).

Section Script.

Variable W : World.
Variable options : Options.

(** [time.time()] *)
Definition time_time : M float :=
  fun s =>
    let now := clock W (clocks s) in
    ([Time_time now],
     {| lists := lists s; shutdowns := shutdowns s; destroys := destroys s;
        clocks := S (clocks s) |},
     Ok now).

(** [time.sleep(seconds)]: the script sleeps and goes on, or the call
    raises without a sleep. *)
Definition time_sleep (seconds : float) : M unit :=
  fun s =>
    match sleep W seconds with
    | None => ([Time_sleep seconds], s, Ok tt)
    | Some e => ([], s, Raise (exn_of_sleep e))
    end.

(** [subprocess.check_output(["virsh", "list", "--state-running", "--name"],
    universal_newlines=True)] *)
Definition check_output_virsh_list : M Py.str :=
  fun s =>
    let out := virsh_list W (lists s) in
    ([Virsh_list out],
     {| lists := S (lists s); shutdowns := shutdowns s; destroys := destroys s;
        clocks := clocks s |},
     if (returncode out =? 0)%Z then Ok (stdout out)
     else Raise (CalledProcessError (returncode out))).

(** [subprocess.call(["virsh", "shutdown", vm], ...)] *)
Definition call_virsh_shutdown (vm : Py.str) (quiet : bool) : M Z :=
  fun s =>
    let ok := virsh_shutdown W (shutdowns s) vm in
    ([Virsh_shutdown vm quiet ok],
     {| lists := lists s; shutdowns := S (shutdowns s); destroys := destroys s;
        clocks := clocks s |},
     Ok ok).

(** [subprocess.call(["virsh", "destroy", vm], ...)] *)
Definition call_virsh_destroy (vm : Py.str) (quiet : bool) : M Z :=
  fun s =>
    let ok := virsh_destroy W (destroys s) vm in
    ([Virsh_destroy vm quiet ok],
     {| lists := lists s; shutdowns := shutdowns s; destroys := S (destroys s);
        clocks := clocks s |},
     Ok ok).

(** The text of [virsh list --name] as a list of names (lines 24-25):
    [[] if not as_string else as_string.split("\n")] after [strip()]. *)
Definition parse_names (output : Py.str) : list Py.str :=
  match Py.strip output with
  | [] => []
  | as_string => Py.split_lines as_string
  end.

(** [list_running_vms()], lines 23-25. *)
Definition list_running_vms : M (list Py.str) :=
  output <- check_output_virsh_list ;;
  ret (parse_names output).

(** The loop of lines 53-60, started with the current [any_errors]. *)
Fixpoint shutdown_all (running_vms : list Py.str) (any_errors : bool) : M bool :=
  match running_vms with
  | [] => ret any_errors
  | vm :: rest =>
      ok <- call_virsh_shutdown vm (negb (verbose options)) ;;
      if (ok =? 0)%Z then shutdown_all rest any_errors
      else print (Shutdown_error vm ok) ;; shutdown_all rest true
  end.

(** The loop of lines 85-93, started with the current [any_errors]. *)
Fixpoint destroy_all (running_vms : list Py.str) (any_errors : bool) : M bool :=
  match running_vms with
  | [] => ret any_errors
  | vm :: rest =>
      ok <- call_virsh_destroy vm (negb (verbose options)) ;;
      if (ok =? 0)%Z then destroy_all rest any_errors
      else when (verbose options) (print (Destroy_error vm ok)) ;;
           destroy_all rest true
  end.

(** [t > options.timeout] *)
Definition timed_out (t : float) : bool := PrimFloat.ltb (timeout options) t.

(** Line 75, [int(100 * t/options.timeout) if t < options.timeout else 99]. *)
Definition progress_percent (t : float) : result Z :=
  if PrimFloat.ltb t (timeout options)
  then match Py.div (PrimFloat.mul 100 t) (timeout options) with
       | Ok q => Py.int q
       | Raise e => Raise e
       | OutOfFuel => OutOfFuel
       end
  else Ok 99%Z.

(** Lines 73-75, the two progress lines for [zenity --progress]. *)
Definition zenity_progress (num_of_vms : nat) (t : float) : M unit :=
  seconds_left <- lift (Py.int (PrimFloat.sub (timeout options) t)) ;;
  print (Zenity_waiting num_of_vms seconds_left) ;;
  percent <- lift (progress_percent t) ;;
  print (Zenity_percent percent).

(** Lines 72-78, what a tick reports. *)
Definition report (running_vms : list Py.str) (t : float) : M unit :=
  let num_of_vms := List.length running_vms in
  when (zenity options) (zenity_progress num_of_vms t) ;;
  when (verbose options || timed_out t)
    (print (Still_waiting t num_of_vms) ;; print (Vm_names running_vms)).

(** Lines 80-99, the branch taken when [t > options.timeout]; returning
    is the [break] of line 100. *)
Definition on_timeout (running_vms : list Py.str) (any_errors : bool) : M unit :=
  if kill options then
    print (Timeout_kill (timeout options)) ;;
    when (zenity options) (print (Zenity_kill (List.length running_vms))) ;;
    any_errors <- destroy_all running_vms any_errors ;;
    when any_errors (print Destroy_failed ;; exit 3)
  else
    print (Timeout_error (timeout options)) ;; exit 1.

(** One pass through the body of the [while] loop, lines 70-102:
    [None] is the [break], [Some vms] the running machines for the next
    test of the loop condition. *)
Definition loop_body (t0 : float) (running_vms : list Py.str) (any_errors : bool)
  : M (option (list Py.str)) :=
  now <- time_time ;;
  let t := PrimFloat.sub now t0 in
  report running_vms t ;;
  if timed_out t then
    on_timeout running_vms any_errors ;; ret None
  else
    time_sleep (interval options) ;;
    running_vms <- list_running_vms ;;
    ret (Some running_vms).

(** The [while running_vms:] loop, lines 69-102; [fuel] bounds the number
    of passes through its body. *)
Fixpoint poll (fuel : nat) (t0 : float) (running_vms : list Py.str) (any_errors : bool)
  : M unit :=
  match running_vms with
  | [] => ret tt
  | _ :: _ =>
      match fuel with
      | O => out_of_fuel
      | S fuel' =>
          next <- loop_body t0 running_vms any_errors ;;
          match next with
          | None => ret tt
          | Some running_vms => poll fuel' t0 running_vms any_errors
          end
      end
  end.

(** The module body, lines 42-107. *)
Definition main (fuel : nat) : M unit :=
  running_vms <- list_running_vms ;;
  print (Summary (List.length running_vms) (timeout options) (kill options)) ;;
  when (zenity options) (print Zenity_sending) ;;
  any_errors <- shutdown_all running_vms false ;;
  when any_errors (print Shutdown_failed ;; exit 3) ;;
  t0 <- time_time ;;
  poll fuel t0 running_vms any_errors ;;
  print (if zenity options then Zenity_hash else All_shut_down) ;;
  when (zenity options) (print Zenity_done) ;;
  exit 0.

End Script.

(** A run of the script: the events it caused and how it ended. *)
Definition run (W : World) (options : Options) (fuel : nat) : list event * result unit :=
  match main W options fuel no_calls with
  | (tr, _, r) => (tr, r)
  end.

(** ** Reading a trace *)

Definition shutdown_requests (tr : list event) : list Py.str :=
  flat_map (fun e => match e with Virsh_shutdown vm _ _ => [vm] | _ => [] end) tr.

Definition shutdown_codes (tr : list event) : list Z :=
  flat_map (fun e => match e with Virsh_shutdown _ _ ok => [ok] | _ => [] end) tr.

Definition destroy_requests (tr : list event) : list Py.str :=
  flat_map (fun e => match e with Virsh_destroy vm _ _ => [vm] | _ => [] end) tr.

Definition destroy_codes (tr : list event) : list Z :=
  flat_map (fun e => match e with Virsh_destroy _ _ ok => [ok] | _ => [] end) tr.

Definition clock_reads (tr : list event) : list float :=
  flat_map (fun e => match e with Time_time now => [now] | _ => [] end) tr.

Definition sleeps (tr : list event) : list float :=
  flat_map (fun e => match e with Time_sleep d => [d] | _ => [] end) tr.

Definition list_queries (tr : list event) : list Completed :=
  flat_map (fun e => match e with Virsh_list out => [out] | _ => [] end) tr.

(** The inventories the script obtained: one per [virsh list] that returned
    code 0. *)
Definition running_sets (tr : list event) : list (list Py.str) :=
  flat_map (fun e => match e with
                     | Virsh_list out =>
                         if (returncode out =? 0)%Z then [parse_names (stdout out)] else []
                     | _ => []
                     end) tr.

(** [ok != 0] for some return code. *)
Definition failed (codes : list Z) : bool :=
  existsb (fun ok => negb (ok =? 0)%Z) codes.

Definition any_dispatch_failed (tr : list event) : bool := failed (shutdown_codes tr).
Definition any_force_failed (tr : list event) : bool := failed (destroy_codes tr).

(** The values of [t] seen by the poll loop relative to a start [t0]. *)
Definition elapsed_since (t0 : float) (reads : list float) : list float :=
  map (fun now => PrimFloat.sub now t0) reads.

(** The values of [t] in a whole run: the first clock reading is [t0], each
    later one belongs to a pass through the loop. *)
Definition elapsed_at_ticks (tr : list event) : list float :=
  match clock_reads tr with
  | [] => []
  | t0 :: reads => elapsed_since t0 reads
  end.

(** Some pass through the loop saw [t > options.timeout]. *)
Definition deadline_passed (options : Options) (tr : list event) : bool :=
  existsb (timed_out options) (elapsed_at_ticks tr).

(** The return codes the world gives to a loop over [vms] that starts at
    call number [k]. *)
Fixpoint responses (f : nat -> Py.str -> Z) (k : nat) (vms : list Py.str) : list Z :=
  match vms with
  | [] => []
  | vm :: rest => f k vm :: responses f (S k) rest
  end.

(** Whether lines 73-75 can be computed for a tick at elapsed time [t]:
    both [int] conversions and the division go through. *)
Definition progress_computable (timeout t : float) : bool :=
  match Py.int (PrimFloat.sub timeout t) with
  | Ok _ =>
      if PrimFloat.ltb t timeout
      then match Py.div (PrimFloat.mul 100 t) timeout with
           | Ok q => match Py.int q with Ok _ => true | _ => false end
           | _ => false
           end
      else true
  | _ => false
  end.

(** The exceptions of the progress lines. *)
Definition formatting_error (e : exn) : Prop :=
  e = ValueError \/ e = OverflowError \/ e = ZeroDivisionError.

(** ** The outcome resolver as the specification words it (section 4.5) *)

Inductive Outcome : Type := Success | TimeoutNoForce | DispatchFailed | ForceFailed.

(** The precedence order of the specification. *)
Definition resolve (anyDispatchFailed timedOut forcing anyForceFailed : bool) : Outcome :=
  if anyDispatchFailed then DispatchFailed
  else if negb timedOut then Success
  else if negb forcing then TimeoutNoForce
  else if anyForceFailed then ForceFailed
  else Success.

(** The exit-code table of the specification (section 6). *)
Definition exit_code (o : Outcome) : Z :=
  match o with
  | Success => 0
  | TimeoutNoForce => 1
  | DispatchFailed => 3
  | ForceFailed => 3
  end.

(** The exit status of the process for a result of the script: the code
    given to [exit]; 1 when another exception leaves the script (the
    interpreter prints the traceback and exits with status 1); 0 when the
    script runs off its end.  Nothing for a run cut short by the fuel. *)
Definition process_status (r : result unit) : option Z :=
  match r with
  | Ok _ => Some 0%Z
  | Raise (SystemExit code) => Some code
  | Raise _ => Some 1%Z
  | OutOfFuel => None
  end.

(** ** The orchestration as the specification words it (sections 4.1-4.5) *)

(** The states of the poll loop of section 4.3; [TimedOut] carries the
    running set the deadline finds. *)
Inductive PollState : Type :=
| Polling
| AllDown
| TimedOut (running : list Py.str).

(** [listRunning()], section 4.1: the running set in the [k]-th answer of
    the hypervisor. *)
Definition listRunning (W : World) (k : nat) : list Py.str :=
  parse_names (stdout (virsh_list W k)).

(** The state machine of section 4.3, for at most [ticks] ticks; tick [k]
    reads the clock for the [k]-th time after the start and is followed by
    the [k]-th re-query.  [Polling -> AllDown] on an empty set;
    [Polling -> TimedOut] when the set is not empty and [elapsed > timeout];
    [Polling -> Polling] otherwise, with a re-query; [elapsed] is measured
    from the original start. *)
Fixpoint pollLoop (W : World) (options : Options) (ticks k : nat)
    (running : list Py.str) : PollState :=
  match running with
  | [] => AllDown
  | _ :: _ =>
      match ticks with
      | O => Polling
      | S ticks' =>
          let elapsed := PrimFloat.sub (clock W k) (clock W 0) in
          if PrimFloat.ltb (timeout options) elapsed then TimedOut running
          else pollLoop W options ticks' (S k) (listRunning W k)
      end
  end.

(** The outcome of a run as sections 4.2-4.5 put it together: dispatch to
    the initial running set, abort when a dispatch failed, otherwise poll,
    force-terminate the survivors of a timeout, and resolve.  Nothing when
    the loop is still polling after [ticks] ticks. *)
Definition orchestrate (W : World) (options : Options) (ticks : nat) : option Outcome :=
  let initial := listRunning W 0 in
  let anyDispatchFailed := failed (responses (virsh_shutdown W) 0 initial) in
  if anyDispatchFailed then Some (resolve true false (kill options) false)
  else match pollLoop W options ticks 1 initial with
       | Polling => None
       | AllDown => Some (resolve false false (kill options) false)
       | TimedOut running =>
           let anyForceFailed := failed (responses (virsh_destroy W) 0 running) in
           Some (resolve false true (kill options) anyForceFailed)
       end.

(** The runs in which no library call fails: every [virsh list] returns
    code 0, [time.sleep] accepts the interval and, with [-z], the progress
    lines of lines 73-75 can be computed at every reading of the clock. *)
Definition no_call_fails (W : World) (options : Options) : Prop :=
  (forall k, returncode (virsh_list W k) = 0%Z)
  /\ sleep W (interval options) = None
  /\ (zenity options = true ->
      forall k, progress_computable (timeout options)
                  (PrimFloat.sub (clock W (S k)) (clock W 0)) = true).

(** What C1 of the specification asks of a run: the exit status of the
    process is the code of the exit-code table for the outcome the resolver
    gives for the flags the run has accumulated. *)
Definition status_follows_table (W : World) (options : Options) (fuel : nat) : Prop :=
  forall status,
    process_status (snd (run W options fuel)) = Some status ->
    status = exit_code (resolve (any_dispatch_failed (fst (run W options fuel)))
                                (deadline_passed options (fst (run W options fuel)))
                                (kill options)
                                (any_force_failed (fst (run W options fuel)))).

(** ** The runs of the script as relations *)

(** The call state after [n] more shutdown or destroy requests, after one
    more clock reading and after one more [virsh list]. *)
Definition after_shutdowns (n : nat) (s : Calls) : Calls :=
  {| lists := lists s; shutdowns := n + shutdowns s; destroys := destroys s;
     clocks := clocks s |}.

Definition after_destroys (n : nat) (s : Calls) : Calls :=
  {| lists := lists s; shutdowns := shutdowns s; destroys := n + destroys s;
     clocks := clocks s |}.

Definition after_clock (s : Calls) : Calls :=
  {| lists := lists s; shutdowns := shutdowns s; destroys := destroys s;
     clocks := S (clocks s) |}.

Definition after_list (s : Calls) : Calls :=
  {| lists := S (lists s); shutdowns := shutdowns s; destroys := destroys s;
     clocks := clocks s |}.

(** The call state when the poll loop is entered. *)
Definition at_poll (running_vms : list Py.str) : Calls :=
  after_clock (after_shutdowns (List.length running_vms) (after_list no_calls)).

Section Relations.

Variable W : World.
Variable options : Options.

(** Lines 77-78. *)
Definition still_waiting_lines (running_vms : list Py.str) (t : float) : list message :=
  if verbose options || timed_out options t
  then [Still_waiting t (List.length running_vms); Vm_names running_vms]
  else [].

(** What a tick whose report goes through has printed (lines 72-78). *)
Definition report_lines (running_vms : list Py.str) (t : float) (msgs : list message) : Prop :=
  exists progress,
    msgs = progress ++ still_waiting_lines running_vms t
    /\ ((zenity options = false /\ progress = [])
        \/ (zenity options = true
            /\ progress_computable (timeout options) t = true
            /\ exists seconds_left percent,
                 Py.int (PrimFloat.sub (timeout options) t) = Ok seconds_left
                 /\ progress_percent options t = Ok percent
                 /\ progress = [Zenity_waiting (List.length running_vms) seconds_left;
                                Zenity_percent percent])).

(** What a tick has printed when its progress lines raise [e] (lines
    73-75): nothing when [int(options.timeout - t)] raises, the first of the
    two lines when the percentage does. *)
Definition progress_stops (running_vms : list Py.str) (t : float)
    (msgs : list message) (e : exn) : Prop :=
  (Py.int (PrimFloat.sub (timeout options) t) = Raise e /\ msgs = [])
  \/ (exists seconds_left,
        Py.int (PrimFloat.sub (timeout options) t) = Ok seconds_left
        /\ progress_percent options t = Raise e
        /\ msgs = [Zenity_waiting (List.length running_vms) seconds_left]).

(** The five ways through the loop body at call state [s], for a running
    set [running_vms] and the start time [t0]: the report raises; the
    deadline has passed and forcing is off; the deadline has passed and
    forcing is on; the deadline has not passed and the script sleeps; the
    deadline has not passed and [time.sleep] raises. *)
Inductive tick (t0 : float) (running_vms : list Py.str) (any_errors : bool) (s : Calls)
  : list event * Calls * result (option (list Py.str)) -> Prop :=
| tick_report_raises (msgs : list message) (e : exn) :
    let now := clock W (clocks s) in
    zenity options = true ->
    progress_computable (timeout options) (PrimFloat.sub now t0) = false ->
    formatting_error e ->
    progress_stops running_vms (PrimFloat.sub now t0) msgs e ->
    tick t0 running_vms any_errors s
      (Time_time now :: map Print msgs, after_clock s, Raise e)
| tick_timeout_exit (msgs : list message) :
    let now := clock W (clocks s) in
    report_lines running_vms (PrimFloat.sub now t0) msgs ->
    timed_out options (PrimFloat.sub now t0) = true ->
    kill options = false ->
    tick t0 running_vms any_errors s
      (Time_time now :: map Print (msgs ++ [Timeout_error (timeout options)]),
       after_clock s, Raise (SystemExit 1))
| tick_timeout_kill (msgs : list message) (dtr : list event) :
    let now := clock W (clocks s) in
    let announce :=
      Timeout_kill (timeout options)
      :: (if zenity options then [Zenity_kill (List.length running_vms)] else []) in
    let errors := any_errors || failed (destroy_codes dtr) in
    report_lines running_vms (PrimFloat.sub now t0) msgs ->
    timed_out options (PrimFloat.sub now t0) = true ->
    kill options = true ->
    destroy_all W options running_vms any_errors (after_clock s)
    = (dtr, after_destroys (List.length running_vms) (after_clock s), Ok errors) ->
    destroy_requests dtr = running_vms ->
    destroy_codes dtr = responses (virsh_destroy W) (destroys s) running_vms ->
    shutdown_requests dtr = [] -> shutdown_codes dtr = [] ->
    clock_reads dtr = [] -> sleeps dtr = [] -> list_queries dtr = [] ->
    running_sets dtr = [] ->
    tick t0 running_vms any_errors s
      (Time_time now :: map Print (msgs ++ announce) ++ dtr
         ++ (if errors then [Print Destroy_failed] else []),
       after_destroys (List.length running_vms) (after_clock s),
       if errors then Raise (SystemExit 3) else Ok None)
| tick_continue (msgs : list message) :
    let now := clock W (clocks s) in
    let out := virsh_list W (lists s) in
    report_lines running_vms (PrimFloat.sub now t0) msgs ->
    timed_out options (PrimFloat.sub now t0) = false ->
    sleep W (interval options) = None ->
    tick t0 running_vms any_errors s
      (Time_time now :: map Print msgs ++ [Time_sleep (interval options); Virsh_list out],
       after_list (after_clock s),
       if (returncode out =? 0)%Z then Ok (Some (parse_names (stdout out)))
       else Raise (CalledProcessError (returncode out)))
| tick_sleep_raises (msgs : list message) (e : sleep_exn) :
    let now := clock W (clocks s) in
    report_lines running_vms (PrimFloat.sub now t0) msgs ->
    timed_out options (PrimFloat.sub now t0) = false ->
    sleep W (interval options) = Some e ->
    tick t0 running_vms any_errors s
      (Time_time now :: map Print msgs, after_clock s, Raise (exn_of_sleep e)).

(** [poll_run t0 fuel running_vms s tr r]: the loop of lines 69-102, entered
    with [running_vms] at call state [s] after a dispatch without errors,
    causes the events [tr] and ends in [r].  One constructor per way
    through the loop. *)
Inductive poll_run (t0 : float)
  : nat -> list Py.str -> Calls -> list event -> result unit -> Prop :=
| run_all_down (fuel : nat) (s : Calls) :
    poll_run t0 fuel [] s [] (Ok tt)
| run_out_of_fuel (running_vms : list Py.str) (s : Calls) :
    running_vms <> [] ->
    poll_run t0 0 running_vms s [] OutOfFuel
| run_report_raises (fuel : nat) (running_vms : list Py.str) (s : Calls)
    (msgs : list message) (e : exn) :
    let now := clock W (clocks s) in
    running_vms <> [] ->
    zenity options = true ->
    progress_computable (timeout options) (PrimFloat.sub now t0) = false ->
    formatting_error e ->
    progress_stops running_vms (PrimFloat.sub now t0) msgs e ->
    poll_run t0 (S fuel) running_vms s (Time_time now :: map Print msgs) (Raise e)
| run_timeout_exit (fuel : nat) (running_vms : list Py.str) (s : Calls)
    (msgs : list message) :
    let now := clock W (clocks s) in
    running_vms <> [] ->
    report_lines running_vms (PrimFloat.sub now t0) msgs ->
    timed_out options (PrimFloat.sub now t0) = true ->
    kill options = false ->
    poll_run t0 (S fuel) running_vms s
      (Time_time now :: map Print (msgs ++ [Timeout_error (timeout options)]))
      (Raise (SystemExit 1))
| run_timeout_kill (fuel : nat) (running_vms : list Py.str) (s : Calls)
    (msgs : list message) (dtr : list event) :
    let now := clock W (clocks s) in
    let announce :=
      Timeout_kill (timeout options)
      :: (if zenity options then [Zenity_kill (List.length running_vms)] else []) in
    let errors := failed (destroy_codes dtr) in
    running_vms <> [] ->
    report_lines running_vms (PrimFloat.sub now t0) msgs ->
    timed_out options (PrimFloat.sub now t0) = true ->
    kill options = true ->
    destroy_requests dtr = running_vms ->
    destroy_codes dtr = responses (virsh_destroy W) (destroys s) running_vms ->
    shutdown_requests dtr = [] -> shutdown_codes dtr = [] ->
    clock_reads dtr = [] -> sleeps dtr = [] -> list_queries dtr = [] ->
    running_sets dtr = [] ->
    poll_run t0 (S fuel) running_vms s
      (Time_time now :: map Print (msgs ++ announce) ++ dtr
         ++ (if errors then [Print Destroy_failed] else []))
      (if errors then Raise (SystemExit 3) else Ok tt)
| run_query_fails (fuel : nat) (running_vms : list Py.str) (s : Calls)
    (msgs : list message) :
    let now := clock W (clocks s) in
    let out := virsh_list W (lists s) in
    running_vms <> [] ->
    report_lines running_vms (PrimFloat.sub now t0) msgs ->
    timed_out options (PrimFloat.sub now t0) = false ->
    (returncode out =? 0)%Z = false ->
    sleep W (interval options) = None ->
    poll_run t0 (S fuel) running_vms s
      (Time_time now :: map Print msgs ++ [Time_sleep (interval options); Virsh_list out])
      (Raise (CalledProcessError (returncode out)))
| run_continue (fuel : nat) (running_vms : list Py.str) (s : Calls)
    (msgs : list message) (tr : list event) (r : result unit) :
    let now := clock W (clocks s) in
    let out := virsh_list W (lists s) in
    running_vms <> [] ->
    report_lines running_vms (PrimFloat.sub now t0) msgs ->
    timed_out options (PrimFloat.sub now t0) = false ->
    (returncode out =? 0)%Z = true ->
    poll_run t0 fuel (parse_names (stdout out)) (after_list (after_clock s)) tr r ->
    sleep W (interval options) = None ->
    poll_run t0 (S fuel) running_vms s
      (Time_time now :: map Print msgs
         ++ [Time_sleep (interval options); Virsh_list out] ++ tr)
      r
| run_sleep_raises (fuel : nat) (running_vms : list Py.str) (s : Calls)
    (msgs : list message) (e : sleep_exn) :
    let now := clock W (clocks s) in
    running_vms <> [] ->
    report_lines running_vms (PrimFloat.sub now t0) msgs ->
    timed_out options (PrimFloat.sub now t0) = false ->
    sleep W (interval options) = Some e ->
    poll_run t0 (S fuel) running_vms s (Time_time now :: map Print msgs)
      (Raise (exn_of_sleep e)).

(** What the loop of lines 53-60 leaves in the trace when it runs over
    [running_vms] from the first [virsh shutdown]. *)
Definition dispatch_trace (running_vms : list Py.str) (dtr : list event) : Prop :=
  shutdown_requests dtr = running_vms
  /\ shutdown_codes dtr = responses (virsh_shutdown W) 0 running_vms
  /\ destroy_requests dtr = [] /\ destroy_codes dtr = []
  /\ clock_reads dtr = [] /\ sleeps dtr = [] /\ list_queries dtr = []
  /\ running_sets dtr = [].

(** Lines 46 and 52. *)
Definition intro (running_vms : list Py.str) : list message :=
  Summary (List.length running_vms) (timeout options) (kill options)
  :: (if zenity options then [Zenity_sending] else []).

(** Lines 104 and 106. *)
Definition outro : list message :=
  if zenity options then [Zenity_hash; Zenity_done] else [All_shut_down].

(** [script_run fuel tr r]: the script causes the events [tr] and ends in
    [r].  One constructor per way through the module body. *)
Inductive script_run (fuel : nat) : list event -> result unit -> Prop :=
| script_query_fails :
    let out := virsh_list W 0 in
    (returncode out =? 0)%Z = false ->
    script_run fuel [Virsh_list out] (Raise (CalledProcessError (returncode out)))
| script_dispatch_fails (dtr : list event) :
    let out := virsh_list W 0 in
    let running_vms := parse_names (stdout out) in
    (returncode out =? 0)%Z = true ->
    dispatch_trace running_vms dtr ->
    failed (shutdown_codes dtr) = true ->
    script_run fuel
      (Virsh_list out :: map Print (intro running_vms) ++ dtr ++ [Print Shutdown_failed])
      (Raise (SystemExit 3))
| script_all_down (dtr ptr : list event) :
    let out := virsh_list W 0 in
    let running_vms := parse_names (stdout out) in
    (returncode out =? 0)%Z = true ->
    dispatch_trace running_vms dtr ->
    failed (shutdown_codes dtr) = false ->
    poll_run (clock W 0) fuel running_vms (at_poll running_vms) ptr (Ok tt) ->
    script_run fuel
      (Virsh_list out :: map Print (intro running_vms) ++ dtr
         ++ Time_time (clock W 0) :: ptr ++ map Print outro)
      (Raise (SystemExit 0))
| script_poll_stops (dtr ptr : list event) (r : result unit) :
    let out := virsh_list W 0 in
    let running_vms := parse_names (stdout out) in
    (returncode out =? 0)%Z = true ->
    dispatch_trace running_vms dtr ->
    failed (shutdown_codes dtr) = false ->
    poll_run (clock W 0) fuel running_vms (at_poll running_vms) ptr r ->
    r <> Ok tt ->
    script_run fuel
      (Virsh_list out :: map Print (intro running_vms) ++ dtr
         ++ Time_time (clock W 0) :: ptr)
      r.

(** Some tick of the trace saw [t > options.timeout], for the start [t0]. *)
Definition passed (t0 : float) (tr : list event) : bool :=
  existsb (timed_out options) (elapsed_since t0 (clock_reads tr)).

(** With [-z], the progress lines of the ticks of the trace can all be
    computed, for the start [t0]. *)
Definition goes_through (t0 : float) (tr : list event) : Prop :=
  zenity options = true ->
  forall t, In t (elapsed_since t0 (clock_reads tr)) ->
            progress_computable (timeout options) t = true.

(** The line that follows the report of a tick that sees the deadline
    passed (lines 81 and 98). *)
Definition timeout_line : message :=
  if kill options then Timeout_kill (timeout options) else Timeout_error (timeout options).

End Relations.

(** The progress lines of every tick of a run with [-z] can be computed
    (lines 73-75 never raise). *)
Definition progress_goes_through (options : Options) (tr : list event) : Prop :=
  zenity options = true ->
  forall t, In t (elapsed_at_ticks tr) -> progress_computable (timeout options) t = true.

(** What C8 of the specification asks of a run, in its weakest reading
    (each tick reports the elapsed time and the number of machines left, so
    each tick at least prints something before it sleeps or stops): right
    after a tick has read the clock, a line is printed. *)
Definition emits_on_every_tick (W : World) (options : Options) (fuel : nat) : Prop :=
  forall pre now post t0 reads,
    fst (run W options fuel) = pre ++ Time_time now :: post ->
    clock_reads pre = t0 :: reads ->
    exists m post', post = Print m :: post'.

(** ** Concrete scenarios *)

Definition nl : Py.str := [Py.newline].

(** The names of two machines. *)
Definition vm1 : Py.str := Py.text "vm1".
Definition vm2 : Py.str := Py.text "vm2".

Fixpoint same_name (a b : Py.str) : bool :=
  match a, b with
  | [], [] => true
  | x :: a', y :: b' => (x =? y)%N && same_name a' b'
  | _, _ => false
  end.

(** The clock advances by one second between two readings. *)
Definition ticking (k : nat) : float := nth k [100; 101; 102; 103; 104; 105]%float 106%float.

(** Two machines that are gone at the third [virsh list]. *)
Definition obedient : World := {|
  virsh_list := fun k =>
    {| returncode := 0;
       stdout := if (k <? 2)%nat then (vm1 ++ nl ++ vm2 ++ nl) else nl |};
  virsh_shutdown := fun _ _ => 0%Z;
  virsh_destroy := fun _ _ => 0%Z;
  clock := ticking;
  sleep := Py.sleep_check |}.

(** One machine whose shutdown request is refused. *)
Definition refusing : World := {|
  virsh_list := fun _ => {| returncode := 0; stdout := (vm1 ++ nl ++ vm2 ++ nl) |};
  virsh_shutdown := fun _ vm => if same_name vm vm1 then 1%Z else 0%Z;
  virsh_destroy := fun _ _ => 0%Z;
  clock := ticking;
  sleep := Py.sleep_check |}.

(** A machine that ignores the request, joined by a second one later;
    destroying the second one fails. *)
Definition stubborn : World := {|
  virsh_list := fun k =>
    {| returncode := 0;
       stdout := if (k <? 1)%nat then (vm1 ++ nl)
                 else (vm1 ++ nl ++ vm2 ++ nl) |};
  virsh_shutdown := fun _ _ => 0%Z;
  virsh_destroy := fun _ vm => if same_name vm vm2 then 1%Z else 0%Z;
  clock := ticking;
  sleep := Py.sleep_check |}.

Definition with_timeout (t : float) (k v z : bool) : Options :=
  {| interval := 1; timeout := t; kill := k; verbose := v; zenity := z |}.

(** The default options with another polling interval. *)
Definition with_interval (i : float) : Options :=
  {| interval := i; timeout := 30; kill := false; verbose := false; zenity := false |}.

(** No machine is running when the script starts. *)
Definition idle : World := {|
  virsh_list := fun _ => {| returncode := 0; stdout := nl |};
  virsh_shutdown := fun _ _ => 0%Z;
  virsh_destroy := fun _ _ => 0%Z;
  clock := ticking;
  sleep := Py.sleep_check |}.

(** One machine; the second [virsh list] fails with code 1. *)
Definition flaky : World := {|
  virsh_list := fun k =>
    {| returncode := if (k <? 1)%nat then 0 else 1;
       stdout := if (k <? 1)%nat then (vm1 ++ nl) else [] |};
  virsh_shutdown := fun _ _ => 0%Z;
  virsh_destroy := fun _ _ => 0%Z;
  clock := ticking;
  sleep := Py.sleep_check |}.

(** ** Further readings of outputs and traces *)

(** Every character of [s] is whitespace for [str.strip]. *)
Fixpoint all_space (s : Py.str) : bool :=
  match s with
  | [] => true
  | c :: s' => Py.isspace c && all_space s'
  end.

(** No character of [s] is whitespace for [str.strip]. *)
Fixpoint no_space (s : Py.str) : bool :=
  match s with
  | [] => true
  | c :: s' => negb (Py.isspace c) && no_space s'
  end.

(** A machine name as [virsh list --name] prints it: not empty and without
    whitespace. *)
Definition plain_name (name : Py.str) : bool :=
  match name with
  | [] => false
  | _ :: _ => no_space name
  end.

(** The machines and codes of the "Error trying to shut down" lines
    (line 59). *)
Definition shutdown_errors (tr : list event) : list (Py.str * Z) :=
  flat_map (fun e => match e with Print (Shutdown_error vm ok) => [(vm, ok)] | _ => [] end) tr.

(** The machines and codes of the "Error trying to forcibly kill" lines
    (line 92). *)
Definition destroy_errors (tr : list event) : list (Py.str * Z) :=
  flat_map (fun e => match e with Print (Destroy_error vm ok) => [(vm, ok)] | _ => [] end) tr.

(** For every [virsh shutdown] and [virsh destroy], whether its output went
    to [DEVNULL]. *)
Definition quiet_flags (tr : list event) : list bool :=
  flat_map (fun e => match e with
                     | Virsh_shutdown _ quiet _ => [quiet]
                     | Virsh_destroy _ quiet _ => [quiet]
                     | _ => []
                     end) tr.

(** The requests that came back with a non-zero code. *)
Definition failures (vms : list Py.str) (codes : list Z) : list (Py.str * Z) :=
  filter (fun p => negb (snd p =? 0)%Z) (combine vms codes).

(** What the options let a run do, event by event, read off the guards of
    the source: the output of a [virsh shutdown] or [virsh destroy] is
    discarded unless [-v] is given (lines 54-57 and 86-89) and [virsh destroy]
    is behind [options.kill] (line 80); the lines for zenity are behind
    [options.zenity] (lines 51, 72, 82, 104, 105); an error line of the
    shutdown loop is behind [ok != 0] (line 58), one of the destroy loop also
    behind [options.verbose] (lines 90-91); the "still waiting" line is behind
    [options.verbose or t > options.timeout] (line 76); the lines of the
    timeout branch are behind [options.kill] or its negation (lines 80-98),
    and the closing message is printed only without [-z] (line 104). *)
Definition allowed (options : Options) (e : event) : bool :=
  match e with
  | Virsh_shutdown _ quiet _ => Bool.eqb quiet (negb (verbose options))
  | Virsh_destroy _ quiet _ => kill options && Bool.eqb quiet (negb (verbose options))
  | Print Zenity_sending | Print (Zenity_waiting _ _) | Print (Zenity_percent _)
  | Print Zenity_hash | Print Zenity_done => zenity options
  | Print (Zenity_kill _) => zenity options && kill options
  | Print (Shutdown_error _ code) => negb (code =? 0)%Z
  | Print (Destroy_error _ code) => verbose options && kill options && negb (code =? 0)%Z
  | Print (Still_waiting t _) => verbose options || timed_out options t
  | Print (Timeout_kill _) | Print Destroy_failed => kill options
  | Print (Timeout_error _) => negb (kill options)
  | Print All_shut_down => negb (zenity options)
  | _ => true
  end.

(** A computation all of whose events are allowed, from every call state. *)
Definition stays_allowed (options : Options) {A} (m : M A) : Prop :=
  forall s, forallb (allowed options) (fst (fst (m s))) = true.

(** ** Traces: projections and appending *)

Section Projections.

Variables a b : list event.

Lemma shutdown_requests_app :
  shutdown_requests (a ++ b) = shutdown_requests a ++ shutdown_requests b.
Proof. apply flat_map_app. Qed.

Lemma shutdown_codes_app :
  shutdown_codes (a ++ b) = shutdown_codes a ++ shutdown_codes b.
Proof. apply flat_map_app. Qed.

Lemma destroy_requests_app :
  destroy_requests (a ++ b) = destroy_requests a ++ destroy_requests b.
Proof. apply flat_map_app. Qed.

Lemma destroy_codes_app :
  destroy_codes (a ++ b) = destroy_codes a ++ destroy_codes b.
Proof. apply flat_map_app. Qed.

Lemma clock_reads_app : clock_reads (a ++ b) = clock_reads a ++ clock_reads b.
Proof. apply flat_map_app. Qed.

Lemma sleeps_app : sleeps (a ++ b) = sleeps a ++ sleeps b.
Proof. apply flat_map_app. Qed.

Lemma list_queries_app : list_queries (a ++ b) = list_queries a ++ list_queries b.
Proof. apply flat_map_app. Qed.

Lemma running_sets_app : running_sets (a ++ b) = running_sets a ++ running_sets b.
Proof. apply flat_map_app. Qed.

End Projections.

Section Prints.

Variable msgs : list message.

Lemma shutdown_requests_prints : shutdown_requests (map Print msgs) = [].
Proof. induction msgs; simpl; auto. Qed.

Lemma shutdown_codes_prints : shutdown_codes (map Print msgs) = [].
Proof. induction msgs; simpl; auto. Qed.

Lemma destroy_requests_prints : destroy_requests (map Print msgs) = [].
Proof. induction msgs; simpl; auto. Qed.

Lemma destroy_codes_prints : destroy_codes (map Print msgs) = [].
Proof. induction msgs; simpl; auto. Qed.

Lemma clock_reads_prints : clock_reads (map Print msgs) = [].
Proof. induction msgs; simpl; auto. Qed.

Lemma sleeps_prints : sleeps (map Print msgs) = [].
Proof. induction msgs; simpl; auto. Qed.

Lemma list_queries_prints : list_queries (map Print msgs) = [].
Proof. induction msgs; simpl; auto. Qed.

Lemma running_sets_prints : running_sets (map Print msgs) = [].
Proof. induction msgs; simpl; auto. Qed.

End Prints.

Create Rewrite HintDb trace.
#[export] Hint Rewrite
  shutdown_requests_app shutdown_codes_app destroy_requests_app destroy_codes_app
  clock_reads_app sleeps_app list_queries_app running_sets_app
  shutdown_requests_prints shutdown_codes_prints destroy_requests_prints
  destroy_codes_prints clock_reads_prints sleeps_prints list_queries_prints
  running_sets_prints
  app_nil_r app_nil_l : trace.

(** ** Stepping through a [bind] *)

Lemma bind_ok {A B} (m : M A) (f : A -> M B) (s s1 : Calls) (tr : list event) (a : A) :
  m s = (tr, s1, Ok a) ->
  bind m f s = match f a s1 with (tr', s2, r) => (tr ++ tr', s2, r) end.
Proof. intros H. unfold bind. rewrite H. reflexivity. Qed.

Lemma bind_print {B} (m : message) (k : M B) (s : Calls) :
  bind (print m) (fun _ => k) s = match k s with (tr, s', r) => (Print m :: tr, s', r) end.
Proof. reflexivity. Qed.

Lemma bind_when_print {B} (b : bool) (m : message) (k : M B) (s : Calls) :
  bind (when b (print m)) (fun _ => k) s
  = match k s with (tr, s', r) => ((if b then [Print m] else []) ++ tr, s', r) end.
Proof. destruct b; unfold when, bind, print, ret; simpl; destruct (k s) as [[tr s'] r]; reflexivity. Qed.

Lemma bind_ret {A B} (a : A) (f : A -> M B) (s : Calls) : bind (ret a) f s = f a s.
Proof. unfold bind, ret. destruct (f a s) as [[tr s'] r]. reflexivity. Qed.

Lemma bind_time_time {B} (W : World) (k : float -> M B) (s : Calls) :
  bind (time_time W) k s
  = match k (clock W (clocks s))
            {| lists := lists s; shutdowns := shutdowns s; destroys := destroys s;
               clocks := S (clocks s) |} with
    | (tr, s', r) => (Time_time (clock W (clocks s)) :: tr, s', r)
    end.
Proof. reflexivity. Qed.

(** ** The two request loops *)

Section Loops.

Variable W : World.
Variable options : Options.

Lemma shutdown_all_spec (running_vms : list Py.str) :
  forall (any_errors : bool) (s : Calls),
  exists tr,
    shutdown_all W options running_vms any_errors s
    = (tr, after_shutdowns (List.length running_vms) s,
       Ok (any_errors || failed (shutdown_codes tr)))
    /\ shutdown_requests tr = running_vms
    /\ shutdown_codes tr = responses (virsh_shutdown W) (shutdowns s) running_vms
    /\ destroy_requests tr = [] /\ destroy_codes tr = []
    /\ clock_reads tr = [] /\ sleeps tr = [] /\ list_queries tr = []
    /\ running_sets tr = [].
Proof.
  induction running_vms as [|vm rest IH]; intros any_errors s.
  - exists []. destruct s; simpl. rewrite orb_false_r. repeat split; reflexivity.
  - simpl. unfold bind at 1. simpl.
    set (s1 := {| lists := lists s; shutdowns := S (shutdowns s);
                  destroys := destroys s; clocks := clocks s |}).
    assert (Hs : forall n, after_shutdowns n s1 = after_shutdowns (S n) s).
    { intros n. unfold after_shutdowns, s1; simpl. f_equal. lia. }
    destruct (virsh_shutdown W (shutdowns s) vm =? 0)%Z eqn:Hok.
    + destruct (IH any_errors s1) as (tr & Hrun & Hreq & Hcodes & Hrest).
      rewrite Hrun.
      exists (Virsh_shutdown vm (negb (verbose options))
                (virsh_shutdown W (shutdowns s) vm) :: tr).
      simpl. rewrite Hok, Hs, Hreq, Hcodes. simpl. auto.
    + unfold bind. simpl.
      destruct (IH true s1) as (tr & Hrun & Hreq & Hcodes & Hrest).
      rewrite Hrun.
      exists (Virsh_shutdown vm (negb (verbose options))
                (virsh_shutdown W (shutdowns s) vm)
              :: Print (Shutdown_error vm (virsh_shutdown W (shutdowns s) vm)) :: tr).
      simpl. rewrite Hok, Hs, Hreq, Hcodes. simpl. rewrite orb_true_r. auto.
Qed.

Lemma destroy_all_spec (running_vms : list Py.str) :
  forall (any_errors : bool) (s : Calls),
  exists tr,
    destroy_all W options running_vms any_errors s
    = (tr, after_destroys (List.length running_vms) s,
       Ok (any_errors || failed (destroy_codes tr)))
    /\ destroy_requests tr = running_vms
    /\ destroy_codes tr = responses (virsh_destroy W) (destroys s) running_vms
    /\ shutdown_requests tr = [] /\ shutdown_codes tr = []
    /\ clock_reads tr = [] /\ sleeps tr = [] /\ list_queries tr = []
    /\ running_sets tr = [].
Proof.
  induction running_vms as [|vm rest IH]; intros any_errors s.
  - exists []. destruct s; simpl. rewrite orb_false_r. repeat split; reflexivity.
  - simpl. unfold bind at 1. simpl.
    set (s1 := {| lists := lists s; shutdowns := shutdowns s;
                  destroys := S (destroys s); clocks := clocks s |}).
    assert (Hs : forall n, after_destroys n s1 = after_destroys (S n) s).
    { intros n. unfold after_destroys, s1; simpl. f_equal. lia. }
    destruct (virsh_destroy W (destroys s) vm =? 0)%Z eqn:Hok.
    + destruct (IH any_errors s1) as (tr & Hrun & Hreq & Hcodes & Hrest).
      rewrite Hrun.
      exists (Virsh_destroy vm (negb (verbose options))
                (virsh_destroy W (destroys s) vm) :: tr).
      simpl. rewrite Hok, Hs, Hreq, Hcodes. simpl. auto.
    + unfold bind, when, print, ret.
      destruct (IH true s1) as (tr & Hrun & Hreq & Hcodes & Hrest).
      destruct (verbose options); rewrite Hrun.
      * exists (Virsh_destroy vm (negb true) (virsh_destroy W (destroys s) vm)
                :: Print (Destroy_error vm (virsh_destroy W (destroys s) vm)) :: tr).
        simpl. rewrite Hok, Hs, Hreq, Hcodes. simpl. rewrite orb_true_r. auto.
      * exists (Virsh_destroy vm (negb false) (virsh_destroy W (destroys s) vm) :: tr).
        simpl. rewrite Hok, Hs, Hreq, Hcodes. simpl. rewrite orb_true_r. auto.
Qed.

End Loops.

(** ** One pass through the loop body *)

Lemma py_int_cases (x : float) :
  (exists z, Py.int x = Ok z) \/ Py.int x = Raise OverflowError \/ Py.int x = Raise ValueError.
Proof.
  unfold Py.int. destruct (Prim2SF x); eauto.
Qed.

Section Tick.

Variable W : World.
Variable options : Options.

Lemma zenity_progress_cases (n : nat) (t : float) (s : Calls) :
  (progress_computable (timeout options) t = true
   /\ exists seconds_left percent,
        Py.int (PrimFloat.sub (timeout options) t) = Ok seconds_left
        /\ progress_percent options t = Ok percent
        /\ zenity_progress options n t s
           = ([Print (Zenity_waiting n seconds_left); Print (Zenity_percent percent)],
              s, Ok tt))
  \/ (progress_computable (timeout options) t = false
      /\ exists msgs e,
           zenity_progress options n t s = (map Print msgs, s, Raise e)
           /\ formatting_error e
           /\ ((Py.int (PrimFloat.sub (timeout options) t) = Raise e /\ msgs = [])
               \/ (exists seconds_left,
                     Py.int (PrimFloat.sub (timeout options) t) = Ok seconds_left
                     /\ progress_percent options t = Raise e
                     /\ msgs = [Zenity_waiting n seconds_left]))).
Proof.
  unfold zenity_progress, progress_computable, progress_percent, formatting_error,
    bind, lift, print.
  destruct (py_int_cases (PrimFloat.sub (timeout options) t)) as [[a Ha]|[Ha|Ha]];
    rewrite Ha; simpl.
  - destruct (PrimFloat.ltb t (timeout options)).
    + unfold Py.div. destruct (PrimFloat.eqb (timeout options) 0).
      * right. split; [reflexivity|].
        exists [Zenity_waiting n a], ZeroDivisionError. simpl.
        split; [reflexivity|]. split; [auto|]. right. exists a. auto.
      * destruct (py_int_cases (PrimFloat.div (PrimFloat.mul 100 t) (timeout options)))
          as [[b Hb]|[Hb|Hb]]; rewrite Hb; simpl.
        -- left. split; [reflexivity|]. exists a, b. auto.
        -- right. split; [reflexivity|].
           exists [Zenity_waiting n a], OverflowError. simpl.
           split; [reflexivity|]. split; [auto|]. right. exists a. auto.
        -- right. split; [reflexivity|].
           exists [Zenity_waiting n a], ValueError. simpl.
           split; [reflexivity|]. split; [auto|]. right. exists a. auto.
    + left. split; [reflexivity|]. exists a, 99%Z. auto.
  - right. split; [reflexivity|]. exists [], OverflowError. simpl. auto 6.
  - right. split; [reflexivity|]. exists [], ValueError. simpl. auto 6.
Qed.

Lemma report_cases (running_vms : list Py.str) (t : float) (s : Calls) :
  (exists msgs,
     report options running_vms t s = (map Print msgs, s, Ok tt)
     /\ report_lines options running_vms t msgs)
  \/ (zenity options = true
      /\ progress_computable (timeout options) t = false
      /\ exists msgs e,
           report options running_vms t s = (map Print msgs, s, Raise e)
           /\ formatting_error e
           /\ progress_stops options running_vms t msgs e).
Proof.
  unfold report, report_lines, progress_stops, still_waiting_lines, when.
  destruct (zenity options) eqn:Hz.
  - destruct (zenity_progress_cases (List.length running_vms) t s)
      as [(Hc & a & b & Ha & Hb & Hrun)|(Hc & msgs & e & Hrun & He & Hstop)];
      unfold bind; rewrite Hrun.
    + left. destruct (verbose options || timed_out options t);
        unfold bind, print, ret; simpl.
      * exists [Zenity_waiting (List.length running_vms) a; Zenity_percent b;
                Still_waiting t (List.length running_vms); Vm_names running_vms].
        split; [reflexivity|].
        exists [Zenity_waiting (List.length running_vms) a; Zenity_percent b].
        split; [reflexivity|]. right. eauto 8.
      * exists [Zenity_waiting (List.length running_vms) a; Zenity_percent b].
        split; [reflexivity|].
        exists [Zenity_waiting (List.length running_vms) a; Zenity_percent b].
        split; [reflexivity|]. right. eauto 8.
    + right. eauto 8.
  - left. destruct (verbose options || timed_out options t);
      unfold bind, print, ret; simpl.
    + exists [Still_waiting t (List.length running_vms); Vm_names running_vms].
      split; [reflexivity|]. exists []. auto.
    + exists []. split; [reflexivity|]. exists []. auto.
Qed.

Lemma loop_body_tick (t0 : float) (running_vms : list Py.str) (any_errors : bool)
    (s : Calls) :
  tick W options t0 running_vms any_errors s (loop_body W options t0 running_vms any_errors s).
Proof.
  unfold loop_body. unfold bind at 1. unfold time_time.
  fold (after_clock s).
  set (now := clock W (clocks s)). set (t := PrimFloat.sub now t0).
  destruct (report_cases running_vms t (after_clock s))
    as [(msgs & Hrun & Hlines)|(Hz & Hc & msgs & e & Hrun & He & Hstop)].
  - unfold bind at 1. rewrite Hrun.
    destruct (timed_out options t) eqn:Hdead.
    + unfold on_timeout. destruct (kill options) eqn:Hkill.
      * destruct (destroy_all_spec W options running_vms any_errors (after_clock s))
          as (dtr & Hd & Hreq & Hcodes & H1 & H2 & H3 & H4 & H5 & H6).
        unfold bind, print, when, ret, exit, raise. simpl.
        pose proof (@tick_timeout_kill W options t0 running_vms any_errors s msgs dtr) as T.
        simpl in T. fold now in T. fold t in T.
        specialize (T Hlines Hdead Hkill Hd Hreq Hcodes H1 H2 H3 H4 H5 H6).
        destruct (zenity options); simpl; rewrite Hd;
          destruct (any_errors || failed (destroy_codes dtr)); simpl;
          rewrite ?map_app in T; simpl in T; rewrite <- ?app_assoc in T; simpl in T;
          rewrite ?app_nil_r in *; exact T.
      * unfold bind, print, exit, raise. simpl.
        pose proof (@tick_timeout_exit W options t0 running_vms any_errors s msgs) as T.
        simpl in T. fold now in T. fold t in T.
        specialize (T Hlines Hdead Hkill).
        rewrite map_app in T. exact T.
    + destruct (sleep W (interval options)) as [e|] eqn:Hsleep.
      * pose proof (@tick_sleep_raises W options t0 running_vms any_errors s msgs e) as T.
        simpl in T. fold now in T. fold t in T.
        specialize (T Hlines Hdead Hsleep).
        cbv [bind time_sleep]. rewrite Hsleep. simpl.
        rewrite ?app_nil_r. exact T.
      * pose proof (@tick_continue W options t0 running_vms any_errors s msgs) as T.
        simpl in T. fold now in T. fold t in T.
        specialize (T Hlines Hdead Hsleep).
        cbv [bind time_sleep list_running_vms check_output_virsh_list ret].
        rewrite Hsleep. simpl.
        fold (after_list (after_clock s)).
        destruct (returncode (virsh_list W (lists s)) =? 0)%Z; simpl;
          rewrite ?app_nil_r; exact T.
  - unfold bind at 1. rewrite Hrun.
    apply (@tick_report_raises W options t0 running_vms any_errors s msgs e); assumption.
Qed.

End Tick.

(** ** The poll loop as a relation *)

Section Poll.

Variable W : World.
Variable options : Options.

Lemma poll_step (fuel : nat) (t0 : float) (vm : Py.str) (vms : list Py.str)
    (any_errors : bool) (s : Calls) :
  poll W options (S fuel) t0 (vm :: vms) any_errors s
  = match loop_body W options t0 (vm :: vms) any_errors s with
    | (tr, s1, Ok (Some running_vms)) =>
        match poll W options fuel t0 running_vms any_errors s1 with
        | (tr', s2, r) => (tr ++ tr', s2, r)
        end
    | (tr, s1, Ok None) => (tr ++ [], s1, Ok tt)
    | (tr, s1, Raise e) => (tr, s1, Raise e)
    | (tr, s1, OutOfFuel) => (tr, s1, OutOfFuel)
    end.
Proof.
  simpl. unfold bind.
  destruct (loop_body W options t0 (vm :: vms) any_errors s) as [[tr s1] [[next|]|e|]];
    reflexivity.
Qed.

(** The executable loop is described by the relation. *)
Lemma poll_sound (t0 : float) (fuel : nat) :
  forall (running_vms : list Py.str) (s : Calls),
  exists tr s' r,
    poll W options fuel t0 running_vms false s = (tr, s', r)
    /\ poll_run W options t0 fuel running_vms s tr r.
Proof.
  induction fuel as [|fuel IH]; intros [|vm vms] s.
  - exists [], s, (Ok tt). split; [reflexivity | constructor].
  - exists [], s, OutOfFuel. split; [reflexivity | constructor; discriminate].
  - exists [], s, (Ok tt). split; [reflexivity | constructor].
  - rewrite poll_step.
    assert (Hne : vm :: vms <> []) by discriminate.
    pose proof (loop_body_tick W options t0 (vm :: vms) false s) as T.
    remember (loop_body W options t0 (vm :: vms) false s) as body eqn:Hbody.
    clear Hbody. destruct T as [msgs e now Hz Hc He | msgs now Hl Hd Hk
      | msgs dtr now announce errors Hl Hd Hk Hrun Hreq Hcodes H1 H2 H3 H4 H5 H6
      | msgs now out Hl Hd Hsl
      | msgs e now Hl Hd Hsl].
    + do 3 eexists. split; [reflexivity|]. now apply run_report_raises.
    + do 3 eexists. split; [reflexivity|]. now apply run_timeout_exit.
    + pose proof (@run_timeout_kill W options t0 fuel (vm :: vms) s msgs dtr) as R.
      simpl in R. specialize (R Hne Hl Hd Hk Hreq Hcodes H1 H2 H3 H4 H5 H6).
      subst errors. simpl. destruct (failed (destroy_codes dtr)).
      * do 3 eexists. split; [reflexivity|]. exact R.
      * do 3 eexists. split; [reflexivity|]. rewrite app_nil_r. exact R.
    + destruct (returncode out =? 0)%Z eqn:Hrc.
      * destruct (IH (parse_names (stdout out)) (after_list (after_clock s)))
          as (tr & s' & r & Hp & Hr).
        rewrite Hp. do 3 eexists. split; [reflexivity|].
        simpl. rewrite <- app_assoc.
        now apply run_continue.
      * do 3 eexists. split; [reflexivity|]. now apply run_query_fails.
    + do 3 eexists. split; [reflexivity|]. now apply run_sleep_raises.
Qed.

End Poll.

(** ** The whole script as a relation *)

Section Main.

Variable W : World.
Variable options : Options.

(** Every run of the script is described by the relation. *)
Lemma run_sound (fuel : nat) :
  exists tr r, run W options fuel = (tr, r) /\ script_run W options fuel tr r.
Proof.
  unfold run, main. unfold bind at 1.
  unfold list_running_vms, check_output_virsh_list. unfold bind at 1. simpl.
  fold (after_list no_calls).
  destruct (returncode (virsh_list W 0) =? 0)%Z eqn:Hrc.
  - set (running_vms := parse_names (stdout (virsh_list W 0))).
    destruct (shutdown_all_spec W options running_vms false (after_list no_calls))
      as (dtr & Hd & Hdt).
    destruct (poll_sound W options (clock W 0) fuel running_vms (at_poll running_vms))
      as (ptr & s' & r & Hp & Hr).
    rewrite bind_print, bind_when_print. rewrite bind_ok with (1 := Hd). simpl.
    destruct (failed (shutdown_codes dtr)) eqn:Hf.
    + exists (Virsh_list (virsh_list W 0) :: map Print (intro options running_vms) ++ dtr
                ++ [Print Shutdown_failed]), (Raise (SystemExit 3)).
      split.
      * unfold intro. destruct (zenity options); reflexivity.
      * now apply script_dispatch_fails.
    + unfold when at 1. rewrite bind_ret, bind_time_time.
      fold (after_clock (after_shutdowns (List.length running_vms) (after_list no_calls))).
      fold (at_poll running_vms).
      change (clocks (after_shutdowns (List.length running_vms) (after_list no_calls)))
        with 0%nat.
      unfold bind at 1. rewrite Hp.
      destruct r as [[]|e|].
      * exists (Virsh_list (virsh_list W 0) :: map Print (intro options running_vms) ++ dtr
                  ++ Time_time (clock W 0) :: ptr ++ map Print (outro options)),
               (Raise (SystemExit 0)).
        split.
        -- rewrite bind_print, bind_when_print. unfold exit, raise, intro, outro.
           destruct (zenity options); simpl; rewrite ?app_nil_r; reflexivity.
        -- now apply script_all_down.
      * exists (Virsh_list (virsh_list W 0) :: map Print (intro options running_vms) ++ dtr
                  ++ Time_time (clock W 0) :: ptr),
               (Raise e).
        split.
        -- unfold intro. destruct (zenity options); simpl; rewrite ?app_nil_r; reflexivity.
        -- apply script_poll_stops; auto. discriminate.
      * exists (Virsh_list (virsh_list W 0) :: map Print (intro options running_vms) ++ dtr
                  ++ Time_time (clock W 0) :: ptr),
               OutOfFuel.
        split.
        -- unfold intro. destruct (zenity options); simpl; rewrite ?app_nil_r; reflexivity.
        -- apply script_poll_stops; auto. discriminate.
  - do 2 eexists. split; [reflexivity|]. now apply script_query_fails.
Qed.

End Main.

(** ** What the poll loop guarantees *)

(** Rewrites with the hypotheses that say some projection of a trace is
    empty, then simplifies. *)
Ltac use_empty :=
  repeat match goal with
         | H : ?p ?tr = [] |- context [?p ?tr] => rewrite H
         end.

Ltac trace_goal := repeat (autorewrite with trace; simpl; use_empty).

(** Closes an equation between two bracketings of the same trace. *)
Ltac reassoc := simpl; repeat (rewrite <- app_assoc; simpl); reflexivity.

Section PollFacts.

Variable W : World.
Variable options : Options.

Lemma poll_classify (t0 : float) (fuel : nat) (running_vms : list Py.str) (s : Calls)
    (tr : list event) (r : result unit) :
  poll_run W options t0 fuel running_vms s tr r ->
  shutdown_requests tr = [] /\ shutdown_codes tr = []
  /\ match r with
     | Ok _ =>
         (passed options t0 tr = false /\ destroy_requests tr = [] /\ destroy_codes tr = [])
         \/ (passed options t0 tr = true /\ kill options = true
             /\ failed (destroy_codes tr) = false)
     | Raise (SystemExit code) =>
         passed options t0 tr = true
         /\ ((kill options = false /\ code = 1%Z
              /\ destroy_requests tr = [] /\ destroy_codes tr = [])
             \/ (kill options = true /\ code = 3%Z
                 /\ failed (destroy_codes tr) = true))
     | Raise (CalledProcessError code) =>
         passed options t0 tr = false /\ destroy_requests tr = [] /\ destroy_codes tr = []
         /\ exists out, In out (list_queries tr) /\ returncode out = code /\ code <> 0%Z
     | Raise _ =>
         (zenity options = true \/ exists se, sleep W (interval options) = Some se)
         /\ destroy_requests tr = [] /\ destroy_codes tr = []
     | OutOfFuel =>
         passed options t0 tr = false /\ List.length (clock_reads tr) = fuel
         /\ destroy_requests tr = [] /\ destroy_codes tr = []
     end.
Proof.
  unfold passed.
  induction 1 as [fuel s | running_vms s Hne
    | fuel running_vms s msgs e now Hne Hz Hc He
    | fuel running_vms s msgs now Hne Hl Hd Hk
    | fuel running_vms s msgs dtr now announce errors Hne Hl Hd Hk Hreq Hcodes
        H1 H2 H3 H4 H5 H6
    | fuel running_vms s msgs now out Hne Hl Hd Hrc
    | fuel running_vms s msgs tr r now out Hne Hl Hd Hrc Hrun IH Hsl
    | fuel running_vms s msgs se now Hne Hl Hd Hsl].
  - simpl. auto 10.
  - simpl. auto 10.
  - trace_goal. destruct He as [->|[->| ->]]; auto.
  - trace_goal. rewrite Hd. simpl. auto 10.
  - subst errors. destruct (failed (destroy_codes dtr)) eqn:Hf;
      trace_goal; rewrite Hd, ?Hf; simpl; auto 10.
  - trace_goal. rewrite Hd. simpl. repeat split; auto.
    exists out. repeat split; auto.
    intros Heq. rewrite Heq in Hrc. discriminate.
  - destruct IH as (IH1 & IH2 & IH3).
    trace_goal. rewrite Hd. simpl.
    repeat split; auto.
    destruct r as [[]|[code|code| | | |]|]; auto.
    + destruct IH3 as (? & ? & ? & out' & ? & ? & ?).
      repeat split; auto. exists out'. auto.
    + destruct IH3 as (? & ? & ? & ?). repeat split; auto; simpl; congruence.
  - trace_goal. destruct se; simpl; repeat split; eauto.
Qed.

(** How the loop is left by an exception other than [exit]: by the
    [CalledProcessError] of a [virsh list], by [time.sleep] refusing the
    interval, or, with [-z], by the progress lines of a tick. *)
Lemma poll_raises (t0 : float) (fuel : nat) (running_vms : list Py.str) (s : Calls)
    (tr : list event) (r : result unit) :
  poll_run W options t0 fuel running_vms s tr r ->
  forall e,
    r = Raise e ->
    (exists code, e = SystemExit code)
    \/ (exists out, In out (list_queries tr) /\ returncode out <> 0%Z
                    /\ e = CalledProcessError (returncode out))
    \/ (exists se, sleep W (interval options) = Some se /\ e = exn_of_sleep se)
    \/ (zenity options = true /\ formatting_error e
        /\ exists t, In t (elapsed_since t0 (clock_reads tr))
                     /\ progress_computable (timeout options) t = false).
Proof.
  induction 1 as [fuel s | running_vms s Hne
    | fuel running_vms s msgs e now Hne Hz Hc He
    | fuel running_vms s msgs now Hne Hl Hd Hk
    | fuel running_vms s msgs dtr now announce errors Hne Hl Hd Hk Hreq Hcodes
        H1 H2 H3 H4 H5 H6
    | fuel running_vms s msgs now out Hne Hl Hd Hrc
    | fuel running_vms s msgs tr r now out Hne Hl Hd Hrc Hrun IH Hsl
    | fuel running_vms s msgs se now Hne Hl Hd Hsl];
    intros e' Hr; try discriminate.
  - injection Hr as <-. right. right. right.
    split; [exact Hz|]. split; [exact He|].
    exists (PrimFloat.sub now t0). split; [|exact Hc]. trace_goal. auto.
  - injection Hr as <-. left. eauto.
  - destruct errors; [injection Hr as <-; left; eauto | discriminate].
  - injection Hr as <-. right. left. exists out. split; [trace_goal; auto|].
    split; [|reflexivity]. intros Heq. rewrite Heq in Hrc. discriminate.
  - destruct (IH _ Hr) as [Hx|[(out' & Hin & Hnz & ->)|[Hx|(Hz & He & t & Hin & Hc)]]];
      auto.
    + right. left. exists out'. split; [trace_goal; auto | auto].
    + right. right. right. split; [exact Hz|]. split; [exact He|].
      exists t. split; [|exact Hc]. revert Hin. unfold elapsed_since. trace_goal. auto.
  - injection Hr as <-. right. right. left. eauto.
Qed.

(** When no library call fails, the loop does what the state machine of
    section 4.3 says, and the destroy loop what section 4.4 says. *)
Lemma poll_refines (t0 : float) (fuel : nat) (running_vms : list Py.str) (s : Calls)
    (tr : list event) (r : result unit) :
  poll_run W options t0 fuel running_vms s tr r ->
  t0 = clock W 0 ->
  lists s = clocks s ->
  0 < clocks s ->
  no_call_fails W options ->
  match pollLoop W options fuel (clocks s) running_vms with
  | Polling => r = OutOfFuel
  | AllDown => r = Ok tt
  | TimedOut running =>
      if kill options
      then r = (if failed (responses (virsh_destroy W) (destroys s) running)
                then Raise (SystemExit 3) else Ok tt)
      else r = Raise (SystemExit 1)
  end.
Proof.
  intros Hrun Ht0 Hidx Hpos (Hlist & Hsleep & Hgo). subst t0.
  induction Hrun as [fuel s | running_vms s Hne
    | fuel running_vms s msgs e now Hne Hz Hc He
    | fuel running_vms s msgs now Hne Hl Hd Hk
    | fuel running_vms s msgs dtr now announce errors Hne Hl Hd Hk Hreq Hcodes
        H1 H2 H3 H4 H5 H6
    | fuel running_vms s msgs now out Hne Hl Hd Hrc
    | fuel running_vms s msgs tr r now out Hne Hl Hd Hrc Hrun IH Hsl
    | fuel running_vms s msgs se now Hne Hl Hd Hsl].
  - destruct fuel; reflexivity.
  - destruct running_vms; [contradiction | reflexivity].
  - exfalso. subst now. destruct (clocks s) as [|k]; [lia|].
    rewrite (Hgo Hz k) in Hc. discriminate.
  - destruct running_vms as [|vm vms]; [contradiction|]. simpl.
    fold now. unfold timed_out in Hd. rewrite Hd, Hk. reflexivity.
  - destruct running_vms as [|vm vms]; [contradiction|]. simpl.
    fold now. unfold timed_out in Hd. rewrite Hd, Hk.
    subst errors. rewrite Hcodes. reflexivity.
  - exfalso. subst out. rewrite Hlist in Hrc. discriminate.
  - destruct running_vms as [|vm vms]; [contradiction|]. simpl.
    fold now. unfold timed_out in Hd. rewrite Hd.
    unfold listRunning. rewrite <- Hidx. fold out.
    specialize (IH ltac:(simpl; lia) ltac:(simpl; lia)).
    simpl in IH. rewrite <- Hidx in IH. exact IH.
  - congruence.
Qed.

End PollFacts.

(** ** The claims *)

Ltac split_dispatch H :=
  let Hreq := fresh "Hreq" in
  let Hcodes := fresh "Hcodes" in
  let D1 := fresh "D" in let D2 := fresh "D" in let D3 := fresh "D" in
  let D4 := fresh "D" in let D5 := fresh "D" in let D6 := fresh "D" in
  destruct H as (Hreq & Hcodes & D1 & D2 & D3 & D4 & D5 & D6).

Lemma run_cases (W : World) (options : Options) (fuel : nat)
    (tr : list event) (r : result unit) :
  run W options fuel = (tr, r) -> script_run W options fuel tr r.
Proof.
  intros H. destruct (run_sound W options fuel) as (tr' & r' & Hrun & Hs).
  congruence.
Qed.

(** C1 as amended.  When no library call fails (every [virsh list] returns
    code 0, [time.sleep] accepts the interval and, with [-z], the progress
    lines can be computed), the exit status of the process is the code of the
    exit-code table for the outcome that sections 4.2-4.5 of the
    specification give for the answers of the hypervisor and the clock.  In
    every run: an [exit] of the script has the code of the table for the
    flags the run accumulated ("a shutdown request failed", "a tick saw the
    deadline passed", the kill option, "a destroy request failed"); every
    other way the script ends is an uncaught exception, exit status 1: the
    [CalledProcessError] of a failed [virsh list], the exception of
    [time.sleep] on an interval it refuses, or, with [-z], a [ValueError],
    [OverflowError] or [ZeroDivisionError] of the progress lines; the exit
    status is never anything but 0, 1 or 3; and only in the model does a run
    have no status, out of fuel after [fuel] ticks that did not see the
    deadline passed. *)
Theorem C1_exit_code_table (W : World) (options : Options) (fuel : nat)
    (tr : list event) (r : result unit) :
  run W options fuel = (tr, r) ->
  (no_call_fails W options ->
   process_status r = option_map exit_code (orchestrate W options fuel))
  /\ (forall code,
        r = Raise (SystemExit code) ->
        code = exit_code (resolve (any_dispatch_failed tr) (deadline_passed options tr)
                                  (kill options) (any_force_failed tr)))
  /\ (forall e,
        r = Raise e -> (forall code, e <> SystemExit code) ->
        process_status r = Some 1%Z
        /\ ((exists out, In out (list_queries tr) /\ returncode out <> 0%Z
                         /\ e = CalledProcessError (returncode out))
            \/ (exists se, sleep W (interval options) = Some se /\ e = exn_of_sleep se)
            \/ (zenity options = true /\ formatting_error e
                /\ exists t, In t (elapsed_at_ticks tr)
                             /\ progress_computable (timeout options) t = false)))
  /\ (forall status,
        process_status r = Some status -> (status = 0 \/ status = 1 \/ status = 3)%Z)
  /\ (process_status r = None ->
      deadline_passed options tr = false /\ List.length (elapsed_at_ticks tr) = fuel).
Proof.
  intros Hrun. apply run_cases in Hrun.
  assert (Hother : forall e : exn,
            (forall code, e <> SystemExit code) ->
            process_status (Raise e) = Some 1%Z).
  { intros [code| | | | |] Hne; try reflexivity. exfalso. exact (Hne code eq_refl). }
  unfold any_dispatch_failed, any_force_failed, deadline_passed, elapsed_at_ticks,
    orchestrate, listRunning.
  destruct Hrun as [out Hrc | dtr out running_vms Hrc Hdt Hf
    | dtr ptr out running_vms Hrc Hdt Hf Hp
    | dtr ptr r out running_vms Hrc Hdt Hf Hp Hr].
  - split; [|split; [|split; [|split]]].
    + intros (Hlist & _). exfalso. subst out. rewrite Hlist in Hrc. discriminate.
    + discriminate.
    + intros e He Hne. injection He as <-. split; [reflexivity|].
      left. exists out. split; [simpl; auto|]. split; [|reflexivity].
      intros Heq. rewrite Heq in Hrc. discriminate.
    + simpl. intros status Hs. injection Hs as <-. auto.
    + discriminate.
  - split_dispatch Hdt. split; [|split; [|split; [|split]]].
    + intros _. fold out. fold running_vms. rewrite <- Hcodes, Hf. reflexivity.
    + intros code Hc. injection Hc as <-. trace_goal. rewrite Hf. reflexivity.
    + intros e He Hne. exfalso. injection He as <-. exact (Hne 3%Z eq_refl).
    + simpl. intros status Hs. injection Hs as <-. auto.
    + discriminate.
  - split_dispatch Hdt.
    destruct (poll_classify Hp) as (P1 & P2 & P3). unfold passed in P3.
    split; [|split; [|split; [|split]]].
    + intros Hno. fold out. fold running_vms. rewrite <- Hcodes, Hf.
      pose proof (poll_refines Hp eq_refl eq_refl ltac:(simpl; lia) Hno) as Href.
      simpl in Href.
      destruct (pollLoop W options fuel 1 running_vms) as [| |running];
        [discriminate | reflexivity |].
      destruct (kill options); [|discriminate].
      destruct (failed (responses (virsh_destroy W) 0 running)); [discriminate|].
      reflexivity.
    + intros code Hc. injection Hc as <-. trace_goal. rewrite Hf. simpl.
      destruct P3 as [(Hpass & _ & Hd)|(Hpass & Hk & Hff)].
      * rewrite Hpass. reflexivity.
      * rewrite Hpass, Hk, Hff. reflexivity.
    + intros e He Hne. exfalso. injection He as <-. exact (Hne 0%Z eq_refl).
    + simpl. intros status Hs. injection Hs as <-. auto.
    + discriminate.
  - split_dispatch Hdt.
    destruct (poll_classify Hp) as (P1 & P2 & P3). unfold passed in P3.
    split; [|split; [|split; [|split]]].
    + intros Hno. fold out. fold running_vms. rewrite <- Hcodes, Hf.
      pose proof (poll_refines Hp eq_refl eq_refl ltac:(simpl; lia) Hno) as Href.
      simpl in Href.
      destruct (pollLoop W options fuel 1 running_vms) as [| |running].
      * subst r. reflexivity.
      * contradiction.
      * destruct (kill options); [|subst r; reflexivity].
        destruct (failed (responses (virsh_destroy W) 0 running));
          [subst r; reflexivity | contradiction].
    + intros code ->. trace_goal. rewrite Hf. simpl.
      destruct P3 as (Hpass & [(Hk & -> & _ & Hd)|(Hk & -> & Hff)]).
      * rewrite Hpass, Hk. reflexivity.
      * rewrite Hpass, Hk, Hff. reflexivity.
    + intros e -> Hne. split; [exact (Hother _ Hne)|].
      destruct (poll_raises Hp eq_refl)
        as [(code & ->)|[(out' & Hin & Hnz & ->)|[Hx|(Hz & He & t & Hin & Hc)]]].
      * exfalso. exact (Hne code eq_refl).
      * left. exists out'. split; [trace_goal; auto | auto].
      * auto.
      * right. right. split; [exact Hz|]. split; [exact He|].
        exists t. split; [|exact Hc]. trace_goal. exact Hin.
    + intros status Hs.
      destruct r as [[]|[code|code| | | |]|]; simpl in Hs; try discriminate;
        injection Hs as <-; auto.
      destruct P3 as (_ & [(_ & -> & _)|(_ & -> & _)]); auto.
    + intros Hs.
      destruct r as [[]|[code|code| | | |]|]; simpl in Hs; try discriminate.
      trace_goal. destruct P3 as (Hpass & Hlen & _).
      unfold elapsed_since. rewrite length_map. auto.
Qed.

(** C2.  For every running set [R], in every call state and whatever the
    hypervisor answers, the dispatch loop sends [virsh shutdown] to the
    members of [R], each once and in order, never stops early, and returns
    one flag: whether some request came back with a non-zero code. *)
Theorem C2_dispatch_attempts_every_machine (W : World) (options : Options)
    (R : list Py.str) (s : Calls) :
  exists tr s',
    shutdown_all W options R false s = (tr, s', Ok (failed (shutdown_codes tr)))
    /\ shutdown_requests tr = R
    /\ shutdown_codes tr = responses (virsh_shutdown W) (shutdowns s) R
    /\ List.length (shutdown_codes tr) = List.length R
    /\ destroy_requests tr = [] /\ list_queries tr = [] /\ sleeps tr = [].
Proof.
  destruct (shutdown_all_spec W options R false s)
    as (tr & Hrun & Hreq & Hcodes & H1 & H2 & H3 & H4 & H5 & H6).
  exists tr, (after_shutdowns (List.length R) s).
  repeat split; auto.
  rewrite <- Hreq. unfold shutdown_codes, shutdown_requests.
  clear. induction tr as [|[] tr IH]; simpl; auto.
Qed.


(** C3.  If some [virsh shutdown] of a run returns a non-zero code, the run
    ends with [exit(3)] right after printing that the shutdown commands could
    not all be sent: the clock is never read, the script never sleeps, the
    only [virsh list] is the first one and no [virsh destroy] is issued, so
    the poll loop runs zero ticks whatever the machines do afterwards. *)
Theorem C3_dispatch_failure_aborts (W : World) (options : Options) (fuel : nat)
    (tr : list event) (r : result unit) :
  run W options fuel = (tr, r) ->
  any_dispatch_failed tr = true ->
  r = Raise (SystemExit 3)
  /\ (exists tr', tr = tr' ++ [Print Shutdown_failed])
  /\ clock_reads tr = [] /\ sleeps tr = []
  /\ list_queries tr = [virsh_list W 0]
  /\ destroy_requests tr = [].
Proof.
  intros Hrun Hfail. apply run_cases in Hrun. unfold any_dispatch_failed in Hfail.
  destruct Hrun as [out Hrc | dtr out running_vms Hrc Hdt Hf
    | dtr ptr out running_vms Hrc Hdt Hf Hp
    | dtr ptr r out running_vms Hrc Hdt Hf Hp Hr].
  - simpl in Hfail. discriminate.
  - split_dispatch Hdt. split; [reflexivity|]. split.
    + exists (Virsh_list out :: map Print (intro options running_vms) ++ dtr).
      reassoc.
    + trace_goal. auto.
  - split_dispatch Hdt. destruct (poll_classify Hp) as (P1 & P2 & _).
    revert Hfail. trace_goal. rewrite Hf. discriminate.
  - split_dispatch Hdt. destruct (poll_classify Hp) as (P1 & P2 & _).
    revert Hfail. trace_goal. rewrite Hf. discriminate.
Qed.

Section PollEnds.

Variable W : World.
Variable options : Options.

(** Once the running set is empty (on entry, or after a later [virsh list])
    the loop ends normally, no tick saw the deadline passed and nothing was
    destroyed. *)
Lemma poll_all_down (t0 : float) (fuel : nat) (running_vms : list Py.str) (s : Calls)
    (tr : list event) (r : result unit) :
  poll_run W options t0 fuel running_vms s tr r ->
  running_vms = [] \/ In [] (running_sets tr) ->
  r = Ok tt /\ passed options t0 tr = false /\ destroy_requests tr = [].
Proof.
  unfold passed.
  induction 1 as [fuel s | running_vms s Hne
    | fuel running_vms s msgs e now Hne Hz Hc He
    | fuel running_vms s msgs now Hne Hl Hd Hk
    | fuel running_vms s msgs dtr now announce errors Hne Hl Hd Hk Hreq Hcodes
        H1 H2 H3 H4 H5 H6
    | fuel running_vms s msgs now out Hne Hl Hd Hrc
    | fuel running_vms s msgs tr r now out Hne Hl Hd Hrc Hrun IH Hsl
    | fuel running_vms s msgs se now Hne Hl Hd Hsl];
    intros [Hempty|Hin]; try contradiction;
    try (revert Hin; trace_goal; tauto).
  - auto.
  - revert Hin. subst errors. destruct (failed (destroy_codes dtr)); trace_goal; tauto.
  - revert Hin. trace_goal. rewrite Hrc. simpl. tauto.
  - revert Hin. trace_goal. rewrite Hrc, Hd. simpl. intros [Hin|Hin].
    + apply IH. left. auto.
    + apply IH. right. exact Hin.
Qed.

End PollEnds.

(** C4.  If some inventory of a run is empty (the first one, taken before
    dispatch, or one taken by the poll loop) the run ends with [exit(0)]
    after the closing lines, no tick of it saw the deadline passed, no
    shutdown request failed and no [virsh destroy] was issued. *)
Theorem C4_empty_running_set_is_success (W : World) (options : Options) (fuel : nat)
    (tr : list event) (r : result unit) :
  run W options fuel = (tr, r) ->
  In [] (running_sets tr) ->
  r = Raise (SystemExit 0)
  /\ destroy_requests tr = []
  /\ deadline_passed options tr = false
  /\ any_dispatch_failed tr = false
  /\ exists tr', tr = tr' ++ map Print (outro options).
Proof.
  intros Hrun Hin. apply run_cases in Hrun.
  unfold deadline_passed, elapsed_at_ticks, any_dispatch_failed.
  destruct Hrun as [out Hrc | dtr out running_vms Hrc Hdt Hf
    | dtr ptr out running_vms Hrc Hdt Hf Hp
    | dtr ptr r out running_vms Hrc Hdt Hf Hp Hr].
  - simpl in Hin. rewrite Hrc in Hin. contradiction.
  - split_dispatch Hdt. revert Hin. trace_goal. rewrite Hrc. simpl.
    intros [Hin|[]]. fold running_vms in Hin.
    rewrite Hcodes, Hin in Hf. discriminate.
  - split_dispatch Hdt.
    assert (Hq : running_vms = [] \/ In [] (running_sets ptr)).
    { revert Hin. trace_goal. rewrite Hrc. simpl. tauto. }
    destruct (poll_all_down Hp Hq) as (_ & Hpass & Hd). unfold passed in Hpass.
    destruct (poll_classify Hp) as (P1 & P2 & _).
    trace_goal. rewrite Hf. repeat split; auto.
    exists (Virsh_list out :: map Print (intro options running_vms) ++ dtr
              ++ Time_time (clock W 0) :: ptr).
    reassoc.
  - split_dispatch Hdt.
    assert (Hq : running_vms = [] \/ In [] (running_sets ptr)).
    { revert Hin. trace_goal. rewrite Hrc. simpl. tauto. }
    destruct (poll_all_down Hp Hq) as (Hok & _). contradiction.
Qed.

Lemma last_cons {A} (a d : A) (l : list A) : last (a :: l) d = last l a.
Proof.
  revert a d. induction l as [|b l IH]; intros a d; [reflexivity|].
  change (last (a :: b :: l) d) with (last (b :: l) d).
  rewrite (IH b d), (IH b a). reflexivity.
Qed.

#[local] Arguments last {A} l d : simpl never.

Section PollDeadline.

Variable W : World.
Variable options : Options.

(** What happens when a tick sees the deadline passed. *)
Lemma poll_deadline (t0 : float) (fuel : nat) (running_vms : list Py.str) (s : Calls)
    (tr : list event) (r : result unit) :
  poll_run W options t0 fuel running_vms s tr r ->
  passed options t0 tr = true ->
  goes_through options t0 tr ->
  (kill options = false ->
   r = Raise (SystemExit 1)
   /\ exists tr', tr = tr' ++ [Print (Timeout_error (timeout options))])
  /\ (kill options = true ->
      r = (if failed (destroy_codes tr) then Raise (SystemExit 3) else Ok tt)
      /\ destroy_requests tr = last (running_sets tr) running_vms
      /\ destroy_codes tr
         = responses (virsh_destroy W) (destroys s) (last (running_sets tr) running_vms)).
Proof.
  unfold passed, goes_through.
  induction 1 as [fuel s | running_vms s Hne
    | fuel running_vms s msgs e now Hne Hz Hc He
    | fuel running_vms s msgs now Hne Hl Hd Hk
    | fuel running_vms s msgs dtr now announce errors Hne Hl Hd Hk Hreq Hcodes
        H1 H2 H3 H4 H5 H6
    | fuel running_vms s msgs now out Hne Hl Hd Hrc
    | fuel running_vms s msgs tr r now out Hne Hl Hd Hrc Hrun IH Hsl
    | fuel running_vms s msgs se now Hne Hl Hd Hsl].
  - simpl. discriminate.
  - simpl. discriminate.
  - trace_goal. intros _ Hgo. rewrite (Hgo Hz (PrimFloat.sub now t0)) in Hc by auto.
    discriminate.
  - intros _ _. split; [|congruence]. intros _. split; [reflexivity|].
    exists (Time_time now :: map Print msgs). rewrite map_app. reflexivity.
  - intros _ _. split; [congruence|]. intros _. subst errors.
    destruct (failed (destroy_codes dtr)) eqn:Hf; trace_goal; rewrite Hf; auto.
  - trace_goal. rewrite Hd. discriminate.
  - trace_goal. rewrite Hd, Hrc. simpl. intros Hpass Hgo.
    destruct IH as (IH1 & IH2); auto.
    split.
    + intros Hk. destruct (IH1 Hk) as (-> & tr' & ->). split; [reflexivity|].
      exists (Time_time now :: map Print msgs
                ++ Time_sleep (interval options) :: Virsh_list out :: tr').
      reassoc.
    + intros Hk. destruct (IH2 Hk) as (-> & Hreq & Hcodes).
      rewrite last_cons. auto.
  - trace_goal. rewrite Hd. discriminate.
Qed.

End PollDeadline.

(** C5.  In a run with forcing disabled no [virsh destroy] is ever issued;
    and if a tick of such a run sees [t > timeout] (its progress lines, with
    [-z], being computable) the run prints the timeout error and ends with
    [exit(1)]. *)
Theorem C5_timeout_without_forcing (W : World) (options : Options) (fuel : nat)
    (tr : list event) (r : result unit) :
  run W options fuel = (tr, r) ->
  kill options = false ->
  destroy_requests tr = []
  /\ (deadline_passed options tr = true ->
      progress_goes_through options tr ->
      r = Raise (SystemExit 1)
      /\ exists tr', tr = tr' ++ [Print (Timeout_error (timeout options))]).
Proof.
  intros Hrun Hk. apply run_cases in Hrun.
  unfold deadline_passed, progress_goes_through, elapsed_at_ticks.
  destruct Hrun as [out Hrc | dtr out running_vms Hrc Hdt Hf
    | dtr ptr out running_vms Hrc Hdt Hf Hp
    | dtr ptr r out running_vms Hrc Hdt Hf Hp Hr].
  - simpl. split; [reflexivity | discriminate].
  - split_dispatch Hdt. trace_goal. split; [reflexivity | discriminate].
  - split_dispatch Hdt. destruct (poll_classify Hp) as (_ & _ & P3).
    trace_goal. split.
    + destruct P3 as [(_ & Hd & _)|(_ & Hk' & _)]; congruence.
    + intros Hpass Hgo.
      destruct (poll_deadline Hp Hpass Hgo) as (Hexit & _).
      destruct (Hexit Hk) as (Hbad & _). discriminate.
  - split_dispatch Hdt. destruct (poll_classify Hp) as (_ & _ & P3).
    trace_goal. split.
    + destruct r as [[]|[code|code| | | |]|]; try tauto.
      destruct P3 as (_ & [(_ & _ & Hd & _)|(Hk' & _)]); congruence.
    + intros Hpass Hgo.
      destruct (poll_deadline Hp Hpass Hgo) as (Hexit & _).
      destruct (Hexit Hk) as (-> & tr' & ->). split; [reflexivity|].
      exists (Virsh_list out :: map Print (intro options running_vms) ++ dtr
                ++ Time_time (clock W 0) :: tr').
      reassoc.
Qed.

(** ** Cutting a trace at an event *)

Lemma split_not_in (l rest pre post : list event) (x : event) :
  l ++ rest = pre ++ x :: post ->
  ~ In x l ->
  exists pre2, pre = l ++ pre2 /\ rest = pre2 ++ x :: post.
Proof.
  revert pre. induction l as [|e l IH]; intros pre Heq Hnot.
  - exists pre. auto.
  - destruct pre as [|e' pre]; simpl in Heq; inversion Heq; subst.
    + exfalso. apply Hnot. left. reflexivity.
    + destruct (IH pre H1) as (pre2 & -> & ->).
      * intros Hin. apply Hnot. right. exact Hin.
      * exists pre2. auto.
Qed.

Lemma split_not_in_r (l rest pre post : list event) (x : event) :
  l ++ rest = pre ++ x :: post ->
  ~ In x rest ->
  exists post2, l = pre ++ x :: post2 /\ post = post2 ++ rest.
Proof.
  revert pre. induction l as [|e l IH]; intros pre Heq Hnot.
  - simpl in Heq. exfalso. apply Hnot. rewrite Heq. apply in_elt.
  - destruct pre as [|e' pre]; simpl in Heq; inversion Heq; subst.
    + exists l. auto.
    + destruct (IH pre H1 Hnot) as (post2 & -> & ->). exists post2. auto.
Qed.

(** Cuts [e :: l = pre ++ x :: post] into its two cases: [x] is [e], or [x]
    is in [l] (the equation [Hrest]). *)
Ltac cut_head pre Heq Hrest :=
  destruct pre as [|? pre]; simpl in Heq;
  [ injection Heq as ? ?; subst | injection Heq as ? Hrest; subst ].

Lemma in_destroy_requests (vm : Py.str) (quiet : bool) (code : Z) (l : list event) :
  In (Virsh_destroy vm quiet code) l -> destroy_requests l <> [].
Proof.
  intros Hin. apply in_split in Hin. destruct Hin as (a & b & ->).
  rewrite destroy_requests_app. simpl. intros H. symmetry in H.
  exact (app_cons_not_nil _ _ _ H).
Qed.

Lemma in_sleeps (d : float) (l : list event) : In (Time_sleep d) l -> sleeps l <> [].
Proof.
  intros Hin. apply in_split in Hin. destruct Hin as (a & b & ->).
  rewrite sleeps_app. simpl. intros H. symmetry in H.
  exact (app_cons_not_nil _ _ _ H).
Qed.

Lemma in_clock_reads (now : float) (l : list event) :
  In (Time_time now) l -> clock_reads l <> [].
Proof.
  intros Hin. apply in_split in Hin. destruct Hin as (a & b & ->).
  rewrite clock_reads_app. simpl. intros H. symmetry in H.
  exact (app_cons_not_nil _ _ _ H).
Qed.

(** Nothing after an event of a trace that never polls is a poll. *)
Lemma suffix_quiet (tr pre post : list event) (x : event) :
  tr = pre ++ x :: post ->
  clock_reads tr = [] -> sleeps tr = [] -> list_queries tr = [] ->
  clock_reads post = [] /\ sleeps post = [] /\ list_queries post = [].
Proof.
  intros -> Hc Hs Hl.
  rewrite clock_reads_app in Hc. rewrite sleeps_app in Hs. rewrite list_queries_app in Hl.
  apply app_eq_nil in Hc, Hs, Hl. destruct Hc as (_ & Hc), Hs as (_ & Hs), Hl as (_ & Hl).
  destruct x; simpl in *; try discriminate; auto.
Qed.

Section PollSplits.

Variable W : World.
Variable options : Options.

(** After a [virsh destroy] the loop never reads the clock, sleeps or lists
    the machines again. *)
Lemma poll_after_destroy (t0 : float) (fuel : nat) (running_vms : list Py.str) (s : Calls)
    (tr : list event) (r : result unit) :
  poll_run W options t0 fuel running_vms s tr r ->
  forall pre vm quiet code post,
    tr = pre ++ Virsh_destroy vm quiet code :: post ->
    clock_reads post = [] /\ sleeps post = [] /\ list_queries post = [].
Proof.
  induction 1 as [fuel s | running_vms s Hne
    | fuel running_vms s msgs e now Hne Hz Hc He
    | fuel running_vms s msgs now Hne Hl Hd Hk
    | fuel running_vms s msgs dtr now announce errors Hne Hl Hd Hk Hreq Hcodes
        H1 H2 H3 H4 H5 H6
    | fuel running_vms s msgs now out Hne Hl Hd Hrc
    | fuel running_vms s msgs tr r now out Hne Hl Hd Hrc Hrun IH Hsl
    | fuel running_vms s msgs se now Hne Hl Hd Hsl];
    intros pre vm quiet code post Heq;
    try (exfalso;
         assert (Hin : In (Virsh_destroy vm quiet code)
                         (pre ++ Virsh_destroy vm quiet code :: post)) by apply in_elt;
         rewrite <- Heq in Hin; apply in_destroy_requests in Hin; apply Hin;
         trace_goal; reflexivity).
  - change (Time_time now :: map Print (msgs ++ announce) ++ dtr
              ++ (if errors then [Print Destroy_failed] else []))
      with ((Time_time now :: map Print (msgs ++ announce))
              ++ (dtr ++ (if errors then [Print Destroy_failed] else []))) in Heq.
    apply split_not_in in Heq.
    + destruct Heq as (pre2 & -> & Heq).
      eapply suffix_quiet; [exact Heq | | |]; destruct errors; trace_goal; reflexivity.
    + intros Hin. apply in_destroy_requests in Hin. apply Hin. trace_goal. reflexivity.
  - replace (Time_time now :: map Print msgs
               ++ [Time_sleep (interval options); Virsh_list out] ++ tr)
      with ((Time_time now :: map Print msgs
               ++ [Time_sleep (interval options); Virsh_list out]) ++ tr) in Heq
      by reassoc.
    apply split_not_in in Heq.
    + destruct Heq as (pre2 & -> & Heq). exact (IH _ _ _ _ _ Heq).
    + intros Hin. apply in_destroy_requests in Hin. apply Hin. trace_goal. reflexivity.
Qed.

End PollSplits.

(** C6.  In every run, once a [virsh destroy] has been issued the script
    never reads the clock, sleeps or lists the machines again.  And if a tick
    of a run with forcing enabled sees [t > timeout] (its progress lines, with
    [-z], being computable), [virsh destroy] is sent to the machines of the
    last inventory, each once and in order, whatever codes come back; the run
    ends with [exit(3)] if some code was non-zero and with [exit(0)]
    otherwise. *)
Theorem C6_forced_termination (W : World) (options : Options) (fuel : nat)
    (tr : list event) (r : result unit) :
  run W options fuel = (tr, r) ->
  (forall pre vm quiet code post,
     tr = pre ++ Virsh_destroy vm quiet code :: post ->
     clock_reads post = [] /\ sleeps post = [] /\ list_queries post = [])
  /\ (kill options = true ->
      deadline_passed options tr = true ->
      progress_goes_through options tr ->
      destroy_requests tr = last (running_sets tr) []
      /\ destroy_codes tr = responses (virsh_destroy W) 0 (last (running_sets tr) [])
      /\ r = Raise (SystemExit (if any_force_failed tr then 3 else 0))).
Proof.
  intros Hrun. apply run_cases in Hrun.
  unfold deadline_passed, progress_goes_through, elapsed_at_ticks, any_force_failed.
  destruct Hrun as [out Hrc | dtr out running_vms Hrc Hdt Hf
    | dtr ptr out running_vms Hrc Hdt Hf Hp
    | dtr ptr r out running_vms Hrc Hdt Hf Hp Hr].
  - split; [|simpl; discriminate].
    intros pre vm quiet code post Heq. exfalso.
    assert (Hin : In (Virsh_destroy vm quiet code)
                    (pre ++ Virsh_destroy vm quiet code :: post)) by apply in_elt.
    rewrite <- Heq in Hin. apply in_destroy_requests in Hin. apply Hin. reflexivity.
  - split_dispatch Hdt. split; [|trace_goal; discriminate].
    intros pre vm quiet code post Heq. exfalso.
    assert (Hin : In (Virsh_destroy vm quiet code)
                    (pre ++ Virsh_destroy vm quiet code :: post)) by apply in_elt.
    rewrite <- Heq in Hin. apply in_destroy_requests in Hin. apply Hin.
    trace_goal. reflexivity.
  - split_dispatch Hdt. split.
    + intros pre vm quiet code post Heq.
      replace (Virsh_list out :: map Print (intro options running_vms) ++ dtr
                 ++ Time_time (clock W 0) :: ptr ++ map Print (outro options))
        with ((Virsh_list out :: map Print (intro options running_vms) ++ dtr
                 ++ [Time_time (clock W 0)]) ++ (ptr ++ map Print (outro options)))
        in Heq by reassoc.
      apply split_not_in in Heq.
      * destruct Heq as (pre2 & -> & Heq). apply split_not_in_r in Heq.
        -- destruct Heq as (post2 & Heq & ->).
           destruct (poll_after_destroy Hp _ _ _ _ _ Heq) as (Q1 & Q2 & Q3).
           trace_goal. auto.
        -- intros Hin. apply in_destroy_requests in Hin. apply Hin. trace_goal.
           reflexivity.
      * intros Hin. apply in_destroy_requests in Hin. apply Hin. trace_goal.
        reflexivity.
    + trace_goal. rewrite Hrc. simpl. intros Hk Hpass Hgo.
      destruct (poll_deadline Hp Hpass Hgo) as (_ & Hkill).
      destruct (Hkill Hk) as (Hres & Hreq' & Hcodes'). simpl in Hcodes'.
      rewrite last_cons. repeat split; auto.
      destruct (failed (destroy_codes ptr)); [discriminate | reflexivity].
  - split_dispatch Hdt. split.
    + intros pre vm quiet code post Heq.
      replace (Virsh_list out :: map Print (intro options running_vms) ++ dtr
                 ++ Time_time (clock W 0) :: ptr)
        with ((Virsh_list out :: map Print (intro options running_vms) ++ dtr
                 ++ [Time_time (clock W 0)]) ++ ptr)
        in Heq by reassoc.
      apply split_not_in in Heq.
      * destruct Heq as (pre2 & -> & Heq).
        exact (poll_after_destroy Hp _ _ _ _ _ Heq).
      * intros Hin. apply in_destroy_requests in Hin. apply Hin. trace_goal.
        reflexivity.
    + trace_goal. rewrite Hrc. simpl. intros Hk Hpass Hgo.
      destruct (poll_deadline Hp Hpass Hgo) as (_ & Hkill).
      destruct (Hkill Hk) as (Hres & Hreq' & Hcodes'). simpl in Hcodes'.
      rewrite last_cons. repeat split; auto.
      destruct (failed (destroy_codes ptr)); [exact Hres | contradiction].
Qed.

(** ** Floats *)

Lemma SFleb_not_gt (x y : spec_float) : SFleb x y = true -> SFltb y x = false.
Proof.
  unfold SFleb, SFltb, SFcompare.
  destruct x as [sx|sx| |sx mx ex], y as [sy|sy| |sy my ey];
    try (destruct sx); try (destruct sy); try reflexivity; try discriminate.
  - rewrite (Z.compare_antisym ex ey).
    destruct (Z.compare ex ey) eqn:E; simpl; try reflexivity; try discriminate.
    change (Pos.compare_cont Eq my mx) with (Pos.compare_cont (CompOpp Eq) my mx).
    rewrite <- (Pos.compare_cont_antisym mx my Eq).
    destruct (Pos.compare_cont Eq mx my); simpl; try reflexivity; discriminate.
  - rewrite (Z.compare_antisym ex ey).
    destruct (Z.compare ex ey) eqn:E; simpl; try reflexivity; try discriminate.
    change (Pos.compare_cont Eq my mx) with (Pos.compare_cont (CompOpp Eq) my mx).
    rewrite <- (Pos.compare_cont_antisym mx my Eq).
    destruct (Pos.compare_cont Eq mx my); simpl; try reflexivity; discriminate.
Qed.

(** [t <= timeout] excludes [t > timeout] (the converse fails on a NaN). *)
Lemma leb_not_timed_out (options : Options) (t : float) :
  PrimFloat.leb t (timeout options) = true -> timed_out options t = false.
Proof. unfold timed_out. rewrite leb_spec, ltb_spec. apply SFleb_not_gt. Qed.

Section PollTicks.

Variable W : World.
Variable options : Options.

(** A tick cannot be found in a trace that never reads the clock. *)
Ltac no_tick Heq :=
  exfalso;
  match type of Heq with
  | ?tr = ?pre ++ Time_time ?now :: ?post =>
      assert (Hin : In (Time_time now) tr) by (rewrite Heq; apply in_elt);
      apply in_clock_reads in Hin; apply Hin; trace_goal; reflexivity
  end.

(** The report of a tick with [-z] went through only if its progress
    lines could be computed. *)
Lemma report_lines_computable (running_vms : list Py.str) (t : float)
    (msgs : list message) :
  report_lines options running_vms t msgs ->
  zenity options = true ->
  progress_computable (timeout options) t = true.
Proof.
  intros (progress & _ & [(Hz & _) | (_ & Hc & _)]) Hz'; [congruence | exact Hc].
Qed.

(** What follows the clock reading of a tick. *)
Lemma poll_tick_shape (t0 : float) (fuel : nat) (running_vms : list Py.str) (s : Calls)
    (tr : list event) (r : result unit) :
  poll_run W options t0 fuel running_vms s tr r ->
  forall pre now post,
    tr = pre ++ Time_time now :: post ->
    let t := PrimFloat.sub now t0 in
    let vms := last (running_sets pre) running_vms in
    (timed_out options t = true ->
     clock_reads post = [] /\ sleeps post = [] /\ list_queries post = [])
    /\ (zenity options = true ->
        progress_computable (timeout options) t = false ->
        exists msgs e,
          progress_stops options vms t msgs e /\ formatting_error e
          /\ post = map Print msgs /\ r = Raise e)
    /\ ((zenity options = true -> progress_computable (timeout options) t = true) ->
        exists msgs rest,
          report_lines options vms t msgs
          /\ post = map Print msgs ++ rest
          /\ (timed_out options t = false ->
              (sleep W (interval options) = None
               /\ exists out post',
                    rest = Time_sleep (interval options) :: Virsh_list out :: post')
              \/ (exists se, sleep W (interval options) = Some se
                             /\ rest = [] /\ r = Raise (exn_of_sleep se)))
          /\ (timed_out options t = true ->
              exists rest', rest = Print (timeout_line options) :: rest')).
Proof.
  unfold timeout_line.
  induction 1 as [fuel s | running_vms s Hne
    | fuel running_vms s msgs e now Hne Hz Hc He Hstop
    | fuel running_vms s msgs now Hne Hl Hd Hk
    | fuel running_vms s msgs dtr now announce errors Hne Hl Hd Hk Hreq Hcodes
        H1 H2 H3 H4 H5 H6
    | fuel running_vms s msgs now out Hne Hl Hd Hrc Hsl
    | fuel running_vms s msgs tr r now out Hne Hl Hd Hrc Hrun IH Hsl
    | fuel running_vms s msgs se now Hne Hl Hd Hsl];
    intros pre now' post Heq; cbv zeta.
  - destruct pre; discriminate.
  - destruct pre; discriminate.
  - cut_head pre Heq Hrest.
    + split; [|split].
      * intros _. trace_goal. auto.
      * intros _ _. exists msgs, e. auto.
      * intros Hgo. rewrite (Hgo Hz) in Hc. discriminate.
    + no_tick Hrest.
  - cut_head pre Heq Hrest.
    + split; [|split].
      * intros _. trace_goal. auto.
      * intros Hz Hc. rewrite (report_lines_computable Hl Hz) in Hc. discriminate.
      * intros _. exists msgs, [Print (Timeout_error (timeout options))].
        rewrite Hk. split; [exact Hl|]. split; [rewrite map_app; reflexivity|].
        split; [congruence | eauto].
    + no_tick Hrest.
  - cut_head pre Heq Hrest.
    + split; [|split].
      * intros _. destruct errors; trace_goal; auto.
      * intros Hz Hc. rewrite (report_lines_computable Hl Hz) in Hc. discriminate.
      * intros _. exists msgs, (map Print announce ++ dtr
                                  ++ (if errors then [Print Destroy_failed] else [])).
        rewrite Hk. split; [exact Hl|]. split; [rewrite map_app; reassoc|].
        split; [congruence | subst announce; simpl; eauto].
    + destruct errors; no_tick Hrest.
  - cut_head pre Heq Hrest.
    + split; [|split].
      * congruence.
      * intros Hz Hc. rewrite (report_lines_computable Hl Hz) in Hc. discriminate.
      * intros _. exists msgs, [Time_sleep (interval options); Virsh_list out].
        split; [exact Hl|]. split; [reflexivity|].
        split; [eauto 6 | congruence].
    + no_tick Hrest.
  - cut_head pre Heq Hrest.
    + split; [|split].
      * congruence.
      * intros Hz Hc. rewrite (report_lines_computable Hl Hz) in Hc. discriminate.
      * intros _. exists msgs, (Time_sleep (interval options) :: Virsh_list out :: tr).
        split; [exact Hl|]. split; [reflexivity|].
        split; [eauto 6 | congruence].
    + apply split_not_in in Hrest.
      * destruct Hrest as (pre2 & -> & Heq').
        destruct pre2 as [|e1 [|e2 pre3]]; simpl in Heq'; inversion Heq'; subst.
        replace (last (running_sets
                         (Time_time now
                          :: map Print msgs
                             ++ Time_sleep (interval options) :: Virsh_list out :: pre3))
                      running_vms)
          with (last (running_sets pre3) (parse_names (stdout out)));
          [exact (IH _ _ _ eq_refl)|].
        trace_goal. rewrite Hrc. simpl. rewrite last_cons. reflexivity.
      * intros Hin. apply in_clock_reads in Hin. apply Hin. trace_goal. reflexivity.
  - cut_head pre Heq Hrest.
    + split; [|split].
      * congruence.
      * intros Hz Hc. rewrite (report_lines_computable Hl Hz) in Hc. discriminate.
      * intros _. exists msgs, []. split; [exact Hl|].
        split; [rewrite app_nil_r; reflexivity|].
        split; [eauto 6 | congruence].
    + no_tick Hrest.
Qed.

End PollTicks.

Section PollSleeps.

Variable W : World.
Variable options : Options.

(** Every sleep of the loop lasts [options.interval] and comes after the
    clock reading of its own tick, which, like those of the ticks before it,
    did not see the deadline passed. *)
Lemma poll_sleeps (t0 : float) (fuel : nat) (running_vms : list Py.str) (s : Calls)
    (tr : list event) (r : result unit) :
  poll_run W options t0 fuel running_vms s tr r ->
  forall pre d post,
    tr = pre ++ Time_sleep d :: post ->
    d = interval options
    /\ passed options t0 pre = false
    /\ List.length (clock_reads pre) = S (List.length (sleeps pre)).
Proof.
  unfold passed.
  induction 1 as [fuel s | running_vms s Hne
    | fuel running_vms s msgs e now Hne Hz Hc He
    | fuel running_vms s msgs now Hne Hl Hd Hk
    | fuel running_vms s msgs dtr now announce errors Hne Hl Hd Hk Hreq Hcodes
        H1 H2 H3 H4 H5 H6
    | fuel running_vms s msgs now out Hne Hl Hd Hrc
    | fuel running_vms s msgs tr r now out Hne Hl Hd Hrc Hrun IH Hsl
    | fuel running_vms s msgs se now Hne Hl Hd Hsl];
    intros pre d post Heq;
    try (exfalso;
         assert (Hin : In (Time_sleep d) (pre ++ Time_sleep d :: post)) by apply in_elt;
         rewrite <- Heq in Hin; apply in_sleeps in Hin; apply Hin;
         try destruct errors; trace_goal; reflexivity).
  - change (Time_time now :: map Print msgs ++ [Time_sleep (interval options); Virsh_list out])
      with ((Time_time now :: map Print msgs)
              ++ [Time_sleep (interval options); Virsh_list out]) in Heq.
    apply split_not_in in Heq.
    + destruct Heq as (pre2 & -> & Heq).
      destruct pre2 as [|e1 [|e2 [|e3 pre3]]]; simpl in Heq; inversion Heq; subst.
      trace_goal. rewrite Hd. auto.
    + intros Hin. apply in_sleeps in Hin. apply Hin. trace_goal. reflexivity.
  - change (Time_time now :: map Print msgs
              ++ [Time_sleep (interval options); Virsh_list out] ++ tr)
      with ((Time_time now :: map Print msgs)
              ++ Time_sleep (interval options) :: Virsh_list out :: tr) in Heq.
    apply split_not_in in Heq.
    + destruct Heq as (pre2 & -> & Heq).
      destruct pre2 as [|e1 [|e2 pre3]]; simpl in Heq; inversion Heq; subst.
      * trace_goal. rewrite Hd. auto.
      * destruct (IH _ _ _ eq_refl) as (-> & Hpass & Hlen).
        trace_goal. rewrite Hd, Hpass, Hlen. auto.
    + intros Hin. apply in_sleeps in Hin. apply Hin. trace_goal. reflexivity.
Qed.

End PollSleeps.

(** ** Ticks of a whole run *)

(** A tick of a run is a clock reading that is not the first one; [t0] is
    the first clock reading of the run.  What follows the clock reading of a
    tick: the report lines for the machines of the latest inventory at
    [t = now - t0], then either the sleep and the next [virsh list], or the
    timeout line after which the run never polls again. *)
Lemma run_tick (W : World) (options : Options) (fuel : nat)
    (tr : list event) (r : result unit) :
  run W options fuel = (tr, r) ->
  forall pre now post t0 reads,
    tr = pre ++ Time_time now :: post ->
    clock_reads pre = t0 :: reads ->
    let t := PrimFloat.sub now t0 in
    let vms := last (running_sets pre) [] in
    t0 = clock W 0
    /\ (timed_out options t = true ->
        clock_reads post = [] /\ sleeps post = [] /\ list_queries post = [])
    /\ (zenity options = true ->
        progress_computable (timeout options) t = false ->
        exists msgs e,
          progress_stops options vms t msgs e /\ formatting_error e
          /\ post = map Print msgs /\ r = Raise e)
    /\ ((zenity options = true -> progress_computable (timeout options) t = true) ->
        exists msgs rest,
          report_lines options vms t msgs
          /\ post = map Print msgs ++ rest
          /\ (timed_out options t = false ->
              (sleep W (interval options) = None
               /\ exists out post',
                    rest = Time_sleep (interval options) :: Virsh_list out :: post')
              \/ (exists se, sleep W (interval options) = Some se
                             /\ rest = [] /\ r = Raise (exn_of_sleep se)))
          /\ (timed_out options t = true ->
              exists rest', rest = Print (timeout_line options) :: rest')).
Proof.
  intros Hrun pre now post t0 reads Heq Hreads. cbv zeta. apply run_cases in Hrun.
  destruct Hrun as [out Hrc | dtr out running_vms Hrc Hdt Hf
    | dtr ptr out running_vms Hrc Hdt Hf Hp
    | dtr ptr r out running_vms Hrc Hdt Hf Hp Hr].
  - exfalso. assert (Hin : In (Time_time now) [Virsh_list out])
      by (rewrite Heq; apply in_elt).
    apply in_clock_reads in Hin. apply Hin. reflexivity.
  - exfalso. split_dispatch Hdt.
    assert (Hin : In (Time_time now)
                    (Virsh_list out :: map Print (intro options running_vms) ++ dtr
                       ++ [Print Shutdown_failed]))
      by (rewrite Heq; apply in_elt).
    apply in_clock_reads in Hin. apply Hin. trace_goal. reflexivity.
  - split_dispatch Hdt.
    replace (Virsh_list out :: map Print (intro options running_vms) ++ dtr
               ++ Time_time (clock W 0) :: ptr ++ map Print (outro options))
      with ((Virsh_list out :: map Print (intro options running_vms) ++ dtr)
              ++ Time_time (clock W 0) :: ptr ++ map Print (outro options))
      in Heq by reassoc.
    apply split_not_in in Heq;
      [|intros Hin; apply in_clock_reads in Hin; apply Hin; trace_goal; reflexivity].
    destruct Heq as (pre2 & -> & Heq).
    cut_head pre2 Heq Hrest.
    { revert Hreads. trace_goal. discriminate. }
    apply split_not_in_r in Hrest;
      [|intros Hin; apply in_clock_reads in Hin; apply Hin; trace_goal; reflexivity].
    destruct Hrest as (post2 & Hptr & ->).
    assert (Ht0 : t0 = clock W 0) by (revert Hreads; trace_goal; congruence).
    subst t0. split; [reflexivity|].
    destruct (poll_tick_shape Hp _ _ _ Hptr) as (T1 & T2 & T3).
    split; [|split].
    + intros Hd. destruct (T1 Hd) as (Q1 & Q2 & Q3). trace_goal. auto.
    + intros Hz Hc. destruct (T2 Hz Hc) as (msgs & e & _ & _ & _ & Habs).
      discriminate Habs.
    + intros Hgo. destruct (T3 Hgo) as (msgs & rest & Hl & -> & Hs & Ht).
      exists msgs, (rest ++ map Print (outro options)).
      split; [|split; [reassoc|split]].
      * replace (last (running_sets
                         ((Virsh_list out :: map Print (intro options running_vms) ++ dtr)
                            ++ Time_time (clock W 0) :: pre2)) [])
          with (last (running_sets pre2) running_vms); [exact Hl|].
        trace_goal. rewrite Hrc. simpl. rewrite last_cons. reflexivity.
      * intros Hd. destruct (Hs Hd) as [(Hsl & out' & post' & ->)|(se & _ & _ & Habs)];
          [|discriminate Habs].
        left. split; [exact Hsl|].
        exists out', (post' ++ map Print (outro options)). reflexivity.
      * intros Hd. destruct (Ht Hd) as (rest' & ->).
        exists (rest' ++ map Print (outro options)). reflexivity.
  - split_dispatch Hdt.
    replace (Virsh_list out :: map Print (intro options running_vms) ++ dtr
               ++ Time_time (clock W 0) :: ptr)
      with ((Virsh_list out :: map Print (intro options running_vms) ++ dtr)
              ++ Time_time (clock W 0) :: ptr)
      in Heq by reassoc.
    apply split_not_in in Heq;
      [|intros Hin; apply in_clock_reads in Hin; apply Hin; trace_goal; reflexivity].
    destruct Heq as (pre2 & -> & Heq).
    cut_head pre2 Heq Hrest.
    { revert Hreads. trace_goal. discriminate. }
    assert (Ht0 : t0 = clock W 0) by (revert Hreads; trace_goal; congruence).
    subst t0. split; [reflexivity|].
    replace (last (running_sets
                     ((Virsh_list out :: map Print (intro options running_vms) ++ dtr)
                        ++ Time_time (clock W 0) :: pre2)) [])
      with (last (running_sets pre2) running_vms);
      [exact (poll_tick_shape Hp _ _ _ eq_refl)|].
    trace_goal. rewrite Hrc. simpl. rewrite last_cons. reflexivity.
Qed.

(** X16.  In every run: each sleep lasts [options.interval] and comes
    after the clock reading of its own tick, and neither that tick nor an
    earlier one saw [t > timeout]; at every tick [t] is the clock reading of
    the tick minus the first clock reading of the run; a tick that sees
    [t > timeout] is followed by no sleep, no clock reading and no
    [virsh list]; and a tick with [t <= timeout] goes one of three ways: it
    prints, sleeps for the interval and lists the machines again; or
    [time.sleep] refuses the interval and its exception ends the run after
    the prints of the tick; or, with [-z], the progress lines cannot be
    computed and their exception ends the run after the prints of the
    tick. *)
Theorem deadline_checked_before_sleeping (W : World) (options : Options) (fuel : nat)
    (tr : list event) (r : result unit) :
  run W options fuel = (tr, r) ->
  (forall pre d post,
     tr = pre ++ Time_sleep d :: post ->
     d = interval options
     /\ deadline_passed options pre = false
     /\ List.length (clock_reads pre) = 2 + List.length (sleeps pre))
  /\ (forall pre now post t0 reads,
        tr = pre ++ Time_time now :: post ->
        clock_reads pre = t0 :: reads ->
        t0 = clock W 0
        /\ (timed_out options (PrimFloat.sub now t0) = true ->
            sleeps post = [] /\ clock_reads post = [] /\ list_queries post = [])
        /\ (PrimFloat.leb (PrimFloat.sub now t0) (timeout options) = true ->
            (sleep W (interval options) = None
             /\ exists msgs out post',
                  post = map Print msgs
                           ++ Time_sleep (interval options) :: Virsh_list out :: post')
            \/ (exists msgs se,
                  sleep W (interval options) = Some se
                  /\ post = map Print msgs /\ r = Raise (exn_of_sleep se))
            \/ (zenity options = true
                /\ progress_computable (timeout options) (PrimFloat.sub now t0) = false
                /\ exists msgs e,
                     formatting_error e /\ post = map Print msgs /\ r = Raise e))).
Proof.
  intros Hrun. split.
  - intros pre d post Heq. apply run_cases in Hrun.
    unfold deadline_passed, elapsed_at_ticks.
    destruct Hrun as [out Hrc | dtr out running_vms Hrc Hdt Hf
      | dtr ptr out running_vms Hrc Hdt Hf Hp
      | dtr ptr r out running_vms Hrc Hdt Hf Hp Hr].
    + exfalso. assert (Hin : In (Time_sleep d) [Virsh_list out])
        by (rewrite Heq; apply in_elt).
      apply in_sleeps in Hin. apply Hin. reflexivity.
    + exfalso. split_dispatch Hdt.
      assert (Hin : In (Time_sleep d)
                      (Virsh_list out :: map Print (intro options running_vms) ++ dtr
                         ++ [Print Shutdown_failed]))
        by (rewrite Heq; apply in_elt).
      apply in_sleeps in Hin. apply Hin. trace_goal. reflexivity.
    + split_dispatch Hdt.
      replace (Virsh_list out :: map Print (intro options running_vms) ++ dtr
                 ++ Time_time (clock W 0) :: ptr ++ map Print (outro options))
        with ((Virsh_list out :: map Print (intro options running_vms) ++ dtr
                 ++ [Time_time (clock W 0)]) ++ (ptr ++ map Print (outro options)))
        in Heq by reassoc.
      apply split_not_in in Heq;
        [|intros Hin; apply in_sleeps in Hin; apply Hin; trace_goal; reflexivity].
      destruct Heq as (pre2 & -> & Heq).
      apply split_not_in_r in Heq;
        [|intros Hin; apply in_sleeps in Hin; apply Hin; trace_goal; reflexivity].
      destruct Heq as (post2 & Hptr & ->).
      destruct (poll_sleeps Hp _ _ _ Hptr) as (-> & Hpass & Hlen).
      unfold passed in Hpass. trace_goal. rewrite Hlen. auto.
    + split_dispatch Hdt.
      replace (Virsh_list out :: map Print (intro options running_vms) ++ dtr
                 ++ Time_time (clock W 0) :: ptr)
        with ((Virsh_list out :: map Print (intro options running_vms) ++ dtr
                 ++ [Time_time (clock W 0)]) ++ ptr)
        in Heq by reassoc.
      apply split_not_in in Heq;
        [|intros Hin; apply in_sleeps in Hin; apply Hin; trace_goal; reflexivity].
      destruct Heq as (pre2 & -> & Heq).
      destruct (poll_sleeps Hp _ _ _ Heq) as (-> & Hpass & Hlen).
      unfold passed in Hpass. trace_goal. rewrite Hlen. auto.
  - intros pre now post t0 reads Heq Hreads.
    destruct (run_tick _ _ _ Hrun _ _ _ Heq Hreads) as (Ht0 & Hpast & Hbad & Hnext).
    split; [exact Ht0|]. split.
    + intros Hd. destruct (Hpast Hd) as (Q1 & Q2 & Q3). auto.
    + intros Hle. apply leb_not_timed_out in Hle.
      destruct (zenity options) eqn:Hz;
        [destruct (progress_computable (timeout options) (PrimFloat.sub now t0)) eqn:Hc|].
      * destruct (Hnext (fun _ => eq_refl)) as (msgs & rest & _ & -> & Hs & _).
        destruct (Hs Hle) as [(Hsl & out & post' & ->)|(se & Hsl & -> & ->)].
        -- left. eauto 6.
        -- right. left. exists msgs, se. rewrite app_nil_r. auto.
      * destruct (Hbad eq_refl eq_refl) as (msgs & e & _ & He & -> & ->).
        right. right. eauto 8.
      * destruct Hnext as (msgs & rest & _ & -> & Hs & _); [discriminate|].
        destruct (Hs Hle) as [(Hsl & out & post' & ->)|(se & Hsl & -> & ->)].
        -- left. eauto 6.
        -- right. left. exists msgs, se. rewrite app_nil_r. auto.
Qed.

(** C8 as amended.  At a tick whose progress lines, with [-z], can be
    computed, the script prints: with [-z], the number of machines of the
    latest inventory with the seconds left, [int(options.timeout - t)], then
    the percentage of line 75; and, only when [-v] is set or the tick sees
    [t > timeout], the elapsed time [t] with that number of machines, then
    their names.  Nothing else is printed at the tick: what follows is the
    timeout line (when [t > timeout]) or no print at all (the sleep, or the
    end of the run when [time.sleep] refuses the interval); with neither flag
    and the deadline not passed the tick prints nothing. *)
Theorem C8_report_only_when_asked (W : World) (options : Options) (fuel : nat)
    (tr : list event) (r : result unit) :
  run W options fuel = (tr, r) ->
  forall pre now post t0 reads,
    tr = pre ++ Time_time now :: post ->
    clock_reads pre = t0 :: reads ->
    (zenity options = true ->
     progress_computable (timeout options) (PrimFloat.sub now t0) = true) ->
    let t := PrimFloat.sub now t0 in
    let vms := last (running_sets pre) [] in
    exists progress rest,
      post = map Print (progress ++ still_waiting_lines options vms t) ++ rest
      /\ (zenity options = false -> progress = [])
      /\ (zenity options = true ->
          exists seconds_left percent,
            Py.int (PrimFloat.sub (timeout options) t) = Ok seconds_left
            /\ progress_percent options t = Ok percent
            /\ progress = [Zenity_waiting (List.length vms) seconds_left;
                           Zenity_percent percent])
      /\ (timed_out options t = false ->
          rest = [] \/ exists rest', rest = Time_sleep (interval options) :: rest')
      /\ (timed_out options t = true ->
          exists rest', rest = Print (timeout_line options) :: rest')
      /\ (zenity options = false -> verbose options = false ->
          timed_out options t = false ->
          post = [] \/ exists rest', post = Time_sleep (interval options) :: rest').
Proof.
  intros Hrun pre now post t0 reads Heq Hreads Hgo t vms.
  destruct (run_tick _ _ _ Hrun _ _ _ Heq Hreads) as (_ & _ & _ & Hnext).
  destruct (Hnext Hgo) as (msgs & rest & Hl & -> & Hs & Ht).
  destruct Hl as (progress & -> & Hp).
  exists progress, rest. fold t vms. split; [reflexivity|].
  assert (Hsleep : timed_out options t = false ->
                   rest = [] \/ exists rest', rest = Time_sleep (interval options) :: rest').
  { intros Hd. destruct (Hs Hd) as [(_ & out & post' & ->)|(se & _ & -> & _)]; eauto. }
  destruct Hp as [(Hz & ->)|(Hz & Hc & a & b & Ha & Hb & ->)].
  - split; [reflexivity|]. split; [congruence|]. split; [exact Hsleep|].
    split; [exact Ht|]. intros _ Hv Hd.
    unfold still_waiting_lines. rewrite Hv, Hd. simpl. exact (Hsleep Hd).
  - split; [congruence|]. split; [eauto 6|]. split; [exact Hsleep|].
    split; [exact Ht|]. congruence.
Qed.

Lemma in_list_queries (out : Completed) (l : list event) :
  In (Virsh_list out) l -> list_queries l <> [].
Proof.
  intros Hin. apply in_split in Hin. destruct Hin as (a & b & ->).
  rewrite list_queries_app. simpl. intros H. symmetry in H.
  exact (app_cons_not_nil _ _ _ H).
Qed.

(** No shutdown request after an event of a trace without any. *)
Lemma suffix_no_shutdown (tr pre post : list event) (x : event) :
  tr = pre ++ x :: post -> shutdown_requests tr = [] -> shutdown_requests post = [].
Proof.
  intros -> H. rewrite shutdown_requests_app in H. apply app_eq_nil in H.
  destruct H as (_ & H). destruct x; simpl in *; try discriminate; auto.
Qed.

Lemma split_tail (e x : event) (l pre post : list event) :
  e :: l = pre ++ x :: post -> pre <> [] ->
  exists pre', pre = e :: pre' /\ l = pre' ++ x :: post.
Proof.
  intros Heq Hne. destruct pre as [|e' pre]; [contradiction|].
  injection Heq as -> ->. eauto.
Qed.

Section PollInventory.

Variable W : World.
Variable options : Options.

(** The loop ends normally without the deadline passed only on an empty
    inventory. *)
Lemma poll_ends_empty (t0 : float) (fuel : nat) (running_vms : list Py.str) (s : Calls)
    (tr : list event) (r : result unit) :
  poll_run W options t0 fuel running_vms s tr r ->
  r = Ok tt -> passed options t0 tr = false ->
  last (running_sets tr) running_vms = [].
Proof.
  unfold passed.
  induction 1 as [fuel s | running_vms s Hne
    | fuel running_vms s msgs e now Hne Hz Hc He
    | fuel running_vms s msgs now Hne Hl Hd Hk
    | fuel running_vms s msgs dtr now announce errors Hne Hl Hd Hk Hreq Hcodes
        H1 H2 H3 H4 H5 H6
    | fuel running_vms s msgs now out Hne Hl Hd Hrc
    | fuel running_vms s msgs tr r now out Hne Hl Hd Hrc Hrun IH Hsl
    | fuel running_vms s msgs se now Hne Hl Hd Hsl];
    intros Hr; try discriminate.
  - reflexivity.
  - subst errors. destruct (failed (destroy_codes dtr)); [discriminate|].
    trace_goal. rewrite Hd. discriminate.
  - trace_goal. rewrite Hd, Hrc. simpl. intros Hpass. rewrite last_cons. auto.
Qed.

End PollInventory.

(** C10.  In every run the shutdown requests are exactly the machines of
    the first inventory (none if the first [virsh list] failed); nothing
    after a clock reading, and nothing after a later [virsh list], is a
    shutdown request; a [virsh destroy] is only issued with the kill option
    and after a tick saw the deadline passed; and a run that ends with
    [exit(0)] without the deadline passed ended on an empty inventory, so a
    machine that shows up later keeps the loop going. *)
Theorem C10_shutdown_only_in_dispatch (W : World) (options : Options) (fuel : nat)
    (tr : list event) (r : result unit) :
  run W options fuel = (tr, r) ->
  shutdown_requests tr = hd [] (running_sets tr)
  /\ (forall pre now post,
        tr = pre ++ Time_time now :: post -> shutdown_requests post = [])
  /\ (forall pre out post,
        tr = pre ++ Virsh_list out :: post -> pre <> [] -> shutdown_requests post = [])
  /\ (destroy_requests tr = []
      \/ (kill options = true /\ deadline_passed options tr = true))
  /\ (r = Raise (SystemExit 0) -> deadline_passed options tr = false ->
      last (running_sets tr) [] = []).
Proof.
  intros Hrun. apply run_cases in Hrun.
  unfold deadline_passed, elapsed_at_ticks.
  destruct Hrun as [out Hrc | dtr out running_vms Hrc Hdt Hf
    | dtr ptr out running_vms Hrc Hdt Hf Hp
    | dtr ptr r out running_vms Hrc Hdt Hf Hp Hr].
  - simpl. rewrite Hrc. repeat split; auto; try discriminate.
    + intros pre now post Heq. exfalso.
      assert (Hin : In (Time_time now) [Virsh_list out]) by (rewrite Heq; apply in_elt).
      apply in_clock_reads in Hin. apply Hin. reflexivity.
    + intros pre out' post Heq Hne. destruct pre as [|e [|e' pre]]; try discriminate.
      contradiction.
  - split_dispatch Hdt. split; [trace_goal; rewrite Hrc; exact Hreq|].
    split; [|split; [|split; [trace_goal; auto | discriminate]]].
    + intros pre now post Heq. exfalso.
      assert (Hin : In (Time_time now)
                      (Virsh_list out :: map Print (intro options running_vms) ++ dtr
                         ++ [Print Shutdown_failed]))
        by (rewrite Heq; apply in_elt).
      apply in_clock_reads in Hin. apply Hin. trace_goal. reflexivity.
    + intros pre out' post Heq Hne. exfalso.
      destruct (@split_tail _ _ _ _ _ Heq Hne) as (pre' & _ & H1).
      assert (Hin : In (Virsh_list out')
                      (map Print (intro options running_vms) ++ dtr
                         ++ [Print Shutdown_failed]))
        by (rewrite H1; apply in_elt).
      apply in_list_queries in Hin. apply Hin. trace_goal. reflexivity.
  - split_dispatch Hdt. destruct (poll_classify Hp) as (P1 & P2 & P3).
    split; [trace_goal; rewrite Hrc; exact Hreq|].
    split; [|split; [|split]].
    + intros pre now post Heq.
      replace (Virsh_list out :: map Print (intro options running_vms) ++ dtr
                 ++ Time_time (clock W 0) :: ptr ++ map Print (outro options))
        with ((Virsh_list out :: map Print (intro options running_vms) ++ dtr)
                ++ Time_time (clock W 0) :: ptr ++ map Print (outro options))
        in Heq by reassoc.
      apply split_not_in in Heq;
        [|intros Hin; apply in_clock_reads in Hin; apply Hin; trace_goal; reflexivity].
      destruct Heq as (pre2 & _ & Heq).
      eapply suffix_no_shutdown; [exact Heq|]. trace_goal. reflexivity.
    + intros pre out' post Heq Hne.
      destruct (@split_tail _ _ _ _ _ Heq Hne) as (pre' & _ & H1).
      replace (map Print (intro options running_vms) ++ dtr
                 ++ Time_time (clock W 0) :: ptr ++ map Print (outro options))
        with ((map Print (intro options running_vms) ++ dtr ++ [Time_time (clock W 0)])
                ++ ptr ++ map Print (outro options))
        in H1 by reassoc.
      apply split_not_in in H1;
        [|intros Hin; apply in_list_queries in Hin; apply Hin; trace_goal; reflexivity].
      destruct H1 as (pre2 & _ & Heq').
      eapply suffix_no_shutdown; [exact Heq'|]. trace_goal. reflexivity.
    + unfold passed in P3. trace_goal.
      destruct P3 as [(_ & Hd & _)|(Hpass & Hk & _)]; auto.
    + intros _. trace_goal. rewrite Hrc. simpl. intros Hpass.
      rewrite last_cons. exact (poll_ends_empty Hp eq_refl Hpass).
  - split_dispatch Hdt. destruct (poll_classify Hp) as (P1 & P2 & P3).
    split; [trace_goal; rewrite Hrc; exact Hreq|].
    split; [|split; [|split]].
    + intros pre now post Heq.
      replace (Virsh_list out :: map Print (intro options running_vms) ++ dtr
                 ++ Time_time (clock W 0) :: ptr)
        with ((Virsh_list out :: map Print (intro options running_vms) ++ dtr)
                ++ Time_time (clock W 0) :: ptr)
        in Heq by reassoc.
      apply split_not_in in Heq;
        [|intros Hin; apply in_clock_reads in Hin; apply Hin; trace_goal; reflexivity].
      destruct Heq as (pre2 & _ & Heq).
      eapply suffix_no_shutdown; [exact Heq|]. trace_goal. reflexivity.
    + intros pre out' post Heq Hne.
      destruct (@split_tail _ _ _ _ _ Heq Hne) as (pre' & _ & H1).
      replace (map Print (intro options running_vms) ++ dtr
                 ++ Time_time (clock W 0) :: ptr)
        with ((map Print (intro options running_vms) ++ dtr ++ [Time_time (clock W 0)])
                ++ ptr)
        in H1 by reassoc.
      apply split_not_in in H1;
        [|intros Hin; apply in_list_queries in Hin; apply Hin; trace_goal; reflexivity].
      destruct H1 as (pre2 & _ & Heq').
      eapply suffix_no_shutdown; [exact Heq'|]. exact P1.
    + unfold passed in P3. trace_goal.
      destruct r as [[]|[code|code| | | |]|]; tauto.
    + intros ->. destruct P3 as (_ & [(_ & Hbad & _)|(_ & Hbad & _)]); discriminate.
Qed.

(** ** The reporting flags and the outcome *)

(** Unfolds the local definitions that the constructors of [poll_run]
    introduce. *)
Ltac unlet := repeat match goal with x := _ |- _ => subst x end.

(** Two runs of the loop from the same call state, under options that
    differ at most in [verbose] and [zenity], end the same way as long as no
    progress line raises. *)
Lemma poll_run_same_result (W : World) (o1 o2 : Options) (t0 : float) (fuel : nat)
    (running_vms : list Py.str) (s : Calls) (tr1 : list event) (r1 : result unit) :
  poll_run W o1 t0 fuel running_vms s tr1 r1 ->
  forall tr2 r2,
    poll_run W o2 t0 fuel running_vms s tr2 r2 ->
    interval o1 = interval o2 -> timeout o1 = timeout o2 -> kill o1 = kill o2 ->
    (zenity o1 || zenity o2 = true ->
     forall k, clocks s <= k ->
               progress_computable (timeout o1) (PrimFloat.sub (clock W k) t0) = true) ->
    r1 = r2.
Proof.
  induction 1 as [fuel s | running_vms s Hne
    | fuel running_vms s msgs e now Hne Hz Hc He
    | fuel running_vms s msgs now Hne Hl Hd Hk
    | fuel running_vms s msgs dtr now announce errors Hne Hl Hd Hk Hreq Hcodes
        H1 H2 H3 H4 H5 H6
    | fuel running_vms s msgs now out Hne Hl Hd Hrc
    | fuel running_vms s msgs tr r now out Hne Hl Hd Hrc Hrun IH Hsl
    | fuel running_vms s msgs se now Hne Hl Hd Hsl];
    intros tr2 r2 Hrun2 Hi Ht Hkill Hgo;
    inversion Hrun2; subst; unlet; unfold timed_out in *;
    rewrite <- ?Hi, <- ?Ht, <- ?Hkill in *;
    try reflexivity; try contradiction; try congruence;
    try (exfalso;
         match goal with
         | Hz' : zenity _ = true, H : progress_computable _ _ = false |- _ =>
             rewrite Hgo in H by (auto; rewrite Hz'; auto using orb_true_r);
             discriminate
         end);
    try match goal with
        | Ha : destroy_codes ?a = ?x, Hb : destroy_codes ?b = ?x
          |- context [destroy_codes ?b] => rewrite Ha, Hb; reflexivity
        end.
  eapply IH; eauto. intros Hz k Hle. apply Hgo; auto. simpl in Hle. lia.
Qed.

(** X10.  Whatever the hypervisor and the clock do, two runs whose options
    differ at most in [verbose] and [zenity] (the same interval, timeout and
    kill option) end the same way, provided that, when one of them has [-z],
    the progress lines can be computed at every tick.  Without [-z] on either
    side nothing is assumed: the verbose flag alone never changes how a run
    ends. *)
Lemma reporting_flags_keep_the_result (W : World) (o1 o2 : Options) (fuel : nat) :
  interval o1 = interval o2 -> timeout o1 = timeout o2 -> kill o1 = kill o2 ->
  (zenity o1 || zenity o2 = true ->
   forall k, progress_computable (timeout o1)
               (PrimFloat.sub (clock W (S k)) (clock W 0)) = true) ->
  snd (run W o1 fuel) = snd (run W o2 fuel).
Proof.
  intros Hi Ht Hkill Hgo.
  destruct (run_sound W o1 fuel) as (tr1 & r1 & -> & R1).
  destruct (run_sound W o2 fuel) as (tr2 & r2 & -> & R2). simpl.
  destruct R1 as [out Hrc | dtr out running_vms Hrc Hdt Hf
    | dtr ptr out running_vms Hrc Hdt Hf Hp
    | dtr ptr r out running_vms Hrc Hdt Hf Hp Hr];
    inversion R2; subst; unlet;
    repeat match goal with
           | H : dispatch_trace _ _ _ |- _ => destruct H as (_ & ? & _)
           end;
    try reflexivity; try congruence.
  - exfalso. assert (E : Ok tt = r2); [|congruence].
    eapply poll_run_same_result; eauto.
    intros Hz k Hle. destruct k as [|k]; [simpl in Hle; lia | auto].
  - exfalso. assert (E : r = Ok tt); [|congruence].
    eapply poll_run_same_result; eauto.
    intros Hz k Hle. destruct k as [|k]; [simpl in Hle; lia | auto].
  - eapply poll_run_same_result; eauto.
    intros Hz k Hle. destruct k as [|k]; [simpl in Hle; lia | auto].
Qed.

(** ** The scenarios, run *)

Example parse_names_empty : parse_names nl = [].
Proof. reflexivity. Qed.

Example parse_names_two : parse_names (vm1 ++ nl ++ vm2 ++ nl) = [vm1; vm2].
Proof. reflexivity. Qed.

Example strip_removes_no_break_space :
  parse_names (Py.text "vm" ++ [160%N] ++ nl) = [Py.text "vm"].
Proof. reflexivity. Qed.

Example blank_with_unicode_space : parse_names ([160%N; 8195%N] ++ nl) = [].
Proof. reflexivity. Qed.

Example sleep_accepts_a_second : Py.sleep_check 1 = None.
Proof. reflexivity. Qed.

Example sleep_refuses_a_negative_length : Py.sleep_check (-1) = Some Sleep_ValueError.
Proof. reflexivity. Qed.

Example sleep_refuses_nan : Py.sleep_check nan = Some Sleep_ValueError.
Proof. reflexivity. Qed.

Example sleep_refuses_infinity : Py.sleep_check infinity = Some Sleep_OverflowError.
Proof. reflexivity. Qed.

Example sleep_refuses_a_huge_length : Py.sleep_check 1e10 = Some Sleep_OverflowError.
Proof. reflexivity. Qed.

Example int_truncates : Py.int (PrimFloat.sub 2 4.5) = Ok (-2)%Z.
Proof. reflexivity. Qed.

Example int_of_infinity : Py.int (PrimFloat.sub infinity 1) = Raise OverflowError.
Proof. reflexivity. Qed.

Example int_of_nan : Py.int (PrimFloat.sub nan 1) = Raise ValueError.
Proof. reflexivity. Qed.

Example progress_at_default_timeout : progress_computable 30 1 = true.
Proof. reflexivity. Qed.

Example progress_at_infinite_timeout : progress_computable infinity 1 = false.
Proof. reflexivity. Qed.

Example progress_at_zero_timeout : progress_computable 0 (-1) = false.
Proof. reflexivity. Qed.

Example idle_run :
  run idle default_options 0
  = ([Virsh_list {| returncode := 0; stdout := nl |}; Print (Summary 0 30 false);
      Time_time 100; Print All_shut_down],
     Raise (SystemExit 0)).
Proof. vm_compute. reflexivity. Qed.

Example obedient_run :
  run obedient default_options 5
  = ([Virsh_list {| returncode := 0; stdout := (vm1 ++ nl ++ vm2 ++ nl) |};
      Print (Summary 2 30 false);
      Virsh_shutdown vm1 true 0; Virsh_shutdown vm2 true 0;
      Time_time 100;
      Time_time 101; Time_sleep 1;
      Virsh_list {| returncode := 0; stdout := (vm1 ++ nl ++ vm2 ++ nl) |};
      Time_time 102; Time_sleep 1;
      Virsh_list {| returncode := 0; stdout := nl |};
      Print All_shut_down],
     Raise (SystemExit 0)).
Proof. vm_compute. reflexivity. Qed.

Example stubborn_killed_run :
  run stubborn (with_timeout 2 true false false) 5
  = ([Virsh_list {| returncode := 0; stdout := (vm1 ++ nl) |};
      Print (Summary 1 2 true);
      Virsh_shutdown vm1 true 0;
      Time_time 100;
      Time_time 101; Time_sleep 1;
      Virsh_list {| returncode := 0; stdout := (vm1 ++ nl ++ vm2 ++ nl) |};
      Time_time 102; Time_sleep 1;
      Virsh_list {| returncode := 0; stdout := (vm1 ++ nl ++ vm2 ++ nl) |};
      Time_time 103;
      Print (Still_waiting 3 2); Print (Vm_names [vm1; vm2]);
      Print (Timeout_kill 2);
      Virsh_destroy vm1 true 0; Virsh_destroy vm2 true 1;
      Print Destroy_failed],
     Raise (SystemExit 3)).
Proof. vm_compute. reflexivity. Qed.

(** ** The claims at the scenarios *)

(** C3 at [refusing]: the request for vm1 is refused, the run ends with
    [exit(3)] and never reads the clock. *)
Lemma C3_witness :
  any_dispatch_failed (fst (run refusing default_options 5)) = true
  /\ snd (run refusing default_options 5) = Raise (SystemExit 3)
  /\ clock_reads (fst (run refusing default_options 5)) = [].
Proof.
  split; [vm_compute; reflexivity|].
  destruct (@C3_dispatch_failure_aborts refusing default_options 5
              (fst (run refusing default_options 5))
              (snd (run refusing default_options 5)))
    as (Hr & _ & Hc & _).
  - vm_compute. reflexivity.
  - vm_compute. reflexivity.
  - split; assumption.
Defined.

(** C4 at [obedient]: the third inventory is empty and the run ends with
    [exit(0)] without a destroy. *)
Lemma C4_witness :
  In [] (running_sets (fst (run obedient default_options 5)))
  /\ snd (run obedient default_options 5) = Raise (SystemExit 0)
  /\ destroy_requests (fst (run obedient default_options 5)) = [].
Proof.
  assert (Hin : In [] (running_sets (fst (run obedient default_options 5)))).
  { vm_compute. right. right. left. reflexivity. }
  split; [exact Hin|].
  destruct (@C4_empty_running_set_is_success obedient default_options 5
              (fst (run obedient default_options 5))
              (snd (run obedient default_options 5)))
    as (Hr & Hd & _).
  - vm_compute. reflexivity.
  - exact Hin.
  - split; assumption.
Defined.

(** C5 at [stubborn] with [-t 2 -v -z]: the third tick is past the deadline
    and the run ends with [exit(1)] without a destroy. *)
Lemma C5_witness :
  let options := with_timeout 2 false true true in
  kill options = false
  /\ deadline_passed options (fst (run stubborn options 5)) = true
  /\ progress_goes_through options (fst (run stubborn options 5))
  /\ snd (run stubborn options 5) = Raise (SystemExit 1)
  /\ destroy_requests (fst (run stubborn options 5)) = [].
Proof.
  intros options.
  assert (Hgo : progress_goes_through options (fst (run stubborn options 5))).
  { intros _ t Hin. vm_compute in Hin.
    destruct Hin as [<-|[<-|[<-|[]]]]; vm_compute; reflexivity. }
  split; [reflexivity|]. split; [vm_compute; reflexivity|]. split; [exact Hgo|].
  destruct (@C5_timeout_without_forcing stubborn options 5
              (fst (run stubborn options 5)) (snd (run stubborn options 5)))
    as (Hd & Hexit).
  - vm_compute. reflexivity.
  - reflexivity.
  - split; [|exact Hd]. apply Hexit; [vm_compute; reflexivity | exact Hgo].
Defined.

(** C6 at [stubborn] with [-t 2 -k -v -z]: both machines of the last
    inventory are destroyed, the second destroy fails and the run ends with
    [exit(3)]. *)
Lemma C6_witness :
  let options := with_timeout 2 true true true in
  kill options = true
  /\ deadline_passed options (fst (run stubborn options 5)) = true
  /\ progress_goes_through options (fst (run stubborn options 5))
  /\ destroy_requests (fst (run stubborn options 5)) = [vm1; vm2]
  /\ snd (run stubborn options 5) = Raise (SystemExit 3).
Proof.
  intros options.
  assert (Hgo : progress_goes_through options (fst (run stubborn options 5))).
  { intros _ t Hin. vm_compute in Hin.
    destruct Hin as [<-|[<-|[<-|[]]]]; vm_compute; reflexivity. }
  split; [reflexivity|]. split; [vm_compute; reflexivity|]. split; [exact Hgo|].
  destruct (@C6_forced_termination stubborn options 5
              (fst (run stubborn options 5)) (snd (run stubborn options 5)))
    as (_ & Hkill).
  - vm_compute. reflexivity.
  - destruct Hkill as (Hreq & _ & Hr);
      [reflexivity | vm_compute; reflexivity | exact Hgo |].
    split; [rewrite Hreq; vm_compute; reflexivity|].
    rewrite Hr. vm_compute. reflexivity.
Defined.

(** X16 at [obedient] with [-v -z]: the first tick, one second after the
    start, prints, sleeps one second and lists the machines again. *)
Lemma deadline_checked_before_sleeping_witness :
  let options := with_timeout 30 false true true in
  let tr := fst (run obedient options 5) in
  tr = firstn 6 tr ++ Time_time 101 :: skipn 7 tr
  /\ clock_reads (firstn 6 tr) = [100%float]
  /\ PrimFloat.leb (PrimFloat.sub 101 100) (timeout options) = true
  /\ exists msgs out post',
       skipn 7 tr = map Print msgs ++ Time_sleep 1 :: Virsh_list out :: post'.
Proof.
  intros options tr.
  assert (Hsplit : tr = firstn 6 tr ++ Time_time 101 :: skipn 7 tr)
    by (vm_compute; reflexivity).
  assert (Hreads : clock_reads (firstn 6 tr) = [100%float]) by (vm_compute; reflexivity).
  split; [exact Hsplit|]. split; [exact Hreads|].
  split; [vm_compute; reflexivity|].
  destruct (@deadline_checked_before_sleeping obedient options 5 tr
              (snd (run obedient options 5)))
    as (_ & Hticks).
  - vm_compute. reflexivity.
  - destruct (Hticks _ _ _ _ _ Hsplit Hreads) as (_ & _ & Hnext).
    destruct Hnext as [(_ & Hgoes)|[(msgs & se & Hsl & _)|(_ & Hc & _)]].
    + vm_compute. reflexivity.
    + exact Hgoes.
    + vm_compute in Hsl. discriminate Hsl.
    + vm_compute in Hc. discriminate Hc.
Defined.

(** C1 as amended, at [stubborn] with [-t 2 -k -z]: no library call
    fails, the outcome of the specification is [ForceFailed] and the exit
    status is 3. *)
Lemma C1_witness :
  let options := with_timeout 2 true false true in
  no_call_fails stubborn options
  /\ orchestrate stubborn options 5 = Some ForceFailed
  /\ process_status (snd (run stubborn options 5)) = Some 3%Z.
Proof.
  intros options.
  assert (Hno : no_call_fails stubborn options).
  { split; [intros k; reflexivity|]. split; [reflexivity|].
    intros _ k. do 7 (destruct k as [|k]; [reflexivity|]). reflexivity. }
  split; [exact Hno|]. split; [vm_compute; reflexivity|].
  destruct (@C1_exit_code_table stubborn options 5
              (fst (run stubborn options 5)) (snd (run stubborn options 5)))
    as (Htable & _).
  - vm_compute. reflexivity.
  - rewrite (Htable Hno). vm_compute. reflexivity.
Defined.

(** C1, counterexample.  The second [virsh list] of [flaky] returns code
    1: the run ends with the uncaught [CalledProcessError], exit status 1,
    although no tick saw the deadline passed and no request failed, for which
    the table gives 0. *)
Lemma C1_query_failure_exits_1 : ~ status_follows_table flaky default_options 5.
Proof.
  intros H. specialize (H 1%Z). vm_compute in H. specialize (H eq_refl).
  discriminate H.
Qed.

(** C8 as amended, at [stubborn] with [-t 2 -k -v -z]: the third tick,
    three seconds after the start, prints the two progress lines (one second
    past the timeout, 99 percent), the elapsed time with the two machines,
    their names, and then the timeout line. *)
Lemma C8_witness :
  let options := with_timeout 2 true true true in
  let tr := fst (run stubborn options 5) in
  tr = firstn 19 tr ++ Time_time 103 :: skipn 20 tr
  /\ clock_reads (firstn 19 tr) = [100; 101; 102]%float
  /\ progress_computable (timeout options) (PrimFloat.sub 103 100) = true
  /\ exists rest,
       skipn 20 tr
       = Print (Zenity_waiting 2 (-1)) :: Print (Zenity_percent 99)
           :: Print (Still_waiting 3 2) :: Print (Vm_names [vm1; vm2])
           :: Print (Timeout_kill 2) :: rest.
Proof.
  intros options tr.
  assert (Hsplit : tr = firstn 19 tr ++ Time_time 103 :: skipn 20 tr)
    by (vm_compute; reflexivity).
  assert (Hreads : clock_reads (firstn 19 tr) = [100; 101; 102]%float)
    by (vm_compute; reflexivity).
  split; [exact Hsplit|]. split; [exact Hreads|]. split; [vm_compute; reflexivity|].
  destruct (@C8_report_only_when_asked stubborn options 5 tr
              (snd (run stubborn options 5)) eq_refl
              _ _ _ _ _ Hsplit Hreads)
    as (progress & rest & Hpost & _ & Hprogress & _ & Hline & _).
  - intros _. vm_compute. reflexivity.
  - destruct Hprogress as (seconds_left & percent & Hs & Hp & ->); [reflexivity|].
    vm_compute in Hs. injection Hs as <-.
    vm_compute in Hp. injection Hp as <-.
    destruct Hline as (rest' & ->); [vm_compute; reflexivity|].
    exists rest'. rewrite Hpost. vm_compute. reflexivity.
Defined.

(** C10 at [stubborn] with [-t 2 -k]: vm2 shows up in the second inventory;
    it is never sent a shutdown request and is destroyed at the deadline. *)
Lemma C10_witness :
  let options := with_timeout 2 true false false in
  let tr := fst (run stubborn options 5) in
  shutdown_requests tr = [vm1]
  /\ running_sets tr = [[vm1]; [vm1; vm2]; [vm1; vm2]]
  /\ destroy_requests tr = [vm1; vm2]
  /\ kill options = true /\ deadline_passed options tr = true.
Proof.
  intros options tr.
  destruct (@C10_shutdown_only_in_dispatch stubborn options 5 tr
              (snd (run stubborn options 5)))
    as (Hreq & _ & _ & Hdestroy & _).
  - vm_compute. reflexivity.
  - split; [rewrite Hreq; vm_compute; reflexivity|].
    split; [vm_compute; reflexivity|]. split; [vm_compute; reflexivity|].
    destruct Hdestroy as [Hnone|Hkill]; [|exact Hkill].
    vm_compute in Hnone. discriminate Hnone.
Defined.

(** C8, counterexample.  With the default options the first tick of the run
    over [obedient] reads the clock and goes to sleep without printing. *)
Lemma C8_silent_tick : ~ emits_on_every_tick obedient default_options 5.
Proof.
  intros H.
  destruct (H (firstn 5 (fst (run obedient default_options 5))) 101%float
              (skipn 6 (fst (run obedient default_options 5))) 100%float [])
    as (m & post' & Heq).
  - vm_compute. reflexivity.
  - vm_compute. reflexivity.
  - vm_compute in Heq. discriminate Heq.
Qed.

(** C7 at two failing inputs.  With [-z -t inf] the only tick of the run
    over [obedient] has [t = 1 <= timeout]; it dies with the [OverflowError]
    of [int(options.timeout - t)] (line 74) and never sleeps or lists the
    machines again.  With [-i inf] the only tick has [t = 1 <= 30]; it dies
    with the [OverflowError] of [time.sleep(options.interval)] (line 101) and
    never lists the machines again. *)
Theorem C7_tick_within_timeout_stops :
  let with_z := with_timeout infinity false false true in
  let long := with_interval infinity in
  (elapsed_at_ticks (fst (run obedient with_z 5)) = [1%float]
   /\ PrimFloat.leb 1 (timeout with_z) = true
   /\ snd (run obedient with_z 5) = Raise OverflowError
   /\ sleeps (fst (run obedient with_z 5)) = []
   /\ List.length (list_queries (fst (run obedient with_z 5))) = 1)
  /\ (elapsed_at_ticks (fst (run obedient long 5)) = [1%float]
      /\ PrimFloat.leb 1 (timeout long) = true
      /\ snd (run obedient long 5) = Raise OverflowError
      /\ sleeps (fst (run obedient long 5)) = []
      /\ List.length (list_queries (fst (run obedient long 5))) = 1).
Proof. vm_compute. repeat split. Qed.

(** C9 at a failing input.  With [-t inf] the run over [obedient] ends with
    [exit(0)]; the same run with [-z] added dies at its first tick with the
    [OverflowError] of [int(options.timeout - t)] (line 74), before it has
    slept or polled once. *)
Theorem C9_zenity_changes_outcome :
  snd (run obedient (with_timeout infinity false false false) 5) = Raise (SystemExit 0)
  /\ snd (run obedient (with_timeout infinity false false true) 5) = Raise OverflowError
  /\ sleeps (fst (run obedient (with_timeout infinity false false true) 5)) = [].
Proof. vm_compute. repeat split. Qed.

(** ** The names [list_running_vms] returns *)

Lemma all_space_lstrip (s : Py.str) : all_space (Py.lstrip s) = all_space s.
Proof.
  induction s as [|c s IH]; simpl; [reflexivity|].
  destruct (Py.isspace c) eqn:Hc; simpl; [exact IH | rewrite Hc; reflexivity].
Qed.

Lemma rstrip_empty (s : Py.str) : Py.rstrip s = [] <-> all_space s = true.
Proof.
  induction s as [|c s IH]; simpl; [tauto|].
  destruct (Py.rstrip s) eqn:Hr.
  - destruct IH as (IH & _). rewrite (IH eq_refl), andb_true_r.
    destruct (Py.isspace c); split; congruence.
  - split; [discriminate|]. intros H. apply andb_true_iff in H.
    destruct IH as (_ & IH). destruct H as (_ & H). discriminate (IH H).
Qed.

Lemma strip_empty (s : Py.str) : Py.strip s = [] <-> all_space s = true.
Proof. unfold Py.strip. rewrite rstrip_empty, all_space_lstrip. tauto. Qed.

Lemma split_lines_not_nil (s : Py.str) : Py.split_lines s <> [].
Proof.
  induction s as [|c s IH]; simpl; [discriminate|].
  destruct ((c =? Py.newline)%N); [discriminate|].
  destruct (Py.split_lines s); discriminate.
Qed.

(** ["\n".join(s.split("\n")) == s] *)
Lemma join_split_lines (s : Py.str) : Py.join nl (Py.split_lines s) = s.
Proof.
  induction s as [|c s IH]; [reflexivity|]. simpl.
  destruct (N.eqb_spec c Py.newline) as [->|Hc].
  - pose proof (split_lines_not_nil s) as Hne.
    destruct (Py.split_lines s) as [|h t]; [contradiction|].
    simpl in *. rewrite IH. reflexivity.
  - destruct (Py.split_lines s) as [|h t] eqn:Hs.
    + exfalso. exact (split_lines_not_nil s Hs).
    + simpl in *. destruct t; simpl in *; rewrite <- IH; reflexivity.
Qed.

(** X1.  [list_running_vms] returns no machine exactly when the output of
    [virsh list] is nothing but whitespace (the empty output included). *)
Theorem parse_names_nil_iff_blank (output : Py.str) :
  parse_names output = [] <-> all_space output = true.
Proof.
  unfold parse_names. rewrite <- strip_empty.
  destruct (Py.strip output) eqn:Hs.
  - tauto.
  - split; [|discriminate]. intros H. exfalso. exact (split_lines_not_nil _ H).
Qed.

(** X2.  Joining the names [list_running_vms] returns with newlines gives back
    the stripped output of [virsh list]: no character other than leading and
    trailing whitespace is lost, and none is invented. *)
Theorem parse_names_join (output : Py.str) :
  Py.join nl (parse_names output) = Py.strip output.
Proof.
  unfold parse_names. destruct (Py.strip output) eqn:Hs; [reflexivity|].
  apply join_split_lines.
Qed.

Lemma not_space_not_newline (c : N) :
  Py.isspace c = false -> (c =? Py.newline)%N = false.
Proof.
  intros H. destruct (N.eqb_spec c Py.newline) as [->|]; [|reflexivity].
  vm_compute in H. discriminate H.
Qed.

Lemma rstrip_no_space (x : Py.str) : no_space x = true -> Py.rstrip x = x.
Proof.
  induction x as [|c x IH]; simpl; [reflexivity|].
  intros H. apply andb_true_iff in H. destruct H as (Hc & Hx).
  rewrite (IH Hx). apply negb_true_iff in Hc. rewrite Hc.
  destruct x; reflexivity.
Qed.

Lemma rstrip_app (a b : Py.str) :
  Py.rstrip b <> [] -> Py.rstrip (a ++ b) = (a ++ Py.rstrip b).
Proof.
  intros Hb. induction a as [|c a IH]; simpl; [reflexivity|].
  rewrite IH. destruct (a ++ Py.rstrip b) eqn:Ha; [|reflexivity].
  exfalso. destruct a; simpl in Ha; [contradiction | discriminate].
Qed.

Lemma rstrip_cons (c : N) (s : Py.str) :
  Py.rstrip s <> [] -> Py.rstrip (c :: s) = c :: Py.rstrip s.
Proof. intros H. simpl. destruct (Py.rstrip s); [contradiction | reflexivity]. Qed.

Lemma rstrip_app_space (s w : Py.str) :
  all_space w = true -> Py.rstrip (s ++ w) = Py.rstrip s.
Proof.
  intros Hw. induction s as [|c s IH]; simpl.
  - apply rstrip_empty. exact Hw.
  - rewrite IH. reflexivity.
Qed.

Lemma split_lines_plain (x : Py.str) : no_space x = true -> Py.split_lines x = [x].
Proof.
  induction x as [|c x IH]; simpl; [reflexivity|].
  intros H. apply andb_true_iff in H. destruct H as (Hc & Hx).
  apply negb_true_iff in Hc. rewrite (not_space_not_newline _ Hc), (IH Hx). reflexivity.
Qed.

Lemma split_lines_app (x r : Py.str) :
  no_space x = true ->
  Py.split_lines (x ++ Py.newline :: r) = x :: Py.split_lines r.
Proof.
  induction x as [|c x IH]; simpl; [reflexivity|].
  intros H. apply andb_true_iff in H. destruct H as (Hc & Hx).
  apply negb_true_iff in Hc. rewrite (not_space_not_newline _ Hc), (IH Hx). reflexivity.
Qed.

Lemma plain_name_no_space (x : Py.str) : plain_name x = true -> no_space x = true.
Proof. destruct x; [discriminate | auto]. Qed.

(** The lines of plain names, joined: the text is not empty, begins and
    ends with a character that is not whitespace, and splits back into the
    names. *)
Lemma joined_plain_names (l : list Py.str) :
  forall x,
    forallb plain_name (x :: l) = true ->
    let body := Py.join nl (x :: l) in
    (exists c r, body = c :: r /\ Py.isspace c = false)
    /\ Py.rstrip body = body
    /\ Py.split_lines body = x :: l.
Proof.
  induction l as [|y l IH]; intros x H; cbv zeta.
  - simpl in H. rewrite andb_true_r in H.
    pose proof (plain_name_no_space _ H) as Hx. simpl. split; [|split].
    + destruct x as [|c r]; [discriminate|]. simpl in Hx.
      apply andb_true_iff in Hx. destruct Hx as (Hc & _).
      apply negb_true_iff in Hc. eauto.
    + apply rstrip_no_space. exact Hx.
    + apply split_lines_plain. exact Hx.
  - change (forallb plain_name (x :: y :: l))
      with (plain_name x && forallb plain_name (y :: l)) in H.
    apply andb_true_iff in H. destruct H as (Hx & Hrest).
    destruct (IH y Hrest) as ((c & r & Hbody & Hc) & Hstrip & Hsplit).
    pose proof (plain_name_no_space _ Hx) as Hnx.
    change (Py.join nl (x :: y :: l))
      with (x ++ Py.newline :: Py.join nl (y :: l)).
    split; [|split].
    + destruct x as [|cx rx]; [discriminate|]. simpl in Hnx.
      apply andb_true_iff in Hnx. destruct Hnx as (Hcx & _).
      apply negb_true_iff in Hcx. simpl. eauto.
    + assert (Hne : Py.rstrip (Py.join nl (y :: l)) <> [])
        by (rewrite Hstrip, Hbody; discriminate).
      rewrite rstrip_app; rewrite (@rstrip_cons Py.newline _ Hne), Hstrip;
        [reflexivity | discriminate].
    + rewrite (@split_lines_app x _ Hnx), Hsplit. reflexivity.
Qed.

(** X3.  When [virsh list --name] prints plain names (not empty, without
    whitespace), one per line, [list_running_vms] returns exactly these names, in
    order; for no name at all (an empty line) it returns the empty list. *)
Theorem parse_names_of_plain_names (names : list Py.str) :
  forallb plain_name names = true ->
  parse_names (Py.join nl names ++ nl) = names.
Proof.
  intros H. destruct names as [|x l]; [reflexivity|].
  destruct (joined_plain_names l x H) as ((c & r & Hbody & Hc) & Hstrip & Hsplit).
  unfold parse_names, Py.strip.
  replace (Py.lstrip (Py.join nl (x :: l) ++ nl))
    with (Py.join nl (x :: l) ++ nl)
    by (rewrite Hbody; simpl; rewrite Hc; reflexivity).
  rewrite rstrip_app_space by reflexivity.
  rewrite Hstrip, Hbody. rewrite <- Hbody. exact Hsplit.
Qed.

Lemma parse_names_of_plain_names_witness :
  forallb plain_name [Py.text "vm1"; Py.text "db-2"; Py.text "web_3"] = true
  /\ parse_names (Py.join nl [Py.text "vm1"; Py.text "db-2"; Py.text "web_3"] ++ nl)
     = [Py.text "vm1"; Py.text "db-2"; Py.text "web_3"].
Proof.
  split; [reflexivity|].
  apply (parse_names_of_plain_names [Py.text "vm1"; Py.text "db-2"; Py.text "web_3"]). reflexivity.
Defined.

(** ** A failing [virsh list], and the pace of the queries *)

Section PollQueries.

Variable W : World.
Variable options : Options.

(** A [virsh list] of the loop that returns a non-zero code is its last
    event, and its exception leaves the loop. *)
Lemma poll_query_fails (t0 : float) (fuel : nat) (running_vms : list Py.str) (s : Calls)
    (tr : list event) (r : result unit) :
  poll_run W options t0 fuel running_vms s tr r ->
  forall out,
    In out (list_queries tr) -> (returncode out =? 0)%Z = false ->
    r = Raise (CalledProcessError (returncode out))
    /\ exists tr', tr = tr' ++ [Virsh_list out].
Proof.
  induction 1 as [fuel s | running_vms s Hne
    | fuel running_vms s msgs e now Hne Hz Hc He
    | fuel running_vms s msgs now Hne Hl Hd Hk
    | fuel running_vms s msgs dtr now announce errors Hne Hl Hd Hk Hreq Hcodes
        H1 H2 H3 H4 H5 H6
    | fuel running_vms s msgs now out Hne Hl Hd Hrc
    | fuel running_vms s msgs tr r now out Hne Hl Hd Hrc Hrun IH Hsl
    | fuel running_vms s msgs se now Hne Hl Hd Hsl];
    intros out' Hin Hbad;
    try (exfalso; revert Hin; try destruct errors; trace_goal; tauto).
  - revert Hin. trace_goal. intros [<-|[]]. split; [reflexivity|].
    exists (Time_time now :: map Print msgs ++ [Time_sleep (interval options)]).
    reassoc.
  - revert Hin. trace_goal. intros [<-|Hin]; [congruence|].
    destruct (IH _ Hin Hbad) as (-> & tr' & ->). split; [reflexivity|].
    exists (Time_time now :: map Print msgs
              ++ Time_sleep (interval options) :: Virsh_list out :: tr').
    reassoc.
Qed.

(** The loop lists the machines once per sleep. *)
Lemma poll_one_query_per_sleep (t0 : float) (fuel : nat) (running_vms : list Py.str)
    (s : Calls) (tr : list event) (r : result unit) :
  poll_run W options t0 fuel running_vms s tr r ->
  List.length (list_queries tr) = List.length (sleeps tr).
Proof.
  induction 1 as [fuel s | running_vms s Hne
    | fuel running_vms s msgs e now Hne Hz Hc He
    | fuel running_vms s msgs now Hne Hl Hd Hk
    | fuel running_vms s msgs dtr now announce errors Hne Hl Hd Hk Hreq Hcodes
        H1 H2 H3 H4 H5 H6
    | fuel running_vms s msgs now out Hne Hl Hd Hrc
    | fuel running_vms s msgs tr r now out Hne Hl Hd Hrc Hrun IH Hsl
    | fuel running_vms s msgs se now Hne Hl Hd Hsl];
    try destruct errors; trace_goal; auto.
Qed.

End PollQueries.

(** X4.  A [virsh list] that returns a non-zero code is fatal wherever it
    happens: the run ends there with the [CalledProcessError] of that code,
    without a retry, and no machine is destroyed in such a run, even with the
    kill option. *)
Theorem failing_query_is_fatal (W : World) (options : Options) (fuel : nat)
    (tr : list event) (r : result unit) (out : Completed) :
  run W options fuel = (tr, r) ->
  In out (list_queries tr) ->
  (returncode out =? 0)%Z = false ->
  r = Raise (CalledProcessError (returncode out))
  /\ (exists tr', tr = tr' ++ [Virsh_list out])
  /\ destroy_requests tr = [].
Proof.
  intros Hrun Hin Hbad. apply run_cases in Hrun.
  destruct Hrun as [out0 Hrc | dtr out0 running_vms Hrc Hdt Hf
    | dtr ptr out0 running_vms Hrc Hdt Hf Hp
    | dtr ptr r out0 running_vms Hrc Hdt Hf Hp Hr].
  - simpl in Hin. destruct Hin as [<-|[]]. repeat split; auto. exists []. reflexivity.
  - exfalso. split_dispatch Hdt. revert Hin. trace_goal. intros [<-|[]]. congruence.
  - exfalso. split_dispatch Hdt.
    assert (Hq : In out (list_queries ptr)).
    { revert Hin. trace_goal. intros [<-|Hin]; [congruence | exact Hin]. }
    destruct (poll_query_fails Hp _ Hq Hbad) as (Hbad' & _). discriminate.
  - split_dispatch Hdt.
    assert (Hq : In out (list_queries ptr)).
    { revert Hin. trace_goal. intros [<-|Hin]; [congruence | exact Hin]. }
    destruct (poll_query_fails Hp _ Hq Hbad) as (-> & tr' & ->).
    destruct (poll_classify Hp) as (_ & _ & (_ & Hd & _)).
    split; [reflexivity|]. split.
    + exists (Virsh_list out0 :: map Print (intro options running_vms) ++ dtr
                ++ Time_time (clock W 0) :: tr').
      reassoc.
    + revert Hd. trace_goal. auto.
Qed.

(** X5.  In every run the machines are listed once at the start and then
    once after every sleep, never twice in a row: the number of [virsh list]
    calls is the number of sleeps plus one. *)
Theorem one_query_per_sleep (W : World) (options : Options) (fuel : nat) :
  List.length (list_queries (fst (run W options fuel)))
  = S (List.length (sleeps (fst (run W options fuel)))).
Proof.
  destruct (run_sound W options fuel) as (tr & r & -> & Hrun). simpl.
  destruct Hrun as [out0 Hrc | dtr out0 running_vms Hrc Hdt Hf
    | dtr ptr out0 running_vms Hrc Hdt Hf Hp
    | dtr ptr r out0 running_vms Hrc Hdt Hf Hp Hr];
    try split_dispatch Hdt; trace_goal; auto;
    rewrite (poll_one_query_per_sleep Hp); reflexivity.
Qed.

Lemma failing_query_is_fatal_witness :
  let options := with_timeout 2 true false false in
  In (virsh_list flaky 1) (list_queries (fst (run flaky options 5)))
  /\ (returncode (virsh_list flaky 1) =? 0)%Z = false
  /\ snd (run flaky options 5) = Raise (CalledProcessError 1)
  /\ destroy_requests (fst (run flaky options 5)) = [].
Proof.
  intros options.
  assert (Hin : In (virsh_list flaky 1) (list_queries (fst (run flaky options 5)))).
  { vm_compute. right. left. reflexivity. }
  split; [exact Hin|]. split; [reflexivity|].
  destruct (@failing_query_is_fatal flaky options 5 (fst (run flaky options 5))
              (snd (run flaky options 5)) (virsh_list flaky 1))
    as (Hr & _ & Hd).
  - vm_compute. reflexivity.
  - exact Hin.
  - reflexivity.
  - split; [rewrite Hr; reflexivity | exact Hd].
Defined.

(** ** When the loop stops *)

Section PollStops.

Variable W : World.
Variable options : Options.

(** If the clock reading number [k] is past the deadline, the loop entered
    before that reading does not need more than [k - clocks s + 1] ticks. *)
Lemma poll_stops_by_deadline (t0 : float) (fuel : nat) (running_vms : list Py.str)
    (s : Calls) (tr : list event) (r : result unit) :
  poll_run W options t0 fuel running_vms s tr r ->
  forall k,
    clocks s <= k ->
    timed_out options (PrimFloat.sub (clock W k) t0) = true ->
    k - clocks s < fuel ->
    r <> OutOfFuel /\ List.length (clock_reads tr) <= S (k - clocks s).
Proof.
  induction 1 as [fuel s | running_vms s Hne
    | fuel running_vms s msgs e now Hne Hz Hc He
    | fuel running_vms s msgs now Hne Hl Hd Hk
    | fuel running_vms s msgs dtr now announce errors Hne Hl Hd Hk Hreq Hcodes
        H1 H2 H3 H4 H5 H6
    | fuel running_vms s msgs now out Hne Hl Hd Hrc
    | fuel running_vms s msgs tr r now out Hne Hl Hd Hrc Hrun IH Hsl
    | fuel running_vms s msgs se now Hne Hl Hd Hsl];
    intros k Hle Hpast Hfuel.
  - simpl. split; [discriminate | lia].
  - lia.
  - trace_goal. split; [discriminate | lia].
  - trace_goal. split; [discriminate | lia].
  - subst errors. destruct (failed (destroy_codes dtr));
      trace_goal; (split; [discriminate | lia]).
  - trace_goal. split; [discriminate | lia].
  - assert (Hk : S (clocks s) <= k).
    { destruct (Nat.eq_dec k (clocks s)) as [->|]; [|lia].
      subst now. congruence. }
    destruct (IH k) as (Hr & Hlen); simpl; auto; try lia.
    split; [exact Hr|]. revert Hlen. trace_goal. lia.
  - trace_goal. split; [destruct se; discriminate | lia].
Qed.

(** With a timeout that no elapsed time exceeds, no tick sees the deadline
    passed. *)
Lemma never_passed (t0 : float) (reads : list float) :
  (forall t, timed_out options t = false) ->
  existsb (timed_out options) (elapsed_since t0 reads) = false.
Proof.
  intros H. induction reads as [|now reads IH]; simpl; [reflexivity|].
  rewrite H. exact IH.
Qed.

End PollStops.

(** X6.  The run needs no more ticks than it takes the clock to pass the
    deadline: if the reading of tick [k + 1] exceeds the start by more than
    the timeout, the script has ended, one way or another, after at most
    [k + 1] ticks. *)
Theorem stops_by_the_deadline (W : World) (options : Options) (fuel k : nat) :
  timed_out options (PrimFloat.sub (clock W (S k)) (clock W 0)) = true ->
  k < fuel ->
  snd (run W options fuel) <> OutOfFuel
  /\ List.length (elapsed_at_ticks (fst (run W options fuel))) <= S k.
Proof.
  intros Hpast Hfuel. unfold elapsed_at_ticks.
  destruct (run_sound W options fuel) as (tr & r & -> & Hrun). simpl.
  destruct Hrun as [out0 Hrc | dtr out0 running_vms Hrc Hdt Hf
    | dtr ptr out0 running_vms Hrc Hdt Hf Hp
    | dtr ptr r out0 running_vms Hrc Hdt Hf Hp Hr];
    try split_dispatch Hdt.
  - simpl. split; [discriminate | lia].
  - trace_goal. split; [discriminate | lia].
  - destruct (@poll_stops_by_deadline W options _ _ _ _ _ _ Hp (S k)) as (_ & Hlen);
      simpl; auto; try lia.
    trace_goal. unfold elapsed_since. rewrite length_map. split; [discriminate|].
    simpl in Hlen. lia.
  - destruct (@poll_stops_by_deadline W options _ _ _ _ _ _ Hp (S k)) as (Hr' & Hlen);
      simpl; auto; try lia.
    trace_goal. unfold elapsed_since. rewrite length_map. split; [exact Hr'|].
    simpl in Hlen. lia.
Qed.

Lemma stops_by_the_deadline_witness :
  let options := with_timeout 2 false false false in
  timed_out options (PrimFloat.sub (clock stubborn 3) (clock stubborn 0)) = true
  /\ 2 < 3
  /\ snd (run stubborn options 3) <> OutOfFuel.
Proof.
  intros options. split; [reflexivity|]. split; [lia|].
  apply (@stops_by_the_deadline stubborn options 3 2); [reflexivity | lia].
Defined.

Lemma not_gt_infinity (t : float) : PrimFloat.ltb infinity t = false.
Proof.
  rewrite ltb_spec. change (Prim2SF infinity) with (S754_infinity false).
  destruct (Prim2SF t) as [s|s| |s m e]; try destruct s; reflexivity.
Qed.

Lemma not_gt_nan (t : float) : PrimFloat.ltb nan t = false.
Proof. rewrite ltb_spec. change (Prim2SF nan) with S754_nan. reflexivity. Qed.

(** X7.  With [-t inf] or [-t nan] the test [t > options.timeout] is never
    true: no tick sees the deadline passed, nothing is destroyed, the script
    never ends with [exit(1)], and it ends with [exit(0)] only on an empty
    inventory and with [exit(3)] only after a failed shutdown request. *)
Theorem unbounded_timeout_never_expires (W : World) (options : Options) (fuel : nat)
    (tr : list event) (r : result unit) :
  run W options fuel = (tr, r) ->
  timeout options = infinity \/ timeout options = nan ->
  deadline_passed options tr = false
  /\ destroy_requests tr = []
  /\ forall code,
       r = Raise (SystemExit code) ->
       (code = 0%Z /\ last (running_sets tr) [] = [])
       \/ (code = 3%Z /\ any_dispatch_failed tr = true).
Proof.
  intros Hrun Htimeout.
  assert (Hnever : forall t, timed_out options t = false).
  { intros t. unfold timed_out.
    destruct Htimeout as [-> | ->]; [apply not_gt_infinity | apply not_gt_nan]. }
  apply run_cases in Hrun.
  unfold deadline_passed, elapsed_at_ticks, any_dispatch_failed.
  destruct Hrun as [out0 Hrc | dtr out0 running_vms Hrc Hdt Hf
    | dtr ptr out0 running_vms Hrc Hdt Hf Hp
    | dtr ptr r out0 running_vms Hrc Hdt Hf Hp Hr];
    try split_dispatch Hdt.
  - simpl. repeat split; auto. discriminate.
  - trace_goal. repeat split; auto. intros code Hcode. right.
    injection Hcode as <-. auto.
  - pose proof (never_passed (clock W 0) (clock_reads ptr) Hnever) as Hpass.
    destruct (poll_classify Hp) as (_ & _ & [(_ & Hd & _)|(Hbad & _)]);
      [|unfold passed in Hbad; congruence].
    trace_goal. rewrite Hrc. simpl. repeat split; auto.
    intros code Hcode. left. injection Hcode as <-. split; [reflexivity|].
    rewrite last_cons. exact (poll_ends_empty Hp eq_refl Hpass).
  - pose proof (never_passed (clock W 0) (clock_reads ptr) Hnever) as Hpass.
    destruct (poll_classify Hp) as (_ & _ & P3). unfold passed in P3.
    trace_goal. split; [exact Hpass|]. split.
    + destruct r as [[]|[code|code| | | |]|]; try tauto.
      destruct P3 as (Hbad & _). congruence.
    + intros code ->. destruct P3 as (Hbad & _). congruence.
Qed.

Lemma unbounded_timeout_never_expires_witness :
  let options := with_timeout infinity true false false in
  (timeout options = infinity \/ timeout options = nan)
  /\ snd (run obedient options 5) = Raise (SystemExit 0)
  /\ destroy_requests (fst (run obedient options 5)) = [].
Proof.
  intros options.
  assert (Ht : timeout options = infinity \/ timeout options = nan)
    by (left; reflexivity).
  split; [exact Ht|].
  destruct (@unbounded_timeout_never_expires obedient options 5
              (fst (run obedient options 5)) (snd (run obedient options 5)))
    as (_ & Hd & _).
  - vm_compute. reflexivity.
  - exact Ht.
  - split; [vm_compute; reflexivity | exact Hd].
Defined.

(** ** What the two request loops report *)

(** X8.  The shutdown loop prints one error line for every request that
    returned a non-zero code, with the machine and the code, in the order of
    the requests and whether or not [-v] is given; the output of every
    [virsh shutdown] is discarded exactly when [-v] is not given. *)
Theorem shutdown_all_reports_every_failure (W : World) (options : Options)
    (R : list Py.str) :
  forall (any_errors : bool) (s : Calls),
    let tr := fst (fst (shutdown_all W options R any_errors s)) in
    shutdown_errors tr = failures R (responses (virsh_shutdown W) (shutdowns s) R)
    /\ quiet_flags tr = repeat (negb (verbose options)) (List.length R)
    /\ destroy_errors tr = [].
Proof.
  induction R as [|vm rest IH]; intros any_errors s; cbv zeta.
  - simpl. auto.
  - simpl. unfold bind, print, call_virsh_shutdown. simpl.
    set (s1 := {| lists := lists s; shutdowns := S (shutdowns s);
                  destroys := destroys s; clocks := clocks s |}).
    unfold failures. simpl.
    destruct (virsh_shutdown W (shutdowns s) vm =? 0)%Z eqn:Hok; simpl.
    + specialize (IH any_errors s1). cbv zeta in IH.
      destruct (shutdown_all W options rest any_errors s1) as [[tr' s'] r'].
      simpl in *. destruct IH as (IH1 & IH2 & IH3).
      rewrite IH1, IH2. auto.
    + unfold bind, print. specialize (IH true s1). cbv zeta in IH.
      destruct (shutdown_all W options rest true s1) as [[tr' s'] r'].
      simpl in *. destruct IH as (IH1 & IH2 & IH3).
      rewrite IH1, IH2. auto.
Qed.

(** X9.  The destroy loop prints an error line for a request that returned
    a non-zero code only with [-v]; without [-v] it prints no error line at
    all, whatever the codes.  The output of every [virsh destroy] is
    discarded exactly when [-v] is not given. *)
Theorem destroy_all_reports_failures_only_when_verbose (W : World) (options : Options)
    (R : list Py.str) :
  forall (any_errors : bool) (s : Calls),
    let tr := fst (fst (destroy_all W options R any_errors s)) in
    destroy_errors tr
    = (if verbose options
       then failures R (responses (virsh_destroy W) (destroys s) R)
       else [])
    /\ quiet_flags tr = repeat (negb (verbose options)) (List.length R)
    /\ shutdown_errors tr = [].
Proof.
  induction R as [|vm rest IH]; intros any_errors s; cbv zeta.
  - simpl. destruct (verbose options); auto.
  - simpl. unfold bind, when, print, ret, call_virsh_destroy. simpl.
    set (s1 := {| lists := lists s; shutdowns := shutdowns s;
                  destroys := S (destroys s); clocks := clocks s |}).
    unfold failures. simpl.
    destruct (virsh_destroy W (destroys s) vm =? 0)%Z eqn:Hok; simpl.
    + specialize (IH any_errors s1). cbv zeta in IH.
      destruct (destroy_all W options rest any_errors s1) as [[tr' s'] r'].
      simpl in *. destruct IH as (IH1 & IH2 & IH3).
      rewrite IH1, IH2. destruct (verbose options); auto.
    + specialize (IH true s1). cbv zeta in IH.
      destruct (verbose options); simpl in *;
        destruct (destroy_all W options rest true s1) as [[tr' s'] r'];
        simpl in *; destruct IH as (IH1 & IH2 & IH3);
        rewrite IH1, IH2; auto.
Qed.

(** ** Reporting flags and the result, on a scenario *)

(** [reporting_flags_keep_the_result] on the stubborn machine with a
    timeout of two seconds and forcing: [-z] on one side, [-v] on the other;
    the progress lines can be computed at every reading of the clock. *)
Lemma reporting_flags_keep_the_result_witness :
  snd (run stubborn (with_timeout 2 true false true) 5)
  = snd (run stubborn (with_timeout 2 true true false) 5).
Proof.
  apply reporting_flags_keep_the_result; [reflexivity | reflexivity | reflexivity |].
  intros _ k. do 7 (destruct k as [|k]; [reflexivity|]). reflexivity.
Defined.

(** ** The progress lines that cannot be computed *)

Section PollProgress.

Variable W : World.
Variable options : Options.

(** With [-z], a tick whose progress lines cannot be computed is the last
    one: the loop is left by the exception, after prints only. *)
Lemma poll_progress_raises (t0 : float) (fuel : nat) (running_vms : list Py.str)
    (s : Calls) (tr : list event) (r : result unit) :
  poll_run W options t0 fuel running_vms s tr r ->
  zenity options = true ->
  forall t,
    In t (elapsed_since t0 (clock_reads tr)) ->
    progress_computable (timeout options) t = false ->
    (exists e, r = Raise e /\ formatting_error e)
    /\ destroy_requests tr = []
    /\ exists tr' now lines,
         tr = tr' ++ Time_time now :: map Print lines
         /\ t = PrimFloat.sub now t0.
Proof.
  induction 1 as [fuel s | running_vms s Hne
    | fuel running_vms s msgs e now Hne Hz Hc He
    | fuel running_vms s msgs now Hne Hl Hd Hk
    | fuel running_vms s msgs dtr now announce errors Hne Hl Hd Hk Hreq Hcodes
        H1 H2 H3 H4 H5 H6
    | fuel running_vms s msgs now out Hne Hl Hd Hrc
    | fuel running_vms s msgs tr r now out Hne Hl Hd Hrc Hrun IH Hsl
    | fuel running_vms s msgs se now Hne Hl Hd Hsl];
    intros Hz' t Hin Hbad; unfold elapsed_since in Hin;
    try (exfalso; revert Hin; try destruct errors; trace_goal;
         try (intros [<-|[]]; apply report_lines_computable in Hl; congruence);
         tauto).
  - revert Hin. trace_goal. intros [<-|[]].
    split; [exists e; auto|]. split; [reflexivity|].
    exists [], now, msgs. auto.
  - revert Hin. trace_goal. intros [<-|Hin].
    + apply report_lines_computable in Hl; congruence.
    + destruct (IH Hz' _ Hin Hbad) as (He & Hd' & tr' & now' & lines & -> & ->).
      split; [exact He|]. split.
      * revert Hd'. trace_goal. auto.
      * exists (Time_time now :: map Print msgs
                  ++ Time_sleep (interval options) :: Virsh_list out :: tr'),
               now', lines.
        split; [reassoc | reflexivity].
Qed.

End PollProgress.

(** X11.  With [-z], a tick at which lines 73-75 cannot be computed (an
    [int] of a non-finite number or a division by a zero timeout) ends the
    run: the result is the uncaught [ValueError], [OverflowError] or
    [ZeroDivisionError], never an [exit]; after the clock reading of that tick
    only lines are printed, and no machine is destroyed in the run. *)
Theorem uncomputable_progress_is_fatal (W : World) (options : Options) (fuel : nat)
    (tr : list event) (r : result unit) (t : float) :
  run W options fuel = (tr, r) ->
  zenity options = true ->
  In t (elapsed_at_ticks tr) ->
  progress_computable (timeout options) t = false ->
  (exists e, r = Raise e /\ formatting_error e)
  /\ (forall code, r <> Raise (SystemExit code))
  /\ destroy_requests tr = []
  /\ exists tr' now lines,
       tr = tr' ++ Time_time now :: map Print lines
       /\ t = PrimFloat.sub now (clock W 0).
Proof.
  intros Hrun Hz Hin Hbad. apply run_cases in Hrun.
  assert (Hexit : forall r' : result unit,
            (exists e, r' = Raise e /\ formatting_error e) ->
            forall code, r' <> Raise (SystemExit code)).
  { intros r' (e & -> & [He|[He|He]]) code Heq; subst e; discriminate. }
  unfold elapsed_at_ticks in Hin.
  destruct Hrun as [out Hrc | dtr out running_vms Hrc Hdt Hf
    | dtr ptr out running_vms Hrc Hdt Hf Hp
    | dtr ptr r out running_vms Hrc Hdt Hf Hp Hr].
  - simpl in Hin. contradiction.
  - exfalso. split_dispatch Hdt. revert Hin. trace_goal. auto.
  - exfalso. split_dispatch Hdt.
    assert (Hin' : In t (elapsed_since (clock W 0) (clock_reads ptr))).
    { revert Hin. trace_goal. rewrite ?app_nil_r. auto. }
    destruct (poll_progress_raises Hp Hz _ Hin' Hbad) as ((e & He & _) & _).
    discriminate.
  - split_dispatch Hdt.
    assert (Hin' : In t (elapsed_since (clock W 0) (clock_reads ptr))).
    { revert Hin. trace_goal. auto. }
    destruct (poll_progress_raises Hp Hz _ Hin' Hbad)
      as (He & Hd & tr' & now & lines & -> & ->).
    split; [exact He|]. split; [exact (Hexit _ He)|]. split.
    + revert Hd. trace_goal. auto.
    + exists (Virsh_list out :: map Print (intro options running_vms) ++ dtr
                ++ Time_time (clock W 0) :: tr'), now, lines.
      split; [reassoc | reflexivity].
Qed.

(** [uncomputable_progress_is_fatal] on the stubborn machine with [-z] and
    [-t inf]: the first tick, one second after the start. *)
Lemma uncomputable_progress_is_fatal_witness :
  let options := with_timeout infinity true false true in
  snd (run stubborn options 5) = Raise OverflowError
  /\ destroy_requests (fst (run stubborn options 5)) = [].
Proof.
  intros options.
  destruct (@uncomputable_progress_is_fatal stubborn options 5
              (fst (run stubborn options 5)) (snd (run stubborn options 5))
              (PrimFloat.sub 101 100))
    as (_ & _ & Hd & _).
  - vm_compute. reflexivity.
  - reflexivity.
  - vm_compute. left. reflexivity.
  - vm_compute. reflexivity.
  - split; [vm_compute; reflexivity | exact Hd].
Defined.

(** ** The last line of a run that exits *)

Section PollExit.

Variable W : World.
Variable options : Options.

(** An [exit] inside the loop follows the line that announces it. *)
Lemma poll_exit_line (t0 : float) (fuel : nat) (running_vms : list Py.str)
    (s : Calls) (tr : list event) (r : result unit) :
  poll_run W options t0 fuel running_vms s tr r ->
  forall code,
    r = Raise (SystemExit code) ->
    exists tr',
      tr = tr' ++ [Print (if kill options then Destroy_failed
                          else Timeout_error (timeout options))].
Proof.
  induction 1 as [fuel s | running_vms s Hne
    | fuel running_vms s msgs e now Hne Hz Hc He
    | fuel running_vms s msgs now Hne Hl Hd Hk
    | fuel running_vms s msgs dtr now announce errors Hne Hl Hd Hk Hreq Hcodes
        H1 H2 H3 H4 H5 H6
    | fuel running_vms s msgs now out Hne Hl Hd Hrc
    | fuel running_vms s msgs tr r now out Hne Hl Hd Hrc Hrun IH Hsl
    | fuel running_vms s msgs se now Hne Hl Hd Hsl];
    intros code Hr; try discriminate.
  - destruct He as [->|[->| ->]]; discriminate.
  - rewrite Hk. exists (Time_time now :: map Print msgs).
    rewrite map_app. reassoc.
  - rewrite Hk. destruct errors; [|discriminate].
    exists (Time_time now :: map Print (msgs ++ announce) ++ dtr). reassoc.
  - destruct (IH _ Hr) as (tr' & ->).
    exists (Time_time now :: map Print msgs
              ++ Time_sleep (interval options) :: Virsh_list out :: tr').
    reassoc.
  - destruct se; discriminate.
Qed.

End PollExit.

(** X12.  Every [exit] of the script follows the line that announces it:
    [exit(0)] the "all machines shut down" line (with [-z] the two closing
    lines for zenity), [exit(1)] the timeout error, which needs the kill
    option off, and [exit(3)] the line about the shutdown commands when a
    [virsh shutdown] failed, or else the line about the machines that could
    not be killed, which needs the kill option on. *)
Theorem exit_follows_its_line (W : World) (options : Options) (fuel : nat)
    (tr : list event) (r : result unit) (code : Z) :
  run W options fuel = (tr, r) ->
  r = Raise (SystemExit code) ->
  exists tr',
    (code = 0%Z /\ tr = tr' ++ map Print (outro options))
    \/ (code = 1%Z /\ kill options = false
        /\ tr = tr' ++ [Print (Timeout_error (timeout options))])
    \/ (code = 3%Z /\ any_dispatch_failed tr = true
        /\ tr = tr' ++ [Print Shutdown_failed])
    \/ (code = 3%Z /\ any_dispatch_failed tr = false /\ kill options = true
        /\ tr = tr' ++ [Print Destroy_failed]).
Proof.
  intros Hrun Hr. apply run_cases in Hrun. unfold any_dispatch_failed.
  destruct Hrun as [out Hrc | dtr out running_vms Hrc Hdt Hf
    | dtr ptr out running_vms Hrc Hdt Hf Hp
    | dtr ptr r out running_vms Hrc Hdt Hf Hp Hne].
  - discriminate.
  - injection Hr as <-.
    exists (Virsh_list out :: map Print (intro options running_vms) ++ dtr).
    right. right. left. split; [reflexivity|]. split.
    + split_dispatch Hdt. trace_goal. rewrite ?app_nil_r. exact Hf.
    + reassoc.
  - injection Hr as <-.
    exists (Virsh_list out :: map Print (intro options running_vms) ++ dtr
              ++ Time_time (clock W 0) :: ptr).
    left. split; [reflexivity | reassoc].
  - destruct (poll_exit_line Hp Hr) as (tr' & ->).
    pose proof (poll_classify Hp) as (Hs1 & Hs2 & Hc). subst r.
    exists (Virsh_list out :: map Print (intro options running_vms) ++ dtr
              ++ Time_time (clock W 0) :: tr').
    assert (Hnone : failed (shutdown_codes
              (Virsh_list out :: map Print (intro options running_vms) ++ dtr
                 ++ Time_time (clock W 0)
                 :: tr' ++ [Print (if kill options then Destroy_failed
                                   else Timeout_error (timeout options))]))
            = false).
    { revert Hs2. split_dispatch Hdt. trace_goal. intros ->.
      rewrite ?app_nil_r. exact Hf. }
    destruct Hc as (_ & [(Hk & -> & _) | (Hk & -> & _)]); rewrite Hk in *.
    + right. left. split; [reflexivity|]. split; [reflexivity | reassoc].
    + right. right. right. split; [reflexivity|]. split; [exact Hnone|].
      split; [reflexivity | reassoc].
Qed.

(** [exit_follows_its_line] on the stubborn machine with a timeout of two
    seconds and forcing: destroying the second machine fails. *)
Lemma exit_follows_its_line_witness :
  let options := with_timeout 2 true false false in
  snd (run stubborn options 5) = Raise (SystemExit 3)
  /\ exists tr', fst (run stubborn options 5) = tr' ++ [Print Destroy_failed].
Proof.
  intros options.
  split; [vm_compute; reflexivity|].
  destruct (@exit_follows_its_line stubborn options 5
              (fst (run stubborn options 5)) (snd (run stubborn options 5)) 3)
    as (tr' & [(H & _) | [(H & _) | [(_ & H & _) | (_ & _ & _ & H)]]]).
  - vm_compute. reflexivity.
  - vm_compute. reflexivity.
  - discriminate H.
  - discriminate H.
  - vm_compute in H. discriminate H.
  - exists tr'. exact H.
Defined.

(** ** The names of [list_running_vms] as lines *)

Lemma split_lines_no_newline (s : Py.str) :
  Forall (fun name => ~ In Py.newline name) (Py.split_lines s).
Proof.
  induction s as [|c s IH]; simpl.
  - constructor; [simpl; tauto | constructor].
  - destruct (N.eqb_spec c Py.newline) as [->|Hc].
    + constructor; [simpl; tauto | exact IH].
    + destruct (Py.split_lines s) as [|h t]; constructor.
      * simpl. intros [H|[]]. congruence.
      * constructor.
      * inversion IH; subst. simpl. intros [H|H]; [congruence | contradiction].
      * inversion IH; subst. assumption.
Qed.

Lemma lstrip_head (s : Py.str) (c : N) (r : Py.str) :
  Py.lstrip s = c :: r -> Py.isspace c = false.
Proof.
  induction s as [|d s IH]; simpl; [discriminate|].
  destruct (Py.isspace d) eqn:Hd; [exact IH|].
  intros H. injection H as <- _. exact Hd.
Qed.

Lemma rstrip_head (s : Py.str) (c : N) (r : Py.str) :
  Py.rstrip s = c :: r -> exists r', s = c :: r'.
Proof.
  destruct s as [|d s]; simpl; [discriminate|].
  destruct (Py.rstrip s); [destruct (Py.isspace d)|];
    intros H; try discriminate; injection H as <- _; eauto.
Qed.

Lemma rstrip_last (s : Py.str) :
  Py.rstrip s <> [] ->
  exists a c, Py.rstrip s = (a ++ [c]) /\ Py.isspace c = false.
Proof.
  induction s as [|d s IH]; simpl; [contradiction|].
  destruct (Py.rstrip s) as [|e r] eqn:Hr.
  - destruct (Py.isspace d) eqn:Hd; [contradiction|].
    intros _. exists [], d. auto.
  - intros _. destruct IH as (a & c & Ha & Hc); [discriminate|].
    exists (d :: a), c. simpl. rewrite Ha. auto.
Qed.

Lemma split_lines_last (a : Py.str) (c : N) :
  (c =? Py.newline)%N = false ->
  forall d, last (Py.split_lines (a ++ [c])) d <> [].
Proof.
  intros Hc. induction a as [|x a IH]; intros d; simpl.
  - rewrite Hc. rewrite last_cons. discriminate.
  - destruct ((x =? Py.newline)%N).
    + rewrite last_cons. apply IH.
    + specialize (IH d).
      destruct (Py.split_lines (a ++ [c])) as [|h [|b t]].
      * rewrite last_cons. discriminate.
      * rewrite last_cons. discriminate.
      * rewrite !last_cons in *. exact IH.
Qed.

(** X13.  The names [list_running_vms] returns are the lines of the stripped
    output: no name holds a newline, and the first and the last name are not
    empty (blank lines at either end of the output are dropped; a blank line
    between two names stays, as an empty name). *)
Theorem parse_names_lines (output : Py.str) :
  Forall (fun name => ~ In Py.newline name) (parse_names output)
  /\ match parse_names output with
     | [] => True
     | first :: rest => first <> [] /\ last rest first <> []
     end.
Proof.
  unfold parse_names. destruct (Py.strip output) as [|c r] eqn:Hs.
  - split; [constructor | exact I].
  - split; [apply split_lines_no_newline|].
    assert (Hc : (c =? Py.newline)%N = false).
    { unfold Py.strip in Hs. destruct (rstrip_head _ Hs) as (r' & Hl).
      apply not_space_not_newline. exact (lstrip_head _ Hl). }
    assert (Hlast : Py.rstrip (Py.lstrip output) <> []).
    { unfold Py.strip in Hs. rewrite Hs. discriminate. }
    destruct (rstrip_last _ Hlast) as (a & e & Ha & He).
    unfold Py.strip in Hs. rewrite Hs in Ha.
    pose proof (@split_lines_last a e (not_space_not_newline _ He) []) as Hl.
    rewrite <- Ha in Hl. revert Hl. simpl. rewrite Hc.
    destruct (Py.split_lines r) as [|h t].
    + rewrite last_cons. intros Hl. split; [discriminate | exact Hl].
    + rewrite last_cons. intros Hl. split; [discriminate | exact Hl].
Qed.

(** A blank line between two names is kept as an empty name. *)
Example parse_names_blank_between :
  parse_names (vm1 ++ nl ++ nl ++ vm2 ++ nl) = [vm1; []; vm2].
Proof. reflexivity. Qed.

(** ** The run ends when the machines are gone *)

Lemma parse_names_blank (output : Py.str) :
  all_space output = true -> parse_names output = [].
Proof.
  intros H. apply strip_empty in H. unfold parse_names. rewrite H. reflexivity.
Qed.

Section PollEmpties.

Variable W : World.
Variable options : Options.

Lemma poll_run_nil (t0 : float) (fuel : nat) (s : Calls) (tr : list event)
    (r : result unit) :
  poll_run W options t0 fuel [] s tr r -> tr = [] /\ r = Ok tt.
Proof. intros H. inversion H; subst; auto; contradiction. Qed.

(** If the [virsh list] number [k] succeeds with a blank output, the loop
    entered before that call does not need more than [k - lists s + 1]
    ticks. *)
Lemma poll_stops_when_all_down (t0 : float) (fuel : nat) (running_vms : list Py.str)
    (s : Calls) (tr : list event) (r : result unit) :
  poll_run W options t0 fuel running_vms s tr r ->
  forall k,
    lists s <= k ->
    (returncode (virsh_list W k) =? 0)%Z = true ->
    all_space (stdout (virsh_list W k)) = true ->
    k - lists s < fuel ->
    r <> OutOfFuel /\ List.length (list_queries tr) <= S (k - lists s).
Proof.
  induction 1 as [fuel s | running_vms s Hne
    | fuel running_vms s msgs e now Hne Hz Hc He
    | fuel running_vms s msgs now Hne Hl Hd Hk
    | fuel running_vms s msgs dtr now announce errors Hne Hl Hd Hk Hreq Hcodes
        H1 H2 H3 H4 H5 H6
    | fuel running_vms s msgs now out Hne Hl Hd Hrc
    | fuel running_vms s msgs tr r now out Hne Hl Hd Hrc Hrun IH Hsl
    | fuel running_vms s msgs se now Hne Hl Hd Hsl];
    intros k Hle Hok Hblank Hfuel.
  - simpl. split; [discriminate | lia].
  - lia.
  - trace_goal. split; [discriminate | lia].
  - trace_goal. split; [discriminate | lia].
  - subst errors. destruct (failed (destroy_codes dtr));
      trace_goal; (split; [discriminate | lia]).
  - trace_goal. split; [discriminate | lia].
  - destruct (Nat.eq_dec k (lists s)) as [->|Hk].
    + subst out. rewrite (parse_names_blank _ Hblank) in Hrun.
      apply poll_run_nil in Hrun. destruct Hrun as (-> & ->).
      trace_goal. split; [discriminate | lia].
    + destruct (IH k) as (Hr & Hlen); simpl; auto; try lia.
      split; [exact Hr|]. revert Hlen. trace_goal. lia.
  - trace_goal. split; [destruct se; discriminate | lia].
Qed.

End PollEmpties.

(** X14.  The run needs no more ticks than it takes the machines to go
    away: if the [virsh list] number [k] (counting the one before the dispatch
    as number 0) succeeds with a blank output, the script has ended, one way
    or another, after at most [k + 1] calls of [virsh list], that is after at
    most [k] ticks. *)
Theorem stops_when_all_down (W : World) (options : Options) (fuel k : nat) :
  (returncode (virsh_list W k) =? 0)%Z = true ->
  all_space (stdout (virsh_list W k)) = true ->
  k <= fuel ->
  snd (run W options fuel) <> OutOfFuel
  /\ List.length (list_queries (fst (run W options fuel))) <= S k.
Proof.
  intros Hok Hblank Hfuel.
  destruct (run_sound W options fuel) as (tr & r & -> & Hrun). simpl.
  destruct Hrun as [out0 Hrc | dtr out0 running_vms Hrc Hdt Hf
    | dtr ptr out0 running_vms Hrc Hdt Hf Hp
    | dtr ptr r out0 running_vms Hrc Hdt Hf Hp Hr];
    try split_dispatch Hdt.
  - simpl. split; [discriminate | lia].
  - trace_goal. split; [discriminate | lia].
  - split; [discriminate|].
    destruct k as [|k].
    + subst out0 running_vms. rewrite (parse_names_blank _ Hblank) in Hp.
      apply poll_run_nil in Hp. destruct Hp as (-> & _). trace_goal. lia.
    + destruct (@poll_stops_when_all_down W options _ _ _ _ _ _ Hp (S k))
        as (_ & Hlen); simpl; auto; try lia.
      trace_goal. simpl in Hlen. lia.
  - destruct k as [|k].
    + exfalso. subst out0 running_vms. rewrite (parse_names_blank _ Hblank) in Hp.
      apply poll_run_nil in Hp. destruct Hp as (_ & ->). apply Hr. reflexivity.
    + destruct (@poll_stops_when_all_down W options _ _ _ _ _ _ Hp (S k))
        as (Hr' & Hlen); simpl; auto; try lia.
      split; [exact Hr'|]. trace_goal. simpl in Hlen. lia.
Qed.

(** [stops_when_all_down] on the two obedient machines, gone at the third
    [virsh list]: two ticks are enough. *)
Lemma stops_when_all_down_witness :
  (returncode (virsh_list obedient 2) =? 0)%Z = true
  /\ all_space (stdout (virsh_list obedient 2)) = true
  /\ snd (run obedient default_options 2) <> OutOfFuel.
Proof.
  split; [reflexivity|]. split; [reflexivity|].
  apply (@stops_when_all_down obedient default_options 2 2); [reflexivity | reflexivity | lia].
Defined.

(** ** What the options let a run do *)

Section Allowed.

Variable W : World.
Variable options : Options.


Lemma bind_stays_allowed {A B} (m : M A) (f : A -> M B) :
  stays_allowed options m -> (forall a, stays_allowed options (f a)) ->
  stays_allowed options (bind m f).
Proof.
  intros Hm Hf s. unfold bind. specialize (Hm s).
  destruct (m s) as [[tr s1] [a|e|]]; simpl in *; auto.
  specialize (Hf a s1). destruct (f a s1) as [[tr' s2] r]. simpl in *.
  rewrite forallb_app, Hm, Hf. reflexivity.
Qed.

Lemma print_stays_allowed (m : message) :
  allowed options (Print m) = true -> stays_allowed options (print m).
Proof.
  intros H s. change (allowed options (Print m) && true = true).
  rewrite H. reflexivity.
Qed.

Lemma when_stays_allowed (b : bool) (m : M unit) :
  (b = true -> stays_allowed options m) -> stays_allowed options (when b m).
Proof. destruct b; intros H; [auto | intros s; reflexivity]. Qed.

Lemma list_running_stays_allowed : stays_allowed options (list_running_vms W).
Proof.
  intros s. unfold list_running_vms, bind, check_output_virsh_list, ret. simpl.
  destruct (returncode (virsh_list W (lists s)) =? 0)%Z; reflexivity.
Qed.

Lemma shutdown_all_stays_allowed (running_vms : list Py.str) :
  forall any_errors,
    stays_allowed options (shutdown_all W options running_vms any_errors).
Proof.
  induction running_vms as [|vm rest IH]; intros any_errors; simpl.
  - intros s. reflexivity.
  - apply bind_stays_allowed.
    + intros s. simpl. rewrite eqb_reflx. reflexivity.
    + intros ok. destruct (ok =? 0)%Z eqn:Hok; [apply IH|].
      apply bind_stays_allowed; [|intros _; apply IH].
      apply print_stays_allowed. simpl. rewrite Hok. reflexivity.
Qed.

Lemma destroy_all_stays_allowed (running_vms : list Py.str) :
  kill options = true ->
  forall any_errors,
    stays_allowed options (destroy_all W options running_vms any_errors).
Proof.
  intros Hk. induction running_vms as [|vm rest IH]; intros any_errors; simpl.
  - intros s. reflexivity.
  - apply bind_stays_allowed.
    + intros s. simpl. rewrite Hk, eqb_reflx. reflexivity.
    + intros ok. destruct (ok =? 0)%Z eqn:Hok; [apply IH|].
      apply bind_stays_allowed; [|intros _; apply IH].
      apply when_stays_allowed. intros Hv.
      apply print_stays_allowed. simpl. rewrite Hv, Hk, Hok. reflexivity.
Qed.

Lemma zenity_progress_stays_allowed (n : nat) (t : float) :
  zenity options = true -> stays_allowed options (zenity_progress options n t).
Proof.
  intros Hz. unfold zenity_progress.
  apply bind_stays_allowed; [intros s; reflexivity|]. intros seconds_left.
  apply bind_stays_allowed; [apply print_stays_allowed; exact Hz|]. intros _.
  apply bind_stays_allowed; [intros s; reflexivity|]. intros percent.
  apply print_stays_allowed. exact Hz.
Qed.

Lemma report_stays_allowed (running_vms : list Py.str) (t : float) :
  stays_allowed options (report options running_vms t).
Proof.
  unfold report. cbv zeta.
  apply bind_stays_allowed.
  - apply when_stays_allowed. apply zenity_progress_stays_allowed.
  - intros _. apply when_stays_allowed. intros Hv.
    apply bind_stays_allowed; [apply print_stays_allowed; exact Hv|]. intros _.
    apply print_stays_allowed. reflexivity.
Qed.

Lemma on_timeout_stays_allowed (running_vms : list Py.str) (any_errors : bool) :
  stays_allowed options (on_timeout W options running_vms any_errors).
Proof.
  unfold on_timeout. destruct (kill options) eqn:Hk.
  - apply bind_stays_allowed; [apply print_stays_allowed; exact Hk|]. intros _.
    apply bind_stays_allowed.
    + apply when_stays_allowed. intros Hz. apply print_stays_allowed.
      simpl. rewrite Hz, Hk. reflexivity.
    + intros _. apply bind_stays_allowed; [apply destroy_all_stays_allowed; exact Hk|].
      intros errors. apply when_stays_allowed. intros _.
      apply bind_stays_allowed; [apply print_stays_allowed; exact Hk|].
      intros _ s. reflexivity.
  - apply bind_stays_allowed.
    + apply print_stays_allowed. simpl. rewrite Hk. reflexivity.
    + intros _ s. reflexivity.
Qed.

Lemma loop_body_stays_allowed (t0 : float) (running_vms : list Py.str)
    (any_errors : bool) :
  stays_allowed options (loop_body W options t0 running_vms any_errors).
Proof.
  unfold loop_body.
  apply bind_stays_allowed; [intros s; reflexivity|]. intros now. cbv zeta.
  apply bind_stays_allowed; [apply report_stays_allowed|]. intros _.
  destruct (timed_out options (PrimFloat.sub now t0)).
  - apply bind_stays_allowed; [apply on_timeout_stays_allowed|].
    intros _ s. reflexivity.
  - apply bind_stays_allowed.
    { intros s. unfold time_sleep. destruct (sleep W (interval options)); reflexivity. }
    intros _.
    apply bind_stays_allowed; [apply list_running_stays_allowed|].
    intros vms s. reflexivity.
Qed.

Lemma poll_stays_allowed (fuel : nat) (t0 : float) (any_errors : bool) :
  forall running_vms,
    stays_allowed options (poll W options fuel t0 running_vms any_errors).
Proof.
  induction fuel as [|fuel IH]; intros [|vm vms]; simpl;
    try (intros s; reflexivity).
  apply bind_stays_allowed; [apply loop_body_stays_allowed|].
  intros [next|]; [apply IH | intros s; reflexivity].
Qed.

Lemma main_stays_allowed (fuel : nat) : stays_allowed options (main W options fuel).
Proof.
  unfold main.
  apply bind_stays_allowed; [apply list_running_stays_allowed|]. intros running_vms.
  apply bind_stays_allowed; [apply print_stays_allowed; reflexivity|]. intros _.
  apply bind_stays_allowed.
  { apply when_stays_allowed. intros Hz. apply print_stays_allowed. exact Hz. }
  intros _.
  apply bind_stays_allowed; [apply shutdown_all_stays_allowed|]. intros any_errors.
  apply bind_stays_allowed.
  { apply when_stays_allowed. intros _.
    apply bind_stays_allowed; [apply print_stays_allowed; reflexivity|].
    intros _ s. reflexivity. }
  intros _.
  apply bind_stays_allowed; [intros s; reflexivity|]. intros t0.
  apply bind_stays_allowed; [apply poll_stays_allowed|]. intros _.
  apply bind_stays_allowed.
  { apply print_stays_allowed.
    destruct (zenity options) eqn:Hz; simpl; rewrite Hz; reflexivity. }
  intros _.
  apply bind_stays_allowed.
  { apply when_stays_allowed. intros Hz. apply print_stays_allowed. exact Hz. }
  intros _ s. reflexivity.
Qed.

End Allowed.

(** X15.  A run does only what its options let it do: the output of every
    [virsh shutdown] and [virsh destroy] is discarded exactly when [-v] is
    not given, and [virsh destroy] is called only with [-k]; no line for
    zenity is printed without [-z], and with [-z] the closing message is
    replaced by a bare [#]; a per-machine error line is printed only for a
    non-zero code, and in the destroy loop only with [-v]; the "still waiting"
    line is printed only with [-v] or at an elapsed time past the timeout; the
    timeout error is printed only without [-k], the kill announcement and the
    destroy error only with [-k]. *)
Theorem run_does_what_the_options_allow (W : World) (options : Options) (fuel : nat) :
  forallb (allowed options) (fst (run W options fuel)) = true.
Proof.
  pose proof (main_stays_allowed W options fuel no_calls) as H.
  unfold run. destruct (main W options fuel no_calls) as [[tr s] r]. exact H.
Qed.
